(** * Verification of the investor-enrichment pipeline

    A shallow embedding of [src/classify.py], [src/extract.py] and
    [src/main.py]: the reconciler [sanitize_record], the column normalizer,
    website resolution, JSON recovery and the per-row orchestration.

    Conventions of the embedding.
    - A Python [str] is a Rocq [string], one [ascii] per character; the model
      covers text whose characters are code points below 256.
    - A JSON-like Python object is a [value]; a [dict] with string keys is a
      [gmap string value], so that two dicts with the same items are equal.
    - A call that can raise returns an [option]: [None] stands for the raised
      exception.
    - Library functions ([str()], [json.loads], [urlparse], [parse_qs],
      [urljoin]) and the network collaborators are Section variables. *)

From Stdlib Require Import ZArith QArith String Ascii List Lia Lqa.
From Stdlib Require Import Floats.SpecFloat.
From stdpp Require Import gmap strings list fin_maps pretty.

Set Warnings "-register-all,-abstract-large-number".

(* ===================================================================== *)
(** * Python strings *)
(* ===================================================================== *)

Module PyStr.

(** [str.isspace] on one character (code points below 256): TAB, LF, VT,
    FF, CR, the separators 0x1c-0x1f, SPACE, NEL (0x85) and NBSP (0xa0). *)
Definition isspace (c : ascii) : bool :=
  let n := nat_of_ascii c in
  (((9 <=? n) && (n <=? 13)) || ((28 <=? n) && (n <=? 32))
   || (n =? 133) || (n =? 160))%nat.

(** [str.lower] on one character: A-Z and the Latin-1 capitals
    0xc0-0xde (0xd7, the multiplication sign, excepted). *)
Definition lower_char (c : ascii) : ascii :=
  let n := nat_of_ascii c in
  if (((65 <=? n) && (n <=? 90))
      || ((192 <=? n) && (n <=? 222) && negb (n =? 215)))%nat
  then ascii_of_nat (n + 32) else c.

Fixpoint lower (s : string) : string :=
  match s with
  | EmptyString => EmptyString
  | String c s' => String (lower_char c) (lower s')
  end.

Fixpoint lstrip (s : string) : string :=
  match s with
  | EmptyString => EmptyString
  | String c s' => if isspace c then lstrip s' else s
  end.

Fixpoint rstrip (s : string) : string :=
  match s with
  | EmptyString => EmptyString
  | String c s' =>
      match rstrip s' with
      | EmptyString => if isspace c then EmptyString else String c EmptyString
      | r => String c r
      end
  end.

(** [s.strip()] *)
Definition strip (s : string) : string := rstrip (lstrip s).

(** Truthiness of a string: [bool(s)]. *)
Definition nonempty (s : string) : bool :=
  match s with EmptyString => false | _ => true end.

(** [s[:n]] *)
Fixpoint slice_to (n : nat) (s : string) : string :=
  match n, s with
  | O, _ => EmptyString
  | _, EmptyString => EmptyString
  | S n', String c s' => String c (slice_to n' s')
  end.

(** [s[:n]] for an [int] [n]: a negative [n] counts from the end of the
    text, and stops at its start. *)
Definition slice_to_int (n : Z) (s : string) : string :=
  if (n <? 0)%Z
  then slice_to (Z.to_nat (Z.of_nat (String.length s) + n)) s
  else slice_to (Z.to_nat n) s.

(** [s.startswith(p)] *)
Definition startswith (s p : string) : bool := String.prefix p s.

(** [needle in hay] on strings. *)
Fixpoint contains (hay needle : string) : bool :=
  String.prefix needle hay
  || match hay with
     | EmptyString => false
     | String _ hay' => contains hay' needle
     end.

(** [any(w in s for w in ws)] *)
Definition any_in (ws : list string) (s : string) : bool :=
  existsb (contains s) ws.

(** [sep.join(xs)] *)
Definition join (sep : string) (xs : list string) : string :=
  String.concat sep xs.

Definition last_char (s : string) : option ascii :=
  match String.rev s with
  | EmptyString => None
  | String c _ => Some c
  end.

End PyStr.

(* ===================================================================== *)
(** * Python values *)
(* ===================================================================== *)

Inductive value : Type :=
| VNone
| VBool (b : bool)
| VInt (z : Z)
| VFloat (f : spec_float)
| VStr (s : string)
| VList (l : list value)
| VDict (d : gmap string value).

(** [bool(v)] *)
Definition truthy (v : value) : bool :=
  match v with
  | VNone => false
  | VBool b => b
  | VInt z => negb (z =? 0)%Z
  | VFloat (S754_zero _) => false
  | VFloat _ => true
  | VStr s => PyStr.nonempty s
  | VList l => match l with [] => false | _ => true end
  | VDict d => negb (Nat.eqb (size d) 0)
  end.

(** [d.get(k)]: a missing key reads as [None]. *)
Definition dict_get (d : gmap string value) (k : string) : value :=
  default VNone (d !! k).

(** [v == s] for a string literal [s]. *)
Definition eq_str (v : value) (s : string) : bool :=
  match v with
  | VStr t => String.eqb t s
  | _ => false
  end.

(** An optional string as a value ([None] or a [str]). *)
Definition of_opt_str (o : option string) : value :=
  match o with
  | None => VNone
  | Some s => VStr s
  end.

(** [0.0] *)
Definition float_zero : spec_float := S754_zero false.

(* ===================================================================== *)
(** * src/classify.py *)
(* ===================================================================== *)

Module Classify.

(** A Python number: an [int] or a [float]. *)
Inductive number :=
| NInt (z : Z)
| NFloat (f : spec_float).

(** The exact mathematical value of a number. Python compares an [int]
    with a [float] exactly, so the comparisons below are on this value. *)
Inductive exact :=
| Finite (q : Q)
| PlusInf
| MinusInf
| NotANumber.

Definition exact_of (x : number) : exact :=
  match x with
  | NInt z => Finite (inject_Z z)
  | NFloat (S754_zero _) => Finite 0
  | NFloat (S754_infinity false) => PlusInf
  | NFloat (S754_infinity true) => MinusInf
  | NFloat S754_nan => NotANumber
  | NFloat (S754_finite s m e) =>
      Finite (inject_Z (if s then Z.neg m else Z.pos m) * (2 ^ e))%Q
  end.

(** [a <= b] *)
Definition num_le (a b : exact) : bool :=
  match a, b with
  | NotANumber, _ | _, NotANumber => false
  | MinusInf, _ => true
  | _, PlusInf => true
  | Finite p, Finite q => Qle_bool p q
  | _, _ => false
  end.

(** [a < b] *)
Definition num_lt (a b : exact) : bool :=
  match a, b with
  | NotANumber, _ | _, NotANumber => false
  | MinusInf, MinusInf => false
  | MinusInf, _ => true
  | PlusInf, _ => false
  | _, PlusInf => true
  | Finite p, Finite q => negb (Qle_bool q p)
  | _, _ => false
  end.

Definition int_lit (z : Z) : exact := Finite (inject_Z z).

Definition infer_stage_from_ticket (amount_usd : option number)
  : option string :=
  match amount_usd with
  | None => None
  | Some n =>
      let a := exact_of n in
      if num_le (int_lit 100000) a && num_le a (int_lit 500000)
      then Some "Pre-seed"
      else if num_lt (int_lit 500000) a && num_le a (int_lit 2000000)
      then Some "Seed"
      else if num_lt (int_lit 2000000) a && num_le a (int_lit 10000000)
      then Some "Series A"
      else if num_lt (int_lit 10000000) a && num_le a (int_lit 30000000)
      then Some "Series B"
      else if num_lt (int_lit 30000000) a
      then Some "Series C"
      else None
  end.

(** The funding-classification keyword hints, in table order. *)
Definition CLS_HINTS : list (string * list string) :=
  [ ("Sovereign Wealth Funds",
      ["sovereign wealth"; "fund for future generations"; "pif";
       "mubadala"; "qia"]);
    ("Venture Capital Funds",
      ["venture capital"; "vc fund"; "seed fund"; "growth fund";
       "series a"; "series b"]);
    ("Angel Investors",
      ["angel investor"; "angel network"; "angel group"; "syndicate"]);
    ("Microfinance Institutions",
      ["microfinance"; "micro-credit"; "micro finance"]);
    ("Accelerators", ["accelerator program"; "acceleration program"]);
    ("Incubators", ["incubator"; "incubation program"]);
    ("Investment Firms",
      ["investment firm"; "investment company"; "private equity";
       "holding company"; "investment bank"; "merchant bank"]);
    ("Coworking Spaces", ["coworking"; "co-working"; "shared workspace"]);
    ("Entrepreneurship Support Agencies",
      ["agency"; "authority"; "ministry"; "directorate";
       "national program"; "ecosystem support"; "policy program"]);
    ("Universities & Research Centers",
      ["university"; "research center"; "research institute";
       "technology transfer"; "tto"]) ].

(** The loop of [heuristic_funding_classification]: the first label one
    of whose keywords occurs in [s]. *)
Fixpoint first_hint (hints : list (string * list string)) (s : string)
  : option string :=
  match hints with
  | [] => None
  | (label, kws) :: rest =>
      if PyStr.any_in kws s then Some label else first_hint rest s
  end.

Definition heuristic_funding_classification (name text : string) : string :=
  let s := PyStr.lower (name +:+ " " +:+ text) in
  match first_hint CLS_HINTS s with
  | Some label => label
  | None =>
      if PyStr.contains s "bank" then "Investment Firms"
      else "Investment Firms"
  end.

Definition NEW_SECTOR_KEYWORDS : list (string * list string) :=
  [ ("ICT", ["software"; "ai"; "cloud"; "big data"; "cybersecurity";
             "fintech"; "insurtech"; "proptech"; "e-commerce"]);
    ("Health", ["biotech"; "pharma"; "medtech"; "digital health";
                "life sciences"]);
    ("Energy", ["renewable"; "solar"; "wind"; "hydro"; "cleantech";
                "energy storage"; "efficiency"; "oil"; "gas"]);
    ("Agriculture", ["agritech"; "agri-tech"; "agriculture"; "farming";
                     "foodtech"; "crop"; "livestock"]);
    ("Environment", ["water management"; "waste"; "recycling"; "climate";
                     "conservation"; "carbon"]);
    ("Industry & Manufacturing",
      ["robotics"; "automation"; "advanced materials"; "3d printing";
       "manufacturing"]);
    ("Transportation & Mobility",
      ["aviation"; "automotive"; "shipping"; "logistics"; "ev";
       "mobility"; "space tech"]);
    ("Education", ["edtech"; "education"; "training"; "skills";
                   "learning"]);
    ("Creative Industries", ["media"; "gaming"; "film"; "design";
                             "digital content"; "creative"]);
    ("Infrastructure & Real Estate",
      ["real estate"; "housing"; "smart city"; "construction";
       "industrial zone"; "infrastructure"]);
    ("Social Impact", ["poverty"; "women"; "refugee"; "youth employment";
                       "inclusive"]);
    ("Business & Professional Services",
      ["banking"; "insurance"; "asset management"; "consulting";
       "law firm"; "advisory"; "professional services"]) ].

(** [infer_sectors_multi]; [text] is [None] or a string. *)
Definition infer_sectors_multi (text : option string) : list string :=
  let s := PyStr.lower (default "" text) in
  let hits :=
    omap (fun '(sector, kws) =>
            if PyStr.any_in kws s then Some sector else None)
         NEW_SECTOR_KEYWORDS in
  firstn 4 hits.

End Classify.

(* ===================================================================== *)
(** * src/main.py: website resolution *)
(* ===================================================================== *)

Module Web.

(** A search hit: the [href], [link] and [title] entries of the dict the
    search collaborator returns ([None] when the key is absent). *)
Record hit := {
  href : option string;
  link : option string;
  title : option string
}.

(** The parts of [urlparse]'s result that the code reads. *)
Record parsed_url := {
  netloc : string;
  path : string;
  query : string
}.

(** [a or b] on optional strings. *)
Definition or_str (a b : option string) : option string :=
  match a with
  | Some s => if PyStr.nonempty s then a else b
  | None => b
  end.

Definition starts_http (s : string) : bool :=
  PyStr.startswith s "http://" || PyStr.startswith s "https://".

(** [_is_social]; called on strings only, so [url or ""] is [url]. *)
Definition _is_social (url : string) : bool :=
  let u := PyStr.lower url in
  PyStr.any_in
    ["linkedin.com"; "facebook.com"; "twitter.com"; "x.com";
     "instagram.com"; "t.co"] u.

(** ** The regular expressions, written out *)

Fixpoint take_while (p : ascii -> bool) (s : string) : string :=
  match s with
  | EmptyString => EmptyString
  | String c s' => if p c then String c (take_while p s') else EmptyString
  end.

(** [s[n:]] *)
Fixpoint slice_from (n : nat) (s : string) : string :=
  match n, s with
  | O, _ => s
  | _, EmptyString => EmptyString
  | S n', String _ s' => slice_from n' s'
  end.

(** [[^\s)]] *)
Definition url_char (c : ascii) : bool :=
  negb (PyStr.isspace c) && negb (Ascii.eqb c ")").

(** [[A-Za-z]] *)
Definition is_letter (c : ascii) : bool :=
  let n := nat_of_ascii c in
  (((65 <=? n) && (n <=? 90)) || ((97 <=? n) && (n <=? 122)))%nat.

(** [[A-Za-z0-9.-]] *)
Definition label_char (c : ascii) : bool :=
  let n := nat_of_ascii c in
  is_letter c || ((48 <=? n) && (n <=? 57))%nat
  || Ascii.eqb c "." || Ascii.eqb c "-".

(** [https?://] matched without regard to case at the start of [s]:
    the length of the scheme. *)
Definition scheme_len (s : string) : option nat :=
  if String.prefix "https://" (PyStr.lower s) then Some 8
  else if String.prefix "http://" (PyStr.lower s) then Some 7
  else None.

(** [https?://[^\s)]+] anchored at the start of [s]. *)
Definition http_url_at (s : string) : option string :=
  match scheme_len s with
  | Some n =>
      let body := take_while url_char (slice_from n s) in
      if PyStr.nonempty body then Some (PyStr.slice_to n s +:+ body) else None
  | None => None
  end.

(** [re.search(r"https?://[^\s)]+", s, re.IGNORECASE)]: the leftmost
    match. *)
Fixpoint search_http_url (s : string) : option string :=
  match http_url_at s with
  | Some m => Some m
  | None =>
      match s with
      | EmptyString => None
      | String _ s' => search_http_url s'
      end
  end.

(** Within a run of label characters: the length up to the end of the
    letters that follow the last dot with two letters or more after it. *)
Fixpoint last_tld (r : string) : option nat :=
  match r with
  | EmptyString => None
  | String c r' =>
      match last_tld r' with
      | Some n => Some (S n)
      | None =>
          let letters := String.length (take_while is_letter r') in
          if Ascii.eqb c "." && (2 <=? letters)%nat
          then Some (S letters) else None
      end
  end.

(** Group 1 of [DOMAIN_RE], [[A-Za-z0-9.-]+\.[A-Za-z]{2,}], anchored at
    the start of [s]: the greedy label run, backtracked to its last
    dot that two letters follow. *)
Definition domain_at (s : string) : option string :=
  match take_while label_char s with
  | EmptyString => None
  | String c r' =>
      match last_tld r' with
      | Some n => Some (String c (PyStr.slice_to n r'))
      | None => None
      end
  end.

(** [DOMAIN_RE] anchored at the start of [s]: with the optional scheme
    first, without it next. *)
Definition domain_re_at (s : string) : option string :=
  match scheme_len s with
  | Some n =>
      match domain_at (slice_from n s) with
      | Some d => Some d
      | None => domain_at s
      end
  | None => domain_at s
  end.

(** [DOMAIN_RE.search(s)], group 1 of the leftmost match. *)
Fixpoint search_domain (s : string) : option string :=
  match domain_re_at s with
  | Some d => Some d
  | None =>
      match s with
      | EmptyString => None
      | String _ s' => search_domain s'
      end
  end.

Definition _normalize_scheme (url : string) : option string :=
  let url := PyStr.strip url in
  if negb (PyStr.nonempty url) then None
  else if starts_http url then Some url
  else Some ("https://" +:+ url).

Definition _extract_url_from_freeform (text : string) : option string :=
  let s := PyStr.strip text in
  if negb (PyStr.nonempty s) then None
  else
    match search_http_url s with
    | Some m => Some m
    | None =>
        match search_domain s with
        | Some domain =>
            if _is_social domain then None else _normalize_scheme domain
        | None => None
        end
    end.

Section Urllib.

(** [urllib.parse.urlparse] ([None]: it raised) and
    [urllib.parse.parse_qs]. *)
Variable urlparse : string -> option parsed_url.
Variable parse_qs : string -> option (gmap string (list string)).

(** The [try] block of [_normalize_ddg_href]: the [uddg] value it
    returns; [None] when the block falls through or raises, both of
    which end in the final [return None]. *)
Definition ddg_redirect_target (raw : string) : option string :=
  match urlparse raw with
  | Some p =>
      if PyStr.contains (netloc p) "duckduckgo.com"
         && PyStr.startswith (path p) "/l/"
      then
        match parse_qs (query p) with
        | Some qs =>
            match qs !! "uddg" with
            | Some (uddg :: _) =>
                if starts_http uddg then Some uddg else None
            | Some [] => None
            | None => None
            end
        | None => None
        end
      else None
  | None => None
  end.

(** [_normalize_ddg_href]; the argument is [None] when it is not a
    [str]. *)
Definition _normalize_ddg_href (raw : option string) : option string :=
  match raw with
  | None => None
  | Some raw =>
      let raw := PyStr.strip raw in
      if negb (PyStr.nonempty raw) then None
      else if starts_http raw then Some raw
      else ddg_redirect_target raw
  end.

(** [candidate = r.get("href") or r.get("link")], then
    [_normalize_ddg_href(candidate) if candidate else None]. *)
Definition hit_candidate (r : hit) : option string :=
  match or_str (href r) (link r) with
  | Some c => if PyStr.nonempty c then _normalize_ddg_href (Some c) else None
  | None => None
  end.

Definition usable (candidate : option string) : bool :=
  match candidate with
  | Some c => PyStr.nonempty c && negb (_is_social c)
  | None => false
  end.

Fixpoint first_usable_hit (search_results : list hit) : option string :=
  match search_results with
  | [] => None
  | r :: rest =>
      let candidate := hit_candidate r in
      if usable candidate then candidate else first_usable_hit rest
  end.

Definition choose_website (favorite_url : option string)
    (search_results : list hit) : option string :=
  let from_favorite :=
    match favorite_url with
    | Some f =>
        if PyStr.nonempty (PyStr.strip f) then
          let fav := _extract_url_from_freeform f in
          if usable fav then fav else None
        else None
    | None => None
    end in
  match from_favorite with
  | Some fav => Some fav
  | None => first_usable_hit search_results
  end.

End Urllib.

End Web.

(* ===================================================================== *)
(** * src/main.py: the record reconciler and the column normalizer *)
(* ===================================================================== *)

Module Main.

(** The [org] dict that [main] builds: [name], [country] and [website]
    are strings or [None]. *)
Record organization := {
  org_name : option string;
  org_country : option string;
  org_website : option string
}.

(** [o or d] for an optional string. *)
Definition str_or (o : option string) (d : string) : string :=
  match o with
  | Some s => if PyStr.nonempty s then s else d
  | None => d
  end.

(** [clip(s, n)], for any [int] [n]. *)
Definition clip (s : string) (n : Z) : option string :=
  if negb (PyStr.nonempty s) then None
  else
    let s := PyStr.strip s in
    if (n <? Z.of_nat (String.length s))%Z
    then Some (PyStr.slice_to_int n s +:+ "...")
    else Some s.

(** [_joined_text] on the ordered [texts] dict. *)
Definition _joined_text (texts_dict : list (string * string)) : string :=
  match texts_dict with
  | [] => ""
  | _ => PyStr.join " " (snd <$> texts_dict)
  end.

Section Str.

(** The builtin [str()] on values that are not strings. *)
Variable py_str : value -> string.

(** The four keys tried on a dict item, in order: the first whose
    value is a string that is not blank, stripped. *)
Fixpoint dict_label (item : gmap string value) (keys : list string)
  : option string :=
  match keys with
  | [] => None
  | k :: rest =>
      match dict_get item k with
      | VStr v =>
          if PyStr.nonempty (PyStr.strip v) then Some (PyStr.strip v)
          else dict_label item rest
      | _ => dict_label item rest
      end
  end.

(** One round of the loop over a list of sectors: what the item
    appends to [out]. *)
Definition sector_item (item : value) : list string :=
  match item with
  | VStr s =>
      let s := PyStr.strip s in
      if PyStr.nonempty s then [s] else []
  | VDict d =>
      match dict_label d ["name"; "label"; "value"; "sector"] with
      | Some v => [v]
      | None => []
      end
  | _ =>
      let s := PyStr.strip (py_str item) in
      if PyStr.nonempty s then [s] else []
  end.

Definition _as_string_sector_list (raw : value) : list string :=
  match raw with
  | VNone => []
  | VStr s => if PyStr.nonempty (PyStr.strip s) then [PyStr.strip s] else []
  | VList l => concat (sector_item <$> l)
  | _ =>
      let s := PyStr.strip (py_str raw) in
      if PyStr.nonempty s then [s] else []
  end.

End Str.

(** Lookup in a dict literal whose keys are distinct strings. *)
Fixpoint assoc {A} (table : list (string * A)) (s : string) : option A :=
  match table with
  | [] => None
  | (k, v) :: rest => if String.eqb k s then Some v else assoc rest s
  end.

(** [T.get(k)] and [D.get(k, default)] on such a table, for a key that
    is any value: a list or a dict cannot be hashed and raises (outer
    [None]); another value that is not a string is not found. *)
Definition table_get {A} (table : list (string * A)) (k : value)
  : option (option A) :=
  match k with
  | VStr s => Some (assoc table s)
  | VList _ | VDict _ => None
  | _ => Some None
  end.

(** The template table of [synth_additional_info]. *)
Definition templates (name region sec_txt : string)
  : list (string * string) :=
  [ ("Venture Capital Funds",
      "A venture capital firm investing across " +:+ sec_txt +:+ ". "
      +:+ name +:+ " backs startups in " +:+ region
      +:+ " with funding and strategic support.");
    ("Investment Firms",
      "An investment firm providing capital and strategic support across "
      +:+ sec_txt +:+ ". " +:+ name +:+ " partners with companies in "
      +:+ region +:+ " to scale and optimize operations.");
    ("Angel Investors",
      "An angel "
      +:+ (if PyStr.contains (PyStr.lower name) "network"
           then "network" else "investor")
      +:+ " backing early-stage startups in " +:+ sec_txt +:+ ". "
      +:+ name +:+ " supports founders in " +:+ region
      +:+ " with capital and guidance.");
    ("Microfinance Institutions",
      "A microfinance institution enabling access to finance for micro and small enterprises. "
      +:+ name +:+ " serves entrepreneurs in " +:+ region
      +:+ " through tailored credit solutions.");
    ("Accelerators",
      "An accelerator delivering programs and mentorship for startups. "
      +:+ name +:+ " helps founders in " +:+ region
      +:+ " validate, build, and grow.");
    ("Incubators",
      "An incubator providing workspace and hands-on support for early ventures. "
      +:+ name +:+ " nurtures entrepreneurs in " +:+ region
      +:+ " from idea to startup.");
    ("Sovereign Wealth Funds",
      "A sovereign wealth fund investing for long-term national value. "
      +:+ name +:+ " allocates capital to diversified sectors in "
      +:+ region +:+ ".");
    ("Coworking Spaces",
      "A coworking hub offering flexible workspace and community for entrepreneurs. "
      +:+ name +:+ " hosts teams and events in " +:+ region +:+ ".");
    ("Entrepreneurship Support Agencies",
      "An ecosystem support organization delivering programs and services for entrepreneurs. "
      +:+ name +:+ " promotes startup growth in " +:+ region +:+ ".");
    ("Universities & Research Centers",
      "A university/research center fostering innovation and commercialization. "
      +:+ name +:+ " supports research-based ventures in " +:+ region
      +:+ ".") ].

Definition generic_template (name region sec_txt : string) : string :=
  "An organization operating across " +:+ sec_txt +:+ ". " +:+ name
  +:+ " supports businesses in " +:+ region +:+ ".".

(** [synth_additional_info]; the outer [None] is the [TypeError] of a
    classification that cannot be hashed. *)
Definition synth_additional_info (name : string) (country : option string)
    (fc : value) (sectors : list string) : option (option string) :=
  let region := str_or country "the region" in
  let sec_txt :=
    match sectors with
    | [] => "key industries"
    | _ => PyStr.join ", " sectors
    end in
  found ← table_get (templates name region sec_txt) fc;
  let text :=
    match found with
    | Some t => if PyStr.nonempty t then t else generic_template name region sec_txt
    | None => generic_template name region sec_txt
    end in
  Some (clip text 220).

Definition SECTOR_ALIAS_WRITE : list (string * string) :=
  [ ("Information & Communication Technology (ICT)", "ICT");
    ("ICT", "ICT") ].

Definition DEFAULT_SECTOR_BY_FC : list (string * string) :=
  [ ("Investment Firms", "Business & Professional Services");
    ("Sovereign Wealth Funds", "Business & Professional Services");
    ("Venture Capital Funds", "Business & Professional Services");
    ("Angel Investors", "Business & Professional Services");
    ("Microfinance Institutions", "Business & Professional Services");
    ("Accelerators", "Business & Professional Services");
    ("Incubators", "Business & Professional Services");
    ("Coworking Spaces", "Business & Professional Services");
    ("Entrepreneurship Support Agencies", "Business & Professional Services");
    ("Universities & Research Centers", "Education") ].

(** The members of the set literal [ALLOWED_SECTORS]. *)
Definition allowed_list : list string :=
  [ "Information & Communication Technology (ICT)"; "ICT"; "Health";
    "Energy"; "Agriculture"; "Environment"; "Industry & Manufacturing";
    "Transportation & Mobility"; "Education"; "Creative Industries";
    "Infrastructure & Real Estate"; "Social Impact";
    "Business & Professional Services" ].

Definition ALLOWED_SECTORS : gset string := list_to_set allowed_list.

(** [[s for s in xs if s in ALLOWED_SECTORS]] *)
Definition allowed_only (xs : list string) : list string :=
  filter (fun s => s ∈ ALLOWED_SECTORS) xs.

Definition map_sector_label_for_sheet (s : string) : string :=
  match table_get SECTOR_ALIAS_WRITE (VStr s) with
  | Some (Some t) => t
  | _ => s
  end.

(** [list(dict.fromkeys(xs))]: the keys are inserted in turn, a key that
    is already there keeps its place. *)
Definition fromkeys (xs : list string) : list string :=
  fold_left (fun keys x => if decide (x ∈ keys) then keys else keys ++ [x])
            xs [].

(** [v.strip()] on a value: an [AttributeError] unless it is a string. *)
Definition strip_value (v : value) : option string :=
  match v with
  | VStr s => Some (PyStr.strip s)
  | _ => None
  end.

(** [a or b] on values. *)
Definition py_or (a b : value) : value := if truthy a then a else b.

Definition angel_type_of_name (org : organization) : string :=
  let name_lower := PyStr.lower (str_or (org_name org) "") in
  if PyStr.contains name_lower "network"
     || PyStr.contains name_lower "group"
     || PyStr.contains name_lower "syndicate"
  then "network" else "individual".

(** [isinstance(ai, str) and len(ai.strip()) > 10], after [ai] was found
    truthy. *)
Definition long_text (ai : value) : option string :=
  match ai with
  | VStr s =>
      if truthy ai && (10 <? String.length (PyStr.strip s))%nat
      then Some s else None
  | _ => None
  end.

Section Sanitize.

Variable py_str : value -> string.

(** Lines 289-295: the sectors before deduplication; [None] when the
    default lookup raises. *)
Definition sector_chain (record : gmap string value)
    (inferred_sectors : value) : option (list string) :=
  let model_secs_raw :=
    _as_string_sector_list py_str (dict_get record "sectors") in
  let model_secs := allowed_only model_secs_raw in
  let model_secs :=
    match model_secs with
    | [] => allowed_only (_as_string_sector_list py_str inferred_sectors)
    | _ => model_secs
    end in
  match model_secs with
  | [] =>
      fc ← record !! "funding_classification";
      found ← table_get DEFAULT_SECTOR_BY_FC fc;
      Some [default "Business & Professional Services" found]
  | _ => Some model_secs
  end.

Definition sanitize_record (org : organization)
    (record : gmap string value) (heuristic_fc : string)
    (inferred_sectors : value) : option (gmap string value) :=
  fc ← strip_value (py_or (dict_get record "funding_classification")
                          (VStr ""));
  let record :=
    if PyStr.nonempty fc then record
    else <["funding_classification" :=
             VStr (if PyStr.nonempty heuristic_fc then heuristic_fc
                   else "Investment Firms")]> record in
  cls ← record !! "funding_classification";
  let record :=
    if eq_str cls "Angel Investors" then
      let at_ := dict_get record "angel_type" in
      if truthy at_ then record
      else <["angel_type" := VStr (angel_type_of_name org)]> record
    else <["angel_type" := VNone]> record in
  model_secs ← sector_chain record inferred_sectors;
  let sectors := firstn 4 (fromkeys model_secs) in
  let record := <["sectors" := VList (VStr <$> sectors)]> record in
  let ai := dict_get record "additional_info" in
  info ←
    match long_text ai with
    | Some s => Some (clip s 220)
    | None =>
        cls ← record !! "funding_classification";
        synth_additional_info
          (str_or (org_name org) "") (org_country org) cls
          (map_sector_label_for_sheet <$> sectors)
    end;
  let record := <["additional_info" := of_opt_str info]> record in
  cls ← record !! "funding_classification";
  let record :=
    if negb (eq_str cls "Venture Capital Funds") then
      <["ticket_size_currency" := VNone]>
        (<["ticket_size_usd_max" := VNone]>
           (<["ticket_size_usd_min" := VNone]>
              (<["stages" := VList []]> record)))
    else record in
  let srcs := py_or (dict_get record "sources") (VList []) in
  let record :=
    <["sources" := match srcs with
                   | VList l => VList (firstn 5 l)
                   | _ => VList []
                   end]> record in
  Some record.

End Sanitize.

(** The names of the output columns, [cfg["excel"]["out_cols"]]. *)
Record out_cols := {
  col_funding_classification : string;
  col_sector : string;
  col_ticket_size_vc : string;
  col_angel_type : string;
  col_note : string
}.

Fixpoint chars (s : string) : list string :=
  match s with
  | EmptyString => []
  | String c s' => String c EmptyString :: chars s'
  end.

Section Keys.

(** [list(d)]: the keys of a dict in the order of their insertion. A
    [gmap] does not keep that order, so it is a parameter. *)
Variable dict_keys : gmap string value -> list string.

(** The strings a value yields when it is iterated and each item must be
    a string: a list of strings, a string (its characters) or a dict (its
    keys). [None] stands for the [TypeError] of a value that cannot be
    iterated or of an item that is not a string. *)
Definition iter_strings (v : value) : option (list string) :=
  match v with
  | VList l =>
      mapM (fun x => match x with VStr s => Some s | _ => None end) l
  | VStr s => Some (chars s)
  | VDict d => Some (dict_keys d)
  | _ => None
  end.

Definition normalize_to_columns (record : gmap string value)
    (cols : out_cols) : option (gmap string value) :=
  let out : gmap string value := ∅ in
  let fc := dict_get record "funding_classification" in
  let out := <[col_funding_classification cols := fc]> out in
  raw ← iter_strings (py_or (dict_get record "sectors") (VList []));
  let sectors := map_sector_label_for_sheet <$> raw in
  let out :=
    <[col_sector cols := match sectors with
                         | [] => VNone
                         | _ => VStr (PyStr.join ", " sectors)
                         end]> out in
  let stages := py_or (dict_get record "stages") (VList []) in
  ticket ←
    (if eq_str fc "Venture Capital Funds" && truthy stages
     then st ← iter_strings stages; Some (VStr (PyStr.join ", " st))
     else Some VNone);
  let out := <[col_ticket_size_vc cols := ticket]> out in
  let angel_type := dict_get record "angel_type" in
  let out :=
    <[col_angel_type cols :=
        if eq_str fc "Angel Investors" then angel_type else VNone]> out in
  let out := <[col_note cols := dict_get record "additional_info"]> out in
  Some out.

End Keys.

End Main.

(* ===================================================================== *)
(** * src/extract.py *)
(* ===================================================================== *)

Module Extract.

Import Main.

Definition nl : string := String (ascii_of_nat 10) EmptyString.

(** How an f-string prints an optional string. *)
Definition fmt (o : option string) : string := default "None" o.

Definition build_prompt (instructions : string) (org : organization)
    (texts : list (string * string)) : string :=
  let scraped_snippets :=
    (fun '(url, t) =>
       "URL: " +:+ url +:+ nl +:+ "TEXT: " +:+ PyStr.slice_to 4000 t)
      <$> texts in
  let scraped := PyStr.join (nl +:+ nl) (firstn 6 scraped_snippets) in
  let user :=
    "ORGANIZATION:" +:+ nl
    +:+ "name: " +:+ fmt (org_name org) +:+ nl
    +:+ "country: " +:+ fmt (org_country org) +:+ nl
    +:+ "website: " +:+ fmt (org_website org) +:+ nl
    +:+ nl
    +:+ "SCRAPED:" +:+ nl
    +:+ scraped +:+ nl in
  instructions +:+ nl +:+ nl +:+ user.

(** ** [re.search(r'\{.*\}', out, flags=re.S)] *)

(** The suffix of [s] from its first opening brace. *)
Fixpoint from_open_brace (s : string) : option string :=
  match s with
  | EmptyString => None
  | String c s' => if Ascii.eqb c "{" then Some s else from_open_brace s'
  end.

(** The longest prefix of [s] that ends with a closing brace. *)
Fixpoint upto_last_close (s : string) : option string :=
  match s with
  | EmptyString => None
  | String c s' =>
      match upto_last_close s' with
      | Some r => Some (String c r)
      | None => if Ascii.eqb c "}" then Some (String c EmptyString) else None
      end
  end.

Definition brace_block (out : string) : option string :=
  match from_open_brace out with
  | Some (String c rest) => String c <$> upto_last_close rest
  | _ => None
  end.

(** The snippet of the fallback note. *)
Definition raw_snippet (out : string) : string :=
  let snippet := PyStr.strip out in
  if (400 <? String.length snippet)%nat
  then PyStr.slice_to 400 snippet +:+ "..." else snippet.

Definition fallback_record (org : organization) (out : string)
  : gmap string value :=
  list_to_map
    [ ("name", of_opt_str (org_name org));
      ("country", of_opt_str (org_country org));
      ("website", of_opt_str (org_website org));
      ("classification", VNone);
      ("sectors", VList []);
      ("angel_type", VNone);
      ("ticket_size_usd_min", VNone);
      ("ticket_size_usd_max", VNone);
      ("ticket_size_currency", VNone);
      ("stages", VList []);
      ("notes", VStr ("Model returned non-JSON. Raw snippet: "
                      +:+ raw_snippet out));
      ("sources", VList []);
      ("confidence", VFloat float_zero) ].

Section Providers.

(** [json.loads]; [None] when it raises. *)
Variable json_loads : string -> option value.

(** The provider calls, on the model name, the prompt, [max_tokens]
    and [temperature]; [None] when the call raises. *)
Variable call_ollama : string -> string -> Z -> spec_float -> option string.
Variable call_openai : string -> string -> Z -> spec_float -> option string.

(** [extract_record] from the point where the raw text [out] is there. *)
Definition parse_output (org : organization) (out : string) : value :=
  match json_loads out with
  | Some v => v
  | None =>
      let recovered :=
        match brace_block out with
        | Some m => json_loads m
        | None => None
        end in
      match recovered with
      | Some v => v
      | None => VDict (fallback_record org out)
      end
  end.

(** [extract_record]; [None] when it raises. *)
Definition extract_record (provider model instructions : string)
    (org : organization) (texts : list (string * string))
    (max_tokens : Z) (temperature : spec_float) : option value :=
  let prompt := build_prompt instructions org texts in
  out ←
    (if String.eqb provider "ollama"
     then call_ollama model prompt max_tokens temperature
     else if String.eqb provider "openai"
     then call_openai model prompt max_tokens temperature
     else None);
  Some (parse_output org out).

End Providers.

End Extract.

(* ===================================================================== *)
(** * src/scrape.py, src/utils.py and the row loop of src/main.py *)
(* ===================================================================== *)

Module Row.

Import Main.

Definition COMMON_PATHS : list string :=
  [ "/about"; "/about-us"; "/who-we-are"; "/programs"; "/programmes";
    "/portfolio"; "/investments"; "/our-investments"; "/companies";
    "/what-we-do"; "/strategy" ].

(** [texts[k] = v] on an ordered dict: a key that is there keeps its
    place. *)
Fixpoint dict_set (texts : list (string * string)) (k v : string)
  : list (string * string) :=
  match texts with
  | [] => [(k, v)]
  | (k', v') :: rest =>
      if String.eqb k' k then (k, v) :: rest
      else (k', v') :: dict_set rest k v
  end.

(** The configuration entries the row loop reads. *)
Record config := {
  llm_provider : string;
  llm_model : string;
  llm_max_tokens : Z;
  llm_temperature : spec_float;
  max_pages_per_site : Z;
  excel_out_cols : out_cols
}.

Section World.

Variable py_str : value -> string.
Variable json_loads : string -> option value.
Variable urlparse : string -> option Web.parsed_url.
Variable parse_qs : string -> option (gmap string (list string)).
Variable dict_keys : gmap string value -> list string.

(** [urljoin(base, path)]; [None] when it raises, as it does for a base
    that [urlsplit] refuses (a host with an unmatched bracket). *)
Variable urljoin : string -> string -> option string.

(** The collaborators. [safe_search] is [None] when the search still
    raises after its retries; the two page extractors never raise and
    return the empty string on failure; the provider calls are [None]
    when they raise. *)
Variable safe_search : string -> Z -> option (list Web.hit).
Variable trafilatura_extract : string -> string.
Variable fetch_and_parse : string -> string.
Variable call_ollama : string -> string -> Z -> spec_float -> option string.
Variable call_openai : string -> string -> Z -> spec_float -> option string.

Variable INSTRUCTIONS : string.

(** [expand_candidate_urls]; [None] when [urljoin] raises. *)
Definition expand_candidate_urls (base_url : string)
  : option (list string) :=
  joined ← mapM (urljoin base_url) COMMON_PATHS;
  Some (base_url :: joined).

(** The loop of [scrape_site] from index [i] on. *)
Fixpoint scrape_from (i : nat) (urls : list string) (max_pages : Z)
    (texts : list (string * string)) : list (string * string) :=
  match urls with
  | [] => texts
  | u :: rest =>
      if (Z.of_nat i >=? max_pages)%Z then texts
      else
        let text :=
          if PyStr.nonempty (trafilatura_extract u)
          then trafilatura_extract u else fetch_and_parse u in
        let texts :=
          if PyStr.nonempty text
          then dict_set texts u (PyStr.slice_to 6000 text) else texts in
        scrape_from (S i) rest max_pages texts
  end.

(** [scrape_site]; [None] when building the candidate URLs raises,
    which happens before the first page is tried. *)
Definition scrape_site (base_url : string) (max_pages : Z)
  : option (list (string * string)) :=
  urls ← expand_candidate_urls base_url;
  Some (scrape_from 0 urls max_pages []).

(** The backup loop over the first two search hits. *)
Fixpoint backup_texts (hits : list Web.hit)
    (texts : list (string * string)) : list (string * string) :=
  match hits with
  | [] => texts
  | r :: rest =>
      let raw := Web.or_str (Web.href r) (Web.link r) in
      let url := Web._normalize_ddg_href urlparse parse_qs raw in
      match url with
      | Some u =>
          if negb (PyStr.nonempty u) || Web._is_social u
          then backup_texts rest texts
          else
            let content :=
              if PyStr.nonempty (fetch_and_parse u)
              then fetch_and_parse u else trafilatura_extract u in
            backup_texts rest
              (if PyStr.nonempty content then dict_set texts u content
               else texts)
      | None => backup_texts rest texts
      end
  end.

(** The record [main] builds when [extract_record] raises. *)
Definition heuristic_record (org : organization) (heuristic_fc : string)
  : gmap string value :=
  list_to_map
    [ ("name", of_opt_str (org_name org));
      ("country", of_opt_str (org_country org));
      ("website", of_opt_str (org_website org));
      ("funding_classification", VStr heuristic_fc);
      ("sectors", VList []);
      ("angel_type", VNone);
      ("ticket_size_usd_min", VNone);
      ("ticket_size_usd_max", VNone);
      ("ticket_size_currency", VNone);
      ("stages", VList []);
      ("additional_info", VNone);
      ("sources", VList []);
      ("confidence", VFloat float_zero) ].

(** The body of the row loop, from the three cells of the row (the
    name stripped, country and website stripped and [None] when empty)
    to the columns written for the row. [None]: the row is skipped,
    for want of a name or after a hard failure ([scrape_site],
    [sanitize_record] or [normalize_to_columns] raising). *)
Definition process_row (cfg : config) (name : string)
    (country website : option string) : option (gmap string value) :=
  if negb (PyStr.nonempty name) then None
  else
    let sr :=
      if PyStr.nonempty (str_or website "") then []
      else
        let q := PyStr.strip (name +:+ " " +:+ str_or country "") in
        default [] (safe_search q 6) in
    let website := Web.choose_website urlparse parse_qs website sr in
    let org := {| org_name := Some name; org_country := country;
                  org_website := website |} in
    texts ←
      (if PyStr.nonempty (str_or website "")
       then scrape_site (str_or website "") (max_pages_per_site cfg)
       else Some []);
    let texts :=
      match texts, sr with
      | [], _ :: _ => backup_texts (firstn 2 sr) texts
      | _, _ => texts
      end in
    let joined := PyStr.slice_to 8000 (_joined_text texts) in
    let heuristic_fc :=
      Classify.heuristic_funding_classification name joined in
    let inferred_sectors := Classify.infer_sectors_multi (Some joined) in
    let record :=
      match Extract.extract_record json_loads call_ollama call_openai
              (llm_provider cfg) (llm_model cfg) INSTRUCTIONS org texts
              (llm_max_tokens cfg) (llm_temperature cfg) with
      | Some r => r
      | None => VDict (heuristic_record org heuristic_fc)
      end in
    match record with
    | VDict record =>
        record ← sanitize_record py_str org record heuristic_fc
                   (VList (VStr <$> inferred_sectors));
        normalize_to_columns dict_keys record (excel_out_cols cfg)
    | _ => None
    end.

End World.

End Row.

(* ===================================================================== *)
(** * The specification's wording of the reconciler's rules *)
(* ===================================================================== *)

Module Spec.

Import Main.

(** Deduplication that preserves the first-seen order. *)
Fixpoint first_seen (xs : list string) : list string :=
  match xs with
  | [] => []
  | x :: rest => x :: filter (fun y => y ≠ x) (first_seen rest)
  end.

(** The classification to default-sector table: Universities & Research
    Centers go to Education, everything else to Business & Professional
    Services. *)
Definition default_sector (classification : string) : string :=
  if String.eqb classification "Universities & Research Centers"
  then "Education" else "Business & Professional Services".

(** The classification substituted for one the model omitted or
    blanked. *)
Definition fallback_classification (heuristic_fc : string) : string :=
  if PyStr.nonempty heuristic_fc then heuristic_fc else "Investment Firms".

(** A text as a label: trimmed, and none when it is blank. *)
Definition label_of_text (s : string) : option string :=
  if PyStr.nonempty (PyStr.strip s) then Some (PyStr.strip s) else None.

(** The label of a label-bearing object: the first of its entries
    [name], [label], [value], [sector] that is a string and not blank. *)
Definition label_of_object (d : gmap string value) : option string :=
  head (omap (fun k => match d !! k with
                       | Some (VStr s) => label_of_text s
                       | _ => None
                       end)
             ["name"; "label"; "value"; "sector"]).

(** The label of one entry of a list of sectors: a string gives itself,
    an object its label, any other value its string coercion. *)
Definition label_of_entry (py_str : value -> string) (item : value)
  : option string :=
  match item with
  | VStr s => label_of_text s
  | VDict d => label_of_object d
  | _ => label_of_text (py_str item)
  end.

(** The sectors normalized to a list of strings, whatever their shape:
    null gives no label, a single string one label, a list the labels of
    its entries in order, and any other value its string coercion; every
    label is trimmed and blank ones are left out. *)
Definition normalized_sectors (py_str : value -> string) (raw : value)
  : list string :=
  match raw with
  | VNone => []
  | VStr s => option_list (label_of_text s)
  | VList l => omap (label_of_entry py_str) l
  | _ => option_list (label_of_text (py_str raw))
  end.

(** Filtering to the allow-list of the twelve sector labels and the long
    form of ICT. *)
Definition allow_listed (xs : list string) : list string :=
  filter (fun x => x ∈ [ "Information & Communication Technology (ICT)";
                         "ICT"; "Health"; "Energy"; "Agriculture";
                         "Environment"; "Industry & Manufacturing";
                         "Transportation & Mobility"; "Education";
                         "Creative Industries";
                         "Infrastructure & Real Estate"; "Social Impact";
                         "Business & Professional Services" ]) xs.

(** The fallback chain of the sectors: the model's sectors normalized
    and filtered to the allow-list, else the inferred sectors normalized
    and filtered the same way, else the default sector of the
    classification. *)
Definition sector_fallback_chain (py_str : value -> string)
    (model_sectors inferred_sectors : value) (classification : string)
  : list string :=
  match allow_listed (normalized_sectors py_str model_sectors) with
  | [] =>
      match allow_listed (normalized_sectors py_str inferred_sectors) with
      | [] => [default_sector classification]
      | l => l
      end
  | l => l
  end.

(** A text trimmed and clipped to [n] characters, with the ellipsis
    marker after the clipped text. *)
Definition clipped (n : nat) (text : string) : string :=
  let t := PyStr.strip text in
  if (n <? String.length t)%nat then PyStr.slice_to n t +:+ "..." else t.

(** The descriptive note synthesized for a classification: its
    sentence, or the generic sentence for a classification without one,
    filled with the name, the country (or "the region") and the joined
    sectors (or "key industries"). *)
Definition note_sentence (classification name region sec_txt : string)
  : string :=
  if String.eqb classification "Venture Capital Funds" then
    "A venture capital firm investing across " +:+ sec_txt +:+ ". "
    +:+ name +:+ " backs startups in " +:+ region +:+ " with funding and strategic support."
  else if String.eqb classification "Investment Firms" then
    "An investment firm providing capital and strategic support across " +:+ sec_txt +:+ ". "
    +:+ name +:+ " partners with companies in " +:+ region +:+ " to scale and optimize operations."
  else if String.eqb classification "Angel Investors" then
    "An angel " +:+ (if PyStr.contains (PyStr.lower name) "network"
     then "network" else "investor")
    +:+ " backing early-stage startups in " +:+ sec_txt +:+ ". "
    +:+ name +:+ " supports founders in " +:+ region +:+ " with capital and guidance."
  else if String.eqb classification "Microfinance Institutions" then
    "A microfinance institution enabling access to finance for micro and small enterprises. "
    +:+ name +:+ " serves entrepreneurs in " +:+ region +:+ " through tailored credit solutions."
  else if String.eqb classification "Accelerators" then
    "An accelerator delivering programs and mentorship for startups. "
    +:+ name +:+ " helps founders in " +:+ region +:+ " validate, build, and grow."
  else if String.eqb classification "Incubators" then
    "An incubator providing workspace and hands-on support for early ventures. "
    +:+ name +:+ " nurtures entrepreneurs in " +:+ region +:+ " from idea to startup."
  else if String.eqb classification "Sovereign Wealth Funds" then
    "A sovereign wealth fund investing for long-term national value. "
    +:+ name +:+ " allocates capital to diversified sectors in " +:+ region +:+ "."
  else if String.eqb classification "Coworking Spaces" then
    "A coworking hub offering flexible workspace and community for entrepreneurs. "
    +:+ name +:+ " hosts teams and events in " +:+ region +:+ "."
  else if String.eqb classification "Entrepreneurship Support Agencies" then
    "An ecosystem support organization delivering programs and services for entrepreneurs. "
    +:+ name +:+ " promotes startup growth in " +:+ region +:+ "."
  else if String.eqb classification "Universities & Research Centers" then
    "A university/research center fostering innovation and commercialization. "
    +:+ name +:+ " supports research-based ventures in " +:+ region +:+ "."
  else
    "An organization operating across " +:+ sec_txt +:+ ". "
    +:+ name +:+ " supports businesses in " +:+ region +:+ ".".

Definition note_template (name : string) (country : option string)
    (classification : string) (sectors : list string) : string :=
  let region := str_or country "the region" in
  let sec_txt :=
    match sectors with
    | [] => "key industries"
    | _ => PyStr.join ", " sectors
    end in
  note_sentence classification name region sec_txt.

(** The label a sector is written under in the sheet: the long form of
    ICT is written "ICT", every other label as it is. *)
Definition sheet_label (sector : string) : string :=
  if String.eqb sector "Information & Communication Technology (ICT)"
  then "ICT" else sector.

(** The classification after rule 1: the model's, unless it is omitted
    or blank; [None] when the model's is a value that cannot be
    stripped. *)
Definition resolved_classification (record : gmap string value)
    (heuristic_fc : string) : option string :=
  match dict_get record "funding_classification" with
  | VStr s =>
      Some (if PyStr.nonempty (PyStr.strip s) then s
            else fallback_classification heuristic_fc)
  | v => if truthy v then None else Some (fallback_classification heuristic_fc)
  end.

(** The sectors of the reconciled record: the fallback chain,
    deduplicated in first-seen order and capped to four. *)
Definition reconciled_sectors (py_str : value -> string)
    (record : gmap string value) (inferred_sectors : value)
    (classification : string) : list string :=
  take 4 (first_seen
            (sector_fallback_chain py_str (dict_get record "sectors")
               inferred_sectors classification)).

(** The descriptive note of the reconciled record: the model's text when
    it is a string longer than 10 characters after trimming, else the
    synthesized note; clipped to 220 characters either way. *)
Definition reconciled_note (py_str : value -> string) (org : organization)
    (record : gmap string value) (inferred_sectors : value)
    (classification : string) : string :=
  match long_text (dict_get record "additional_info") with
  | Some t => clipped 220 t
  | None =>
      clipped 220
        (note_template (str_or (org_name org) "") (org_country org)
           classification
           (map_sector_label_for_sheet
              <$> reconciled_sectors py_str record inferred_sectors
                    classification))
  end.

(** The angel sub-type of the reconciled record. *)
Definition reconciled_angel_type (org : organization)
    (record : gmap string value) (classification : string) : value :=
  if String.eqb classification "Angel Investors" then
    if truthy (dict_get record "angel_type")
    then dict_get record "angel_type"
    else VStr (angel_type_of_name org)
  else VNone.

(** The sources of the reconciled record. *)
Definition reconciled_sources (record : gmap string value) : list value :=
  match dict_get record "sources" with
  | VList l => take 5 l
  | _ => []
  end.

(** Whether the character [c] occurs in [s]. *)
Fixpoint has_char (c : ascii) (s : string) : bool :=
  match s with
  | EmptyString => false
  | String d s' => Ascii.eqb d c || has_char c s'
  end.

(** The fields [sanitize_record] assigns. *)
Definition sanitized_keys : list string :=
  [ "funding_classification"; "angel_type"; "sectors"; "additional_info";
    "stages"; "ticket_size_usd_min"; "ticket_size_usd_max";
    "ticket_size_currency"; "sources" ].

End Spec.

(* ===================================================================== *)
(** * Concrete inputs *)
(* ===================================================================== *)

Module Examples.

Import Main.

(** [str()] on the values the examples apply it to: [None], booleans,
    integers and strings. *)
Definition str_of_scalar (v : value) : string :=
  match v with
  | VNone => "None"
  | VBool true => "True"
  | VBool false => "False"
  | VInt z => pretty z
  | VStr s => s
  | _ => ""
  end.

Definition acme : organization :=
  {| org_name := Some "Acme Angel Network";
     org_country := Some "Lebanon";
     org_website := Some "https://acme.example.org" |}.

(** A model record for an accelerator that carries VC and angel data,
    sectors in several shapes and a note that is too short. *)
Definition accelerator_record : gmap string value :=
  list_to_map
    [ ("name", VStr "Acme");
      ("country", VStr "Lebanon");
      ("website", VStr "https://acme.example.org");
      ("funding_classification", VStr "Accelerators");
      ("sectors", VList [VStr " Health "; VStr "Health"; VStr "Bogus";
                         VInt 7;
                         VDict (<["label" := VStr "Energy"]> ∅)]);
      ("angel_type", VStr "network");
      ("ticket_size_usd_min", VInt 100000);
      ("ticket_size_usd_max", VInt 500000);
      ("ticket_size_currency", VStr "USD");
      ("stages", VList [VStr "Seed"]);
      ("additional_info", VStr "short");
      ("sources", VStr "n/a");
      ("confidence", VFloat (S754_finite false 1 (-1)));
      ("notes", VStr "kept as it is") ].

Definition accelerator_sanitized : gmap string value :=
  list_to_map
    [ ("name", VStr "Acme");
      ("country", VStr "Lebanon");
      ("website", VStr "https://acme.example.org");
      ("funding_classification", VStr "Accelerators");
      ("sectors", VList [VStr "Health"; VStr "Energy"]);
      ("angel_type", VNone);
      ("ticket_size_usd_min", VNone);
      ("ticket_size_usd_max", VNone);
      ("ticket_size_currency", VNone);
      ("stages", VList []);
      ("additional_info",
        VStr "An accelerator delivering programs and mentorship for startups. Acme Angel Network helps founders in Lebanon validate, build, and grow.");
      ("sources", VList []);
      ("confidence", VFloat (S754_finite false 1 (-1)));
      ("notes", VStr "kept as it is") ].

(** A model note of 221 characters. *)
Definition long_note : string := PyStr.join "" (replicate 221 "x").

Definition long_note_record : gmap string value :=
  list_to_map
    [ ("funding_classification", VStr "Accelerators");
      ("additional_info", VStr long_note) ].

(** The note after [sanitize_record]: 220 characters and the marker. *)
Definition long_note_clipped : string :=
  PyStr.join "" (replicate 220 "x") +:+ "...".

(** The redirect link of the specification's example. *)
Definition ddg_redirect_href : string :=
  "https://duckduckgo.com/l/?uddg=https%3A%2F%2Fexample.org%2F&rut=x".

(** A favorite-url cell with the site of a company that is not a social
    network. *)
Definition microsoft_cell : string := "https://www.microsoft.com".

(** The double quote. *)
Definition dq : string := String (ascii_of_nat 34) EmptyString.

(** The raw model output of the specification's example, the object it
    embeds, and that object parsed. *)
Definition embedded_text : string :=
  "{" +:+ dq +:+ "name" +:+ dq +:+ ":" +:+ dq +:+ "X" +:+ dq +:+ ","
  +:+ dq +:+ "funding_classification" +:+ dq +:+ ":" +:+ dq
  +:+ "Accelerators" +:+ dq +:+ "}".

Definition wrapped_output : string :=
  "Here is the data: " +:+ embedded_text +:+ " extra".

Definition embedded_object : gmap string value :=
  list_to_map
    [ ("name", VStr "X"); ("funding_classification", VStr "Accelerators") ].

(** [json.loads] restricted to the one document of the example. *)
Definition loads_embedded (s : string) : option value :=
  if String.eqb s embedded_text then Some (VDict embedded_object) else None.

(** A raw output of 401 characters that is not JSON, and the snippet of
    the fallback note for it: 400 characters and the marker. *)
Definition long_output : string := PyStr.join "" (replicate 401 "x").

Definition long_output_snippet : string :=
  PyStr.join "" (replicate 400 "x") +:+ "...".

Definition answers_long (model prompt : string) (max_tokens : Z)
    (temperature : spec_float) : option string := Some long_output.

(** A provider that answers every prompt with the wrapped output, and one
    that always raises. *)
Definition answers_wrapped (model prompt : string) (max_tokens : Z)
    (temperature : spec_float) : option string := Some wrapped_output.

Definition provider_down (model prompt : string) (max_tokens : Z)
    (temperature : spec_float) : option string := None.

(** Collaborators that all fail: the search raises, both page extractors
    return the empty string, and [urlparse] and [parse_qs] raise. *)
Definition search_down (query : string) (k : Z) : option (list Web.hit) :=
  None.

Definition page_down (url : string) : string := "".

Definition urlparse_raises (url : string) : option Web.parsed_url := None.

Definition parse_qs_raises (query : string)
  : option (gmap string (list string)) := None.

(** [urljoin] for a base without a path and an absolute path: the two
    texts joined; a [ValueError] for a host with a closing bracket and no
    opening one, which [urlsplit] refuses. *)
Definition urljoin_paths (base path : string) : option string :=
  if Spec.has_char "]" base && negb (Spec.has_char "[" base) then None
  else Some (base +:+ path).

(** The keys of an object, in the order in which the map lists them. *)
Definition keys_listed (d : gmap string value) : list string :=
  (map_to_list d).*1.

(** A favorite-url cell with a link in square brackets. *)
Definition bracket_cell : string := "[https://acme.org]".

Definition sheet_config : Row.config :=
  {| Row.llm_provider := "ollama";
     Row.llm_model := "llama3";
     Row.llm_max_tokens := 800;
     Row.llm_temperature := S754_finite false 1 (-3);
     Row.max_pages_per_site := 5;
     Row.excel_out_cols :=
       {| col_funding_classification := "Funding Classification";
          col_sector := "Sector";
          col_ticket_size_vc := "Ticket Size (VC)";
          col_angel_type := "Angel Type";
          col_note := "Additional Info" |} |}.

End Examples.

(* ===================================================================== *)
(** * src/utils.py: text helpers *)
(* ===================================================================== *)

Module Utils.

(** [re.sub(pattern+, rep, s)] for a pattern that is one character class:
    every maximal run of characters outside [keep] becomes one [rep].
    [in_run] tells that the previous character was outside [keep]. *)
Fixpoint sub_runs (keep : ascii -> bool) (rep : ascii) (in_run : bool)
    (s : string) : string :=
  match s with
  | EmptyString => EmptyString
  | String c s' =>
      if keep c then String c (sub_runs keep rep false s')
      else if in_run then sub_runs keep rep true s'
      else String rep (sub_runs keep rep true s')
  end.

(** [s.lstrip(chars)] and [s.rstrip(chars)] for the characters in [q]. *)
Fixpoint lstrip_of (q : ascii -> bool) (s : string) : string :=
  match s with
  | EmptyString => EmptyString
  | String c s' => if q c then lstrip_of q s' else s
  end.

Fixpoint rstrip_of (q : ascii -> bool) (s : string) : string :=
  match s with
  | EmptyString => EmptyString
  | String c s' =>
      match rstrip_of q s' with
      | EmptyString => if q c then EmptyString else String c EmptyString
      | r => String c r
      end
  end.

Definition strip_of (q : ascii -> bool) (s : string) : string :=
  rstrip_of q (lstrip_of q s).

(** [[a-z0-9]] *)
Definition slug_char (c : ascii) : bool :=
  let n := nat_of_ascii c in
  (((97 <=? n) && (n <=? 122)) || ((48 <=? n) && (n <=? 57)))%nat.

Definition is_hyphen (c : ascii) : bool := Ascii.eqb c "-".

(** [slugify]: [re.sub(r'[^a-z0-9]+', '-', text.lower()).strip('-')] *)
Definition slugify (text : string) : string :=
  strip_of is_hyphen (sub_runs slug_char "-" false (PyStr.lower text)).

(** [clean_text]: [re.sub(r'\s+', ' ', text)], then [strip()]. *)
Definition clean_text (text : string) : string :=
  PyStr.strip (sub_runs (fun c => negb (PyStr.isspace c)) " " false text).

End Utils.

(* ===================================================================== *)
(** * src/classify.py: the single-sector inference of the old taxonomy *)
(* ===================================================================== *)

Module ClassifyLegacy.

Definition SECTOR_KEYWORDS : list (string * list string) :=
  [ ("WASH",
      ["water"; "sanitation"; "hygiene"; "drinking water"; "wastewater";
       "sewage"; "latrine"; "handwashing"; "cholera"; "public health";
       "wash program"; "water supply"; "safe water"; "sanitary"]);
    ("RE (renewable energy)",
      ["renewable energy"; "solar"; "photovoltaic"; "pv";
       "wind"; "hydro"; "geothermal"; "clean energy"; "green energy";
       "energy transition"; "power purchase agreement"; "ppa"]);
    ("Agritech",
      ["agritech"; "agri-tech"; "agriculture"; "farming"; "farm";
       "agri-food"; "agri supply chain"; "crop"; "livestock";
       "precision agriculture"; "agronomy"; "agri inputs"]);
    ("entrepreneurship",
      ["startup"; "startups"; "sme"; "incubation"; "acceleration";
       "venture"; "founder"; "entrepreneur"; "entrepreneurship";
       "ecosystem"; "innovation hub"; "coworking"]) ].

(** The inner loop: one point for every keyword that occurs in [s]. *)
Definition keyword_score (kws : list string) (s : string) : nat :=
  length (filter (fun kw => PyStr.contains s kw = true) kws).

(** The [scores] dict after the two loops. *)
Definition sector_scores (s : string) : list (string * nat) :=
  (fun '(sector, kws) => (sector, keyword_score kws s)) <$> SECTOR_KEYWORDS.

Definition priority : list string :=
  [ "WASH"; "RE (renewable energy)"; "Agritech"; "entrepreneurship" ].

(** [scores[k]]; every label of [priority] is a key of [scores]. *)
Definition score_of (scores : list (string * nat)) (k : string) : nat :=
  default 0%nat (Main.assoc scores k).

(** [priority.index(k)] *)
Fixpoint index_of (l : list string) (k : string) : nat :=
  match l with
  | [] => 0
  | x :: rest => if String.eqb x k then 0 else S (index_of rest k)
  end.

(** The key of [max]: [(scores[k], -priority.index(k))]. *)
Definition rank (scores : list (string * nat)) (k : string) : nat * Z :=
  (score_of scores k, (- Z.of_nat (index_of priority k))%Z).

(** [a < b] on pairs, as Python orders tuples. *)
Definition pair_lt (a b : nat * Z) : bool :=
  (fst a <? fst b)%nat || ((fst a =? fst b)%nat && (snd a <? snd b)%Z).

(** [max(items, key=f)] with [best] the maximum so far: a later item
    replaces it only when its key is strictly greater. *)
Fixpoint max_by (f : string -> nat * Z) (best : string) (items : list string)
  : string :=
  match items with
  | [] => best
  | x :: rest => max_by f (if pair_lt (f best) (f x) then x else best) rest
  end.

(** [infer_sector_from_text]; [text] is [None] or a string. *)
Definition infer_sector_from_text (text : option string) : option string :=
  match text with
  | None => None
  | Some t =>
      if negb (PyStr.nonempty t) then None
      else
        let s := PyStr.lower t in
        let scores := sector_scores s in
        if forallb (fun e => (snd e =? 0)%nat) scores then None
        else
          match priority with
          | [] => None
          | first :: rest => Some (max_by (rank scores) first rest)
          end
  end.

End ClassifyLegacy.

(* ===================================================================== *)
(** * Shapes of text, for the properties of the helpers *)
(* ===================================================================== *)

Module Shapes.

(** Every character of [s] satisfies [p]. *)
Fixpoint all_chars (p : ascii -> bool) (s : string) : bool :=
  match s with
  | EmptyString => true
  | String c s' => p c && all_chars p s'
  end.

(** After a character of a word: characters of [keep], with single
    separators [sep] between them, the last character being of [keep]. *)
Fixpoint words_tail (keep : ascii -> bool) (sep : ascii) (s : string) : bool :=
  match s with
  | EmptyString => true
  | String c s' =>
      if keep c then words_tail keep sep s'
      else Ascii.eqb c sep
           && match s' with
              | EmptyString => false
              | String d _ => keep d && words_tail keep sep s'
              end
  end.

(** The empty text, or words of characters of [keep] joined by single
    separators: no separator at either end and no two in a row. *)
Definition words_form (keep : ascii -> bool) (sep : ascii) (s : string)
  : bool :=
  match s with
  | EmptyString => true
  | String c s' => keep c && words_tail keep sep s'
  end.

End Shapes.

(* ===================================================================== *)
(** * More concrete inputs *)
(* ===================================================================== *)

Module MoreExamples.

Import Main.

(** A model record for an angel investor without sub-type, with sectors
    the allow-list does not know. *)
Definition angel_record : gmap string value :=
  list_to_map
    [ ("funding_classification", VStr "Angel Investors");
      ("sectors", VList [VStr "Crypto"]);
      ("sources", VList [VStr "a"; VStr "b"; VStr "c"; VStr "d"; VStr "e";
                         VStr "f"]) ].

Definition angel_sanitized : gmap string value :=
  list_to_map
    [ ("funding_classification", VStr "Angel Investors");
      ("angel_type", VStr "network");
      ("sectors", VList [VStr "ICT"; VStr "Health"]);
      ("additional_info",
        VStr "An angel network backing early-stage startups in ICT, Health. Acme Angel Network supports founders in Lebanon with capital and guidance.");
      ("stages", VList []);
      ("ticket_size_usd_min", VNone);
      ("ticket_size_usd_max", VNone);
      ("ticket_size_currency", VNone);
      ("sources", VList [VStr "a"; VStr "b"; VStr "c"; VStr "d"; VStr "e"]) ].

(** A model record for a VC fund with its stages and ticket. *)
Definition vc_record : gmap string value :=
  list_to_map
    [ ("funding_classification", VStr "Venture Capital Funds");
      ("stages", VList [VStr "Seed"; VStr "Series A"]);
      ("ticket_size_usd_min", VInt 500000);
      ("ticket_size_currency", VStr "USD") ].

Definition vc_sanitized : gmap string value :=
  list_to_map
    [ ("funding_classification", VStr "Venture Capital Funds");
      ("angel_type", VNone);
      ("sectors", VList [VStr "Business & Professional Services"]);
      ("additional_info",
        VStr "A venture capital firm investing across Business & Professional Services. Acme Angel Network backs startups in Lebanon with funding and strategic support.");
      ("stages", VList [VStr "Seed"; VStr "Series A"]);
      ("ticket_size_usd_min", VInt 500000);
      ("ticket_size_currency", VStr "USD");
      ("sources", VList []) ].

(** A model record for a VC fund whose stages are one string, not a
    list. *)
Definition vc_text_record : gmap string value :=
  list_to_map
    [ ("funding_classification", VStr "Venture Capital Funds");
      ("stages", VStr "Seed") ].

Definition vc_text_sanitized : gmap string value :=
  list_to_map
    [ ("funding_classification", VStr "Venture Capital Funds");
      ("angel_type", VNone);
      ("sectors", VList [VStr "Business & Professional Services"]);
      ("additional_info",
        VStr "A venture capital firm investing across Business & Professional Services. Acme Angel Network backs startups in Lebanon with funding and strategic support.");
      ("stages", VStr "Seed");
      ("sources", VList []) ].

(** A model that answers every prompt with a JSON list, and [json.loads]
    restricted to that document. *)
Definition answers_list (model prompt : string) (max_tokens : Z)
    (temperature : spec_float) : option string := Some "[]".

Definition loads_list (s : string) : option value :=
  if String.eqb s "[]" then Some (VList []) else None.

(** Page extractors that return the same long page for every URL. *)
Definition long_page (url : string) : string :=
  PyStr.join "" (replicate 7000 "x").

(** The evidence text of a health and software company. *)
Definition evidence_text : string :=
  "We build software for digital health and biotech startups.".

End MoreExamples.

(* ===================================================================== *)
(** * Facts about strings *)
(* ===================================================================== *)

Module PyStrFacts.

Import PyStr.

Lemma app_String c s t : String c s +:+ t = String c (s +:+ t).
Proof. reflexivity. Qed.

Lemma app_empty_l t : "" +:+ t = t.
Proof. reflexivity. Qed.

Lemma str_length_app s t :
  String.length (s +:+ t) = String.length s + String.length t.
Proof. induction s as [|c s IH]; [done|]. rewrite app_String. simpl. lia. Qed.

Lemma str_app_assoc s t u : (s +:+ t) +:+ u = s +:+ (t +:+ u).
Proof.
  induction s as [|c s IH]; [done|]. rewrite !app_String. by rewrite IH.
Qed.

Lemma nonempty_length s : nonempty s = true ↔ 0 < String.length s.
Proof. destruct s; simpl; split; (done || lia). Qed.

Lemma nonempty_false s : nonempty s = false ↔ s = "".
Proof. by destruct s. Qed.

Lemma nonempty_app_r s t : nonempty t = true → nonempty (s +:+ t) = true.
Proof. by destruct s. Qed.

Lemma slice_to_empty n : slice_to n "" = "".
Proof. by destruct n. Qed.

Lemma length_slice_to n s : String.length (slice_to n s) = n `min` String.length s.
Proof.
  revert s; induction n as [|n IH]; intros [|c s]; simpl; try done.
  by rewrite IH.
Qed.

Lemma slice_to_ge n s : String.length s ≤ n → slice_to n s = s.
Proof.
  revert s; induction n as [|n IH]; intros [|c s]; simpl; try done.
  - lia.
  - intros ?. f_equal. apply IH. lia.
Qed.

Lemma slice_to_app_exact n s t : String.length s = n → slice_to n (s +:+ t) = s.
Proof.
  revert s; induction n as [|n IH]; intros [|c s] [=]; [done|].
  rewrite app_String. simpl. f_equal. by apply IH.
Qed.

Lemma slice_to_slice_to_app n s t :
  n ≤ String.length s → slice_to n (slice_to n s +:+ t) = slice_to n s.
Proof.
  intros ?. apply slice_to_app_exact. rewrite length_slice_to. lia.
Qed.

(** The stripped text is a piece of the text. *)
Lemma length_lstrip s : String.length (lstrip s) ≤ String.length s.
Proof. induction s as [|c s IH]; simpl; [done|]. destruct (isspace c); simpl; lia. Qed.

Lemma length_rstrip s : String.length (rstrip s) ≤ String.length s.
Proof.
  induction s as [|c s IH]; simpl; [done|].
  destruct (rstrip s); [destruct (isspace c)|]; simpl in *; lia.
Qed.

Lemma length_strip s : String.length (strip s) ≤ String.length s.
Proof.
  unfold strip. etrans; [apply length_rstrip | apply length_lstrip].
Qed.

(** [lstrip] leaves nothing or a string that starts with a character
    that is not white space. *)
Lemma lstrip_cases s :
  lstrip s = "" ∨ ∃ c r, lstrip s = String c r ∧ isspace c = false.
Proof.
  induction s as [|c s IH]; simpl; [by left|].
  destruct (isspace c) eqn:E; [done|]. right. eauto.
Qed.

Lemma lstrip_fixed c s : isspace c = false → lstrip (String c s) = String c s.
Proof. simpl. by intros ->. Qed.

(** [rstrip] keeps the first character of what it leaves. *)
Lemma rstrip_cases c s :
  rstrip (String c s) = "" ∨ ∃ r, rstrip (String c s) = String c r.
Proof.
  simpl. destruct (rstrip s); [destruct (isspace c)|]; eauto.
Qed.

Lemma rstrip_idem s : rstrip (rstrip s) = rstrip s.
Proof.
  induction s as [|c s IH]; [done|]. simpl.
  destruct (rstrip s) as [|d r] eqn:E.
  - destruct (isspace c) eqn:Ec; [done|]. simpl. by rewrite Ec.
  - change (rstrip (String c (String d r))) with
      (match rstrip (String d r) with
       | "" => if isspace c then "" else String c ""
       | r' => String c r'
       end).
    by rewrite IH.
Qed.

Lemma rstrip_app_fixed s t :
  rstrip t = t → nonempty t = true → rstrip (s +:+ t) = s +:+ t.
Proof.
  intros Ht Hne. induction s as [|c s IH]; [done|].
  rewrite app_String. simpl. rewrite IH.
  pose proof (nonempty_app_r s t Hne) as H.
  by destruct (s +:+ t).
Qed.

Lemma strip_idem s : strip (strip s) = strip s.
Proof.
  unfold strip. destruct (lstrip_cases s) as [->|(c & r & -> & Hc)]; [done|].
  destruct (rstrip_cases c r) as [->|[r' E]]; [done|].
  rewrite E, (lstrip_fixed _ _ Hc), <-E. apply rstrip_idem.
Qed.

(** What [strip] leaves, when not empty, starts with a character that is
    not white space. *)
Lemma strip_head s :
  strip s = "" ∨ ∃ c r, strip s = String c r ∧ isspace c = false.
Proof.
  unfold strip. destruct (lstrip_cases s) as [->|(c & r & -> & Hc)]; [by left|].
  destruct (rstrip_cases c r) as [->|[r' E]]; [by left|].
  right. eauto.
Qed.

(** A text that starts with a character that is not white space and ends
    with a piece that [rstrip] keeps is kept by [strip]. *)
Lemma strip_fixed c s t :
  isspace c = false → rstrip t = t → nonempty t = true →
  strip (String c s +:+ t) = String c s +:+ t.
Proof.
  intros Hc Ht Hne. unfold strip. rewrite app_String, (lstrip_fixed _ _ Hc).
  rewrite <-app_String. by apply rstrip_app_fixed.
Qed.

Lemma strip_slice_to_dots n s :
  strip (slice_to n (strip s) +:+ "...") = slice_to n (strip s) +:+ "...".
Proof.
  destruct (strip_head s) as [->|(c & r & -> & Hc)].
  - by rewrite slice_to_empty.
  - destruct n as [|n]; [done|]. simpl slice_to. by apply strip_fixed.
Qed.

End PyStrFacts.

(* ===================================================================== *)
(** * Facts about the helpers of the reconciler *)
(* ===================================================================== *)

Module HelperFacts.

Import PyStr PyStrFacts Main Spec.

(** ** clip *)

Lemma slice_to_int_nat n s : slice_to_int (Z.of_nat n) s = slice_to n s.
Proof.
  unfold slice_to_int.
  replace (Z.of_nat n <? 0)%Z with false by (symmetry; apply Z.ltb_ge; lia).
  by rewrite Nat2Z.id.
Qed.

(** [clip] with a limit that is not negative. *)
Lemma clip_nat s n :
  clip s (Z.of_nat n)
  = if negb (nonempty s) then None
    else if (n <? String.length (strip s))%nat
         then Some (slice_to n (strip s) +:+ "...")
         else Some (strip s).
Proof.
  unfold clip. destruct (nonempty s); [|done]. cbn [negb].
  rewrite slice_to_int_nat.
  destruct (Nat.ltb_spec n (String.length (strip s))).
  - by replace (Z.of_nat n <? Z.of_nat (String.length (strip s)))%Z
      with true by (symmetry; apply Z.ltb_lt; lia).
  - by replace (Z.of_nat n <? Z.of_nat (String.length (strip s)))%Z
      with false by (symmetry; apply Z.ltb_ge; lia).
Qed.

Lemma clip_clipped s n :
  nonempty s = true → clip s (Z.of_nat n) = Some (clipped n s).
Proof. rewrite clip_nat. unfold clipped. intros ->. simpl. by case_match. Qed.

Lemma clip_clipped_220 s :
  nonempty s = true → clip s 220 = Some (clipped 220 s).
Proof. apply (clip_clipped s 220). Qed.

Lemma clipped_length n s : String.length (clipped n s) ≤ n + 3.
Proof.
  unfold clipped. case_match eqn:E.
  - rewrite str_length_app, length_slice_to. simpl. lia.
  - apply Nat.ltb_ge in E. lia.
Qed.

Lemma strip_clipped n s : strip (clipped n s) = clipped n s.
Proof.
  unfold clipped. case_match; [apply strip_slice_to_dots | apply strip_idem].
Qed.

Lemma clipped_idem n s : clipped n (clipped n s) = clipped n s.
Proof.
  unfold clipped at 1. rewrite strip_clipped.
  unfold clipped. destruct (n <? String.length (strip s))%nat eqn:E.
  - apply Nat.ltb_lt in E.
    rewrite str_length_app, length_slice_to.
    replace (n `min` String.length (strip s)) with n by lia.
    replace (n <? n + String.length "...")%nat with true
      by (symmetry; apply Nat.ltb_lt; simpl; lia).
    rewrite slice_to_slice_to_app by lia. done.
  - by rewrite E.
Qed.

Lemma clipped_length_ge n s :
  String.length (strip s) `min` n ≤ String.length (clipped n s).
Proof.
  unfold clipped. case_match eqn:E.
  - apply Nat.ltb_lt in E. rewrite str_length_app, length_slice_to. lia.
  - lia.
Qed.

(** ** dict.fromkeys *)

Lemma filter_all {A} (P : A → Prop) `{∀ x, Decision (P x)} (l : list A) :
  Forall P l → filter P l = l.
Proof.
  induction 1 as [|x l Hx _ IH]; [done|].
  by rewrite filter_cons_True, IH.
Qed.

Lemma fromkeys_acc xs acc :
  fold_left (fun keys x => if decide (x ∈ keys) then keys else keys ++ [x])
            xs acc
  = acc ++ filter (fun y => y ∉ acc) (first_seen xs).
Proof.
  revert acc; induction xs as [|x xs IH]; intros acc; simpl.
  { by rewrite app_nil_r. }
  rewrite IH. case_decide as Hx.
  - f_equal. rewrite filter_cons_False by (intros ?; done).
    rewrite list_filter_filter. apply list_filter_iff.
    intros y; split; [|tauto]. intros Hy; split; [done|]. by intros ->.
  - rewrite filter_cons_True by done.
    rewrite <-app_assoc. simpl. do 2 f_equal.
    rewrite list_filter_filter. apply list_filter_iff.
    intros y. rewrite elem_of_app, list_elem_of_singleton. tauto.
Qed.

Lemma fromkeys_first_seen xs : fromkeys xs = first_seen xs.
Proof.
  unfold fromkeys. rewrite fromkeys_acc. simpl.
  apply filter_all, Forall_forall. intros y _. apply not_elem_of_nil.
Qed.

Lemma elem_of_first_seen x xs : x ∈ first_seen xs ↔ x ∈ xs.
Proof.
  induction xs as [|y xs IH]; simpl; [done|].
  rewrite !elem_of_cons, list_elem_of_filter, IH.
  destruct (decide (x = y)); tauto.
Qed.

Lemma NoDup_first_seen xs : NoDup (first_seen xs).
Proof.
  induction xs as [|y xs IH]; simpl; [constructor|].
  constructor; [|by apply NoDup_filter].
  rewrite list_elem_of_filter. tauto.
Qed.

Lemma first_seen_NoDup xs : NoDup xs → first_seen xs = xs.
Proof.
  induction 1 as [|x xs Hx _ IH]; simpl; [done|].
  rewrite IH. f_equal. apply filter_all, Forall_forall.
  intros y Hy ->. done.
Qed.

Lemma first_seen_nonempty xs : xs ≠ [] → first_seen xs ≠ [].
Proof. by destruct xs. Qed.

Lemma NoDup_take {A} (l : list A) n : NoDup l → NoDup (take n l).
Proof. intros Hl. eapply sublist_NoDup; [done|apply sublist_take]. Qed.

Lemma take_nonempty {A} (l : list A) n : l ≠ [] → take (S n) l ≠ [].
Proof. by destruct l. Qed.

(** ** The allow-list *)

Lemma allowed_elem x : x ∈ ALLOWED_SECTORS ↔ x ∈ allowed_list.
Proof. unfold ALLOWED_SECTORS. by rewrite elem_of_list_to_set. Qed.

(** The labels of the allow-list are not blank and carry no white space
    at their ends. *)
Lemma allowed_stripped x :
  x ∈ ALLOWED_SECTORS → strip x = x ∧ nonempty x = true.
Proof.
  rewrite allowed_elem. unfold allowed_list.
  rewrite !elem_of_cons, elem_of_nil.
  intros H; repeat (destruct H as [->|H]; [by vm_compute|]); done.
Qed.

Lemma allowed_only_allowed xs : Forall (.∈ ALLOWED_SECTORS) (allowed_only xs).
Proof.
  apply Forall_forall. intros x. unfold allowed_only.
  rewrite list_elem_of_filter. tauto.
Qed.

Lemma allowed_only_fixed xs :
  Forall (.∈ ALLOWED_SECTORS) xs → allowed_only xs = xs.
Proof. apply filter_all. Qed.

Lemma default_sector_table c :
  default "Business & Professional Services" (assoc DEFAULT_SECTOR_BY_FC c)
  = default_sector c.
Proof.
  unfold default_sector, DEFAULT_SECTOR_BY_FC. cbn [assoc].
  repeat match goal with
         | |- context [String.eqb ?a c] =>
             destruct (String.eqb_spec a c) as [<-|?]; [by vm_compute|]
         end.
  destruct (String.eqb_spec c "Universities & Research Centers"); [|done].
  congruence.
Qed.

Lemma default_sector_allowed c : default_sector c ∈ ALLOWED_SECTORS.
Proof. unfold default_sector. by case_match; vm_compute. Qed.

(** ** The sectors *)

Lemma sector_list_of_labels py_str L :
  Forall (.∈ ALLOWED_SECTORS) L →
  _as_string_sector_list py_str (VList (VStr <$> L)) = L.
Proof.
  simpl. induction 1 as [|x L Hx _ IH]; [done|].
  destruct (allowed_stripped x Hx) as [Hs Hn].
  rewrite fmap_cons. simpl. rewrite Hs, Hn. simpl. f_equal. exact IH.
Qed.

(** The label a dict item appends is the label of the object. *)
Lemma dict_label_head d keys :
  dict_label d keys
  = head (omap (fun k => match d !! k with
                         | Some (VStr s) => label_of_text s
                         | _ => None
                         end) keys).
Proof.
  induction keys as [|k keys IH]; [done|].
  cbn [dict_label omap list_omap]. unfold dict_get, label_of_text.
  destruct (d !! k) as [[| | | |t| |]|]; cbn [default from_option id];
    try exact IH.
  by destruct (nonempty (strip t)).
Qed.

Lemma dict_label_object d :
  dict_label d ["name"; "label"; "value"; "sector"] = label_of_object d.
Proof. apply dict_label_head. Qed.

Lemma sector_item_label py_str item :
  sector_item py_str item = option_list (label_of_entry py_str item).
Proof.
  destruct item; cbn [sector_item label_of_entry]; unfold label_of_text;
    try (by case_match).
  rewrite dict_label_object. by destruct (label_of_object _).
Qed.

(** The code's normalizer computes the normalized sectors. *)
Lemma as_string_sector_list_normalized py_str raw :
  _as_string_sector_list py_str raw = normalized_sectors py_str raw.
Proof.
  destruct raw as [|b|z|f|t|l|d];
    cbn [_as_string_sector_list normalized_sectors];
    unfold label_of_text; try done; try (by case_match).
  induction l as [|x l IH]; [done|].
  rewrite fmap_cons. cbn [concat omap list_omap].
  rewrite IH, sector_item_label. by destruct (label_of_entry py_str x).
Qed.

(** The code's filter keeps the labels of the allow-list. *)
Lemma allowed_only_allow_listed xs : allowed_only xs = allow_listed xs.
Proof.
  unfold allowed_only, allow_listed. apply list_filter_iff.
  intros x. apply allowed_elem.
Qed.

Lemma sector_chain_spec py_str (r : gmap string value) s c :
  r !! "funding_classification" = Some (VStr c) →
  sector_chain py_str r s
  = Some (sector_fallback_chain py_str (dict_get r "sectors") s c).
Proof.
  intros Hc. unfold sector_chain, sector_fallback_chain.
  rewrite !as_string_sector_list_normalized, !allowed_only_allow_listed.
  destruct (allow_listed (normalized_sectors py_str (dict_get r "sectors")));
    [|done].
  destruct (allow_listed (normalized_sectors py_str s)); [|done].
  rewrite Hc. cbn [mbind option_bind table_get].
  by rewrite default_sector_table.
Qed.

Lemma sector_fallback_chain_allowed py_str m s c :
  Forall (.∈ ALLOWED_SECTORS) (sector_fallback_chain py_str m s c).
Proof.
  unfold sector_fallback_chain. rewrite <-!allowed_only_allow_listed.
  destruct (allowed_only (normalized_sectors py_str m)) eqn:E1.
  - destruct (allowed_only (normalized_sectors py_str s)) eqn:E2.
    + repeat constructor. apply default_sector_allowed.
    + rewrite <-E2. apply allowed_only_allowed.
  - rewrite <-E1. apply allowed_only_allowed.
Qed.

Lemma sector_fallback_chain_nonempty py_str m s c :
  sector_fallback_chain py_str m s c ≠ [].
Proof. unfold sector_fallback_chain. by repeat case_match. Qed.

(** ** The synthesized note *)

Ltac kept_by_rstrip :=
  repeat first
    [ split
    | reflexivity
    | apply rstrip_app_fixed
    | apply nonempty_app_r ].

Lemma note_template_shape name country c sectors :
  let t := note_template name country c sectors in
  strip t = t ∧ 10 < String.length t.
Proof.
  unfold note_template, note_sentence.
  repeat match goal with
         | |- context [String.eqb c ?a] => destruct (String.eqb c a)
         end;
    (split;
     [ apply strip_fixed; kept_by_rstrip
     | rewrite !str_length_app; repeat case_match; simpl; lia ]).
Qed.

(** The template table of the code holds the sentences, and the generic
    sentence stands in for a classification that is not in it. *)
Lemma templates_sentence name region sec_txt c :
  default (generic_template name region sec_txt)
    (assoc (templates name region sec_txt) c)
  = note_sentence c name region sec_txt.
Proof.
  unfold note_sentence, generic_template, templates. cbn [assoc].
  repeat match goal with
         | |- context [String.eqb c ?a] =>
             destruct (String.eqb_spec c a) as [->|Hn];
               [ reflexivity
               | replace (String.eqb a c) with false
                   by (symmetry; rewrite String.eqb_sym;
                       by apply String.eqb_neq);
                 clear Hn ]
         end.
  reflexivity.
Qed.

Lemma synth_note name country c sectors :
  synth_additional_info name country (VStr c) sectors
  = Some (Some (clipped 220 (note_template name country c sectors))).
Proof.
  pose proof (note_template_shape name country c sectors) as [_ Hlen].
  unfold synth_additional_info, note_template in *.
  cbn [mbind option_bind table_get]. cbv zeta in *.
  rewrite <-templates_sentence in *.
  destruct (assoc _ c) as [t|] eqn:E; cbn [default from_option id] in *.
  - assert (nonempty t = true) as Hne by (apply nonempty_length; lia).
    rewrite Hne. by rewrite clip_clipped_220.
  - rewrite clip_clipped_220; [done|]. apply nonempty_length. lia.
Qed.

End HelperFacts.

(* ===================================================================== *)
(** * The reconciler, field by field *)
(* ===================================================================== *)

Module SanitizeFacts.

Import PyStr PyStrFacts Main Spec HelperFacts.

Section WithStr.

Variable py_str : value -> string.

Lemma truthy_lookup (r : gmap string value) k :
  truthy (dict_get r k) = true → r !! k = Some (dict_get r k).
Proof. unfold dict_get. by destruct (r !! k). Qed.

(** Rule 1 raises exactly when the classification cannot be
    stripped. *)
Lemma strip_classification (r : gmap string value) h fc :
  strip_value (py_or (dict_get r "funding_classification") (VStr ""))
  = Some fc →
  ∃ c, resolved_classification r h = Some c
       ∧ (if nonempty fc then r
          else <["funding_classification" :=
                   VStr (fallback_classification h)]> r)
           !! "funding_classification" = Some (VStr c)
       ∧ (nonempty (strip c) = true ∨ c = fallback_classification h).
Proof.
  unfold resolved_classification, py_or, dict_get.
  destruct (r !! "funding_classification") as [v|] eqn:E;
    cbn [default from_option id];
    [destruct v as [|b|z|f|s0|l|d]|];
    cbn [truthy strip_value]; try discriminate.
  all: repeat case_match; try discriminate.
  all: intros [= <-]; subst;
    repeat match goal with
           | H : nonempty ?s = false |- _ =>
               apply nonempty_false in H; subst
           end;
    cbn [strip rstrip lstrip nonempty];
    try (eexists; split; [done|]; rewrite ?lookup_insert_eq; by eauto).
  all: exfalso;
    repeat match goal with
           | H : strip _ = _ |- _ => rewrite H in *; clear H
           end;
    simpl in *; congruence.
Qed.

Lemma eq_str_VStr c l : eq_str (VStr c) l = String.eqb c l.
Proof. done. Qed.

Lemma long_text_str v t : long_text v = Some t → v = VStr t.
Proof. destruct v; simpl; try done. by case_match; intros [= ->]. Qed.

(** What [sanitize_record] returns, field by field. *)
Lemma sanitize_record_fields org (r : gmap string value) h s r' :
  sanitize_record py_str org r h s = Some r' →
  ∃ c,
    resolved_classification r h = Some c
    ∧ (nonempty (strip c) = true ∨ c = fallback_classification h)
    ∧ r' !! "funding_classification" = Some (VStr c)
    ∧ r' !! "angel_type" = Some (reconciled_angel_type org r c)
    ∧ r' !! "sectors"
      = Some (VList (VStr <$> reconciled_sectors py_str r s c))
    ∧ r' !! "additional_info"
      = Some (VStr (reconciled_note py_str org r s c))
    ∧ (∀ k, k ∈ ["stages"; "ticket_size_usd_min"; "ticket_size_usd_max";
                 "ticket_size_currency"] →
            r' !! k = if String.eqb c "Venture Capital Funds"
                      then r !! k
                      else Some (if String.eqb k "stages"
                                 then VList [] else VNone))
    ∧ r' !! "sources" = Some (VList (reconciled_sources r))
    ∧ (∀ k, k ∉ sanitized_keys → r' !! k = r !! k).
Proof.
  unfold sanitize_record. intros H.
  destruct (strip_value _) as [fc|] eqn:Efc; [|done].
  cbn [mbind option_bind] in H.
  destruct (strip_classification r h fc Efc) as (c & Hres & Hc & Hdis).
  change (if nonempty h then h else "Investment Firms")
    with (fallback_classification h) in H.
  assert (Hframe : ∀ k, k ≠ "funding_classification" →
            (if nonempty fc then r
             else <["funding_classification" :=
                      VStr (fallback_classification h)]> r) !! k = r !! k).
  { intros k Hk. case_match; [done|]. by rewrite lookup_insert_ne. }
  set (r1 := if nonempty fc then r else _) in *. clearbody r1. clear Efc.
  rewrite Hc in H. cbn [mbind option_bind] in H.
  rewrite eq_str_VStr in H.
  (* the angel sub-type *)
  assert (Hat : dict_get r1 "angel_type" = dict_get r "angel_type").
  { unfold dict_get. by rewrite Hframe. }
  rewrite Hat in H.
  set (r2 := if (c =? "Angel Investors")%string then _ else _) in *.
  assert (Hc2 : r2 !! "funding_classification" = Some (VStr c)).
  { subst r2. repeat case_match; by rewrite ?lookup_insert_ne. }
  assert (Hangel : r2 !! "angel_type" = Some (reconciled_angel_type org r c)).
  { subst r2. unfold reconciled_angel_type.
    destruct (c =? "Angel Investors")%string;
      [destruct (truthy (dict_get r "angel_type")) eqn:Et|];
      rewrite ?lookup_insert_eq; try done.
    rewrite Hframe by done. by apply truthy_lookup. }
  assert (Hframe2 : ∀ k, k ≠ "funding_classification" →
            k ≠ "angel_type" → r2 !! k = r !! k).
  { intros k ? ?. subst r2.
    repeat case_match; rewrite ?lookup_insert_ne by done; by apply Hframe. }
  clearbody r2. clear Hat Hframe Hc r1.
  (* the sectors *)
  rewrite (sector_chain_spec py_str r2 s c Hc2) in H.
  cbn [mbind option_bind] in H.
  rewrite fromkeys_first_seen in H.
  replace (dict_get r2 "sectors") with (dict_get r "sectors") in H
    by (unfold dict_get; by rewrite Hframe2).
  fold (reconciled_sectors py_str r s c) in H.
  set (L := reconciled_sectors py_str r s c) in *.
  (* the note *)
  replace (dict_get (<["sectors":=VList (VStr <$> L)]> r2) "additional_info")
    with (dict_get r "additional_info") in H
    by (unfold dict_get; by rewrite lookup_insert_ne, Hframe2).
  rewrite lookup_insert_ne, Hc2 in H by done.
  cbn [mbind option_bind] in H.
  rewrite synth_note in H.
  assert (Hinfo :
    match long_text (dict_get r "additional_info") with
    | Some s0 => Some (clip s0 220)
    | None =>
        Some (Some (clipped 220
          (note_template (str_or (org_name org) "") (org_country org) c
             (map_sector_label_for_sheet <$> L))))
    end = Some (Some (reconciled_note py_str org r s c))).
  { unfold reconciled_note. fold L.
    destruct (long_text (dict_get r "additional_info")) as [t|] eqn:Et;
      [|done].
    rewrite clip_clipped_220; [done|].
    destruct (dict_get r "additional_info"); simpl in Et; try done.
    revert Et. case_match eqn:E; [|done]. intros [= ->].
    by apply andb_prop in E as [? _]. }
  rewrite Hinfo in H. clear Hinfo.
  cbn [mbind option_bind of_opt_str] in H.
  rewrite !lookup_insert_ne, Hc2 in H by done.
  cbn [mbind option_bind] in H. rewrite eq_str_VStr in H.
  injection H as <-.
  exists c. split_and!; try done.
  - rewrite lookup_insert_ne by done.
    destruct (c =? "Venture Capital Funds")%string; simpl;
      by rewrite !lookup_insert_ne.
  - rewrite lookup_insert_ne by done.
    destruct (c =? "Venture Capital Funds")%string; simpl;
      by rewrite !lookup_insert_ne.
  - rewrite lookup_insert_ne by done.
    destruct (c =? "Venture Capital Funds")%string; simpl;
      rewrite ?lookup_insert_ne by done; by rewrite lookup_insert_eq.
  - rewrite lookup_insert_ne by done.
    destruct (c =? "Venture Capital Funds")%string; simpl;
      rewrite ?lookup_insert_ne by done; by rewrite lookup_insert_eq.
  - intros k Hk. rewrite !elem_of_cons, elem_of_nil in Hk.
    destruct Hk as [->|[->|[->|[->|[]]]]];
      rewrite lookup_insert_ne by done;
      (destruct (c =? "Venture Capital Funds")%string; simpl;
       [ rewrite !lookup_insert_ne by done; by apply Hframe2
       | rewrite ?lookup_insert_ne by done; by rewrite lookup_insert_eq ]).
  - rewrite lookup_insert_eq. do 2 f_equal.
    unfold reconciled_sources, py_or.
    replace (dict_get _ "sources") with (dict_get r "sources").
    + destruct (dict_get r "sources") as [| | | | |l|]; simpl;
        repeat case_match; try done; by simplify_eq.
    + unfold dict_get.
      destruct (c =? "Venture Capital Funds")%string; simpl;
        rewrite !lookup_insert_ne by done; by rewrite Hframe2.
  - intros k Hk. unfold sanitized_keys in Hk.
    rewrite !not_elem_of_cons in Hk. destruct_and!.
    rewrite lookup_insert_ne by done.
    destruct (c =? "Venture Capital Funds")%string; simpl;
      rewrite !lookup_insert_ne by done; by apply Hframe2.
Qed.

(** [sanitize_record] returns whenever the classification can be
    stripped: when it is a string or a falsy value. *)
Lemma sanitize_record_defined org (r : gmap string value) h s c :
  resolved_classification r h = Some c →
  is_Some (sanitize_record py_str org r h s).
Proof.
  intros Hres. unfold sanitize_record.
  assert (∃ fc, strip_value
            (py_or (dict_get r "funding_classification") (VStr ""))
          = Some fc) as [fc Efc].
  { revert Hres. unfold resolved_classification, py_or.
    destruct (dict_get r "funding_classification") as [|b|z|f|s0|l|d];
      cbn [truthy strip_value]; repeat case_match; try done; eauto. }
  rewrite Efc. cbn [mbind option_bind].
  destruct (strip_classification r h fc Efc) as (c' & _ & Hc & _).
  change (if nonempty h then h else "Investment Firms")
    with (fallback_classification h).
  set (r1 := if nonempty fc then r else _) in *. clearbody r1.
  rewrite Hc. cbn [mbind option_bind]. rewrite eq_str_VStr.
  set (r2 := if (c' =? "Angel Investors")%string then _ else _).
  assert (Hc2 : r2 !! "funding_classification" = Some (VStr c')).
  { subst r2. repeat case_match; by rewrite ?lookup_insert_ne. }
  clearbody r2.
  rewrite (sector_chain_spec py_str r2 s c' Hc2).
  cbn [mbind option_bind].
  rewrite lookup_insert_ne, Hc2 by done. cbn [mbind option_bind].
  rewrite synth_note.
  destruct (long_text _); cbn [mbind option_bind];
    rewrite !lookup_insert_ne, Hc2 by done; by cbn [mbind option_bind].
Qed.

Lemma truthy_angel_type_of_name org :
  truthy (VStr (angel_type_of_name org)) = true.
Proof. unfold angel_type_of_name. by case_match. Qed.

Lemma reconciled_sectors_props (r : gmap string value) s c :
  let L := reconciled_sectors py_str r s c in
  L ≠ [] ∧ NoDup L ∧ length L ≤ 4 ∧ Forall (.∈ ALLOWED_SECTORS) L.
Proof.
  unfold reconciled_sectors. split_and!.
  - apply take_nonempty, first_seen_nonempty,
      sector_fallback_chain_nonempty.
  - apply NoDup_take, NoDup_first_seen.
  - rewrite length_take. lia.
  - apply Forall_take, Forall_forall. intros x.
    rewrite elem_of_first_seen.
    revert x. apply Forall_forall, sector_fallback_chain_allowed.
Qed.

Lemma reconciled_note_props org (r : gmap string value) s c :
  let a := reconciled_note py_str org r s c in
  long_text (VStr a) = Some a ∧ clipped 220 a = a
  ∧ String.length a ≤ 223.
Proof.
  assert (∀ t, 10 < String.length (strip t) →
            long_text (VStr (clipped 220 t)) = Some (clipped 220 t)
            ∧ clipped 220 (clipped 220 t) = clipped 220 t
            ∧ String.length (clipped 220 t) ≤ 223) as Hclip.
  { intros t Ht. split_and!.
    - pose proof (clipped_length_ge 220 t).
      cbn [long_text truthy]. rewrite strip_clipped.
      replace (nonempty (clipped 220 t)) with true
        by (symmetry; apply nonempty_length; lia).
      replace (10 <? String.length (clipped 220 t))%nat with true
        by (symmetry; apply Nat.ltb_lt; lia).
      done.
    - apply clipped_idem.
    - apply (clipped_length 220). }
  unfold reconciled_note.
  destruct (long_text (dict_get r "additional_info")) as [t|] eqn:Et.
  - apply Hclip. destruct (dict_get r "additional_info"); try done.
    simpl in Et. revert Et. case_match eqn:E; [|done]. intros [= ->].
    apply andb_prop in E as [_ E]. by apply Nat.ltb_lt in E.
  - apply Hclip.
    by destruct (note_template_shape (str_or (org_name org) "")
                   (org_country org) c
                   (map_sector_label_for_sheet
                      <$> reconciled_sectors py_str r s c)) as [-> ?].
Qed.

(** A record that [sanitize_record] returned is returned unchanged when
    it is sanitized again. *)
Lemma sanitize_record_fixpoint org (r : gmap string value) h s r' :
  sanitize_record py_str org r h s = Some r' →
  sanitize_record py_str org r' h s = Some r'.
Proof.
  intros H1.
  destruct (sanitize_record_fields _ _ _ _ _ H1)
    as (c & _ & Hdis & Hfc & Hat & Hsec & Hai & Hvc & Hsrc & Hfr).
  assert (Hres : resolved_classification r' h = Some c).
  { unfold resolved_classification, dict_get. rewrite Hfc. simpl.
    destruct Hdis as [->| ->]; [done|].
    by destruct (nonempty (strip (fallback_classification h))). }
  destruct (sanitize_record_defined org r' h s c Hres) as [r'' H2].
  rewrite H2. f_equal.
  destruct (sanitize_record_fields _ _ _ _ _ H2)
    as (c2 & Hres2 & _ & Hfc2 & Hat2 & Hsec2 & Hai2 & Hvc2 & Hsrc2 & Hfr2).
  assert (c2 = c) as -> by congruence.
  apply map_eq. intros k.
  destruct (decide (k ∈ sanitized_keys)) as [Hk|Hk];
    [|by rewrite Hfr2, Hfr].
  unfold sanitized_keys in Hk. rewrite !elem_of_cons, elem_of_nil in Hk.
  destruct Hk as [->|[->|[->|[->|Hk]]]].
  - by rewrite Hfc2, Hfc.
  - rewrite Hat2, Hat. f_equal.
    unfold reconciled_angel_type at 1, dict_get. rewrite Hat. simpl.
    unfold reconciled_angel_type.
    destruct (c =? "Angel Investors")%string; [|done].
    destruct (truthy (dict_get r "angel_type")) eqn:Et.
    + by rewrite Et.
    + by rewrite truthy_angel_type_of_name.
  - rewrite Hsec2, Hsec. do 3 f_equal.
    destruct (reconciled_sectors_props r s c) as (Hne & Hnd & Hlen & Hall).
    unfold reconciled_sectors at 1, sector_fallback_chain, dict_get.
    rewrite Hsec. simpl default.
    rewrite <-as_string_sector_list_normalized, <-allowed_only_allow_listed.
    rewrite sector_list_of_labels, allowed_only_fixed by done.
    destruct (reconciled_sectors py_str r s c) as [|x L] eqn:EL; [done|].
    rewrite first_seen_NoDup by done. by apply take_ge.
  - rewrite Hai2, Hai. do 2 f_equal.
    destruct (reconciled_note_props org r s c) as (Hlong & Hclip & _).
    unfold reconciled_note at 1, dict_get. rewrite Hai. simpl default.
    by rewrite Hlong.
  - assert (k ∈ ["stages"; "ticket_size_usd_min"; "ticket_size_usd_max";
                 "ticket_size_currency"] ∨ k = "sources") as [Hk'| ->].
    { rewrite !elem_of_cons, elem_of_nil. tauto. }
    + rewrite (Hvc2 k Hk'). specialize (Hvc k Hk').
      destruct (c =? "Venture Capital Funds")%string;
        [done | by rewrite Hvc].
    + rewrite Hsrc2, Hsrc. do 2 f_equal.
      unfold reconciled_sources at 1, dict_get. rewrite Hsrc. simpl.
      unfold reconciled_sources.
      destruct (dict_get r "sources"); try done. apply take_idemp.
Qed.

End WithStr.

End SanitizeFacts.

(* ===================================================================== *)
(** * The reconciler: the claims *)
(* ===================================================================== *)

Module SanitizeClaims.

Import PyStr PyStrFacts Main Spec HelperFacts SanitizeFacts Examples.

Example sanitize_accelerator :
  sanitize_record str_of_scalar acme accelerator_record "Investment Firms"
    (VList [VStr "ICT"])
  = Some accelerator_sanitized.
Proof. vm_cast_no_check (eq_refl (Some accelerator_sanitized)). Qed.

(** C1. Whatever the model supplied, the record [sanitize_record]
    returns carries no VC data unless its classification is "Venture
    Capital Funds" ([stages] is the empty list and the three ticket
    fields are null), and no angel sub-type unless its classification
    is "Angel Investors" ([angel_type] is null). *)
Theorem sanitize_record_clears_foreign_fields
    py_str org (r : gmap string value) h s r' :
  sanitize_record py_str org r h s = Some r' →
  (r' !! "funding_classification" ≠ Some (VStr "Venture Capital Funds") →
     r' !! "stages" = Some (VList [])
     ∧ r' !! "ticket_size_usd_min" = Some VNone
     ∧ r' !! "ticket_size_usd_max" = Some VNone
     ∧ r' !! "ticket_size_currency" = Some VNone)
  ∧ (r' !! "funding_classification" ≠ Some (VStr "Angel Investors") →
     r' !! "angel_type" = Some VNone).
Proof.
  intros H.
  destruct (sanitize_record_fields _ _ _ _ _ _ H)
    as (c & _ & _ & Hfc & Hat & _ & _ & Hvc & _).
  rewrite Hfc. split.
  - intros Hne.
    destruct (String.eqb_spec c "Venture Capital Funds") as [->|_];
      [done|].
    split_and!.
    + apply (Hvc "stages"). set_solver.
    + apply (Hvc "ticket_size_usd_min"). set_solver.
    + apply (Hvc "ticket_size_usd_max"). set_solver.
    + apply (Hvc "ticket_size_currency"). set_solver.
  - intros Hne. rewrite Hat. unfold reconciled_angel_type.
    by destruct (String.eqb_spec c "Angel Investors") as [->|_].
Qed.

Lemma sanitize_record_clears_foreign_fields_witness :
  (accelerator_sanitized !! "stages" = Some (VList [])
   ∧ accelerator_sanitized !! "ticket_size_usd_min" = Some VNone
   ∧ accelerator_sanitized !! "ticket_size_usd_max" = Some VNone
   ∧ accelerator_sanitized !! "ticket_size_currency" = Some VNone)
  ∧ accelerator_sanitized !! "angel_type" = Some VNone.
Proof.
  destruct (sanitize_record_clears_foreign_fields str_of_scalar acme
              accelerator_record "Investment Firms" (VList [VStr "ICT"])
              accelerator_sanitized)
    as [Hvc Hangel].
  - vm_cast_no_check (eq_refl (Some accelerator_sanitized)).
  - split; [apply Hvc | apply Hangel]; vm_compute; discriminate.
Defined.

(** C2. [sanitize_record] is idempotent: sanitizing the record it
    returned, with the same organization, heuristic classification and
    inferred sectors, returns that record. It returns exactly when the
    model's classification is a string or a falsy value. *)
Theorem sanitize_record_idempotent
    py_str org (r : gmap string value) h s :
  (sanitize_record py_str org r h s
     ≫= (fun r1 => sanitize_record py_str org r1 h s)
   = sanitize_record py_str org r h s)
  ∧ (is_Some (sanitize_record py_str org r h s)
     ↔ is_Some (resolved_classification r h)).
Proof.
  split.
  - destruct (sanitize_record py_str org r h s) as [r'|] eqn:E; [|done].
    simpl. by eapply sanitize_record_fixpoint.
  - split.
    + intros [r' E].
      destruct (sanitize_record_fields _ _ _ _ _ _ E) as (c & -> & _).
      by eexists.
    + intros [c E]. by eapply sanitize_record_defined.
Qed.

(** C5. The sectors of the returned record are the fallback chain (the
    model's sectors normalized to strings, whatever their shape: null
    gives none, a single string itself, a list its strings, the labels
    of its label-bearing objects and the string coercion of its other
    entries, every label trimmed and blank ones left out; then filtered
    to the allow-list;
    if none is left, the inferred sectors filtered the same way; if none
    is left, the default sector of the classification: Education for
    Universities & Research Centers, Business & Professional Services
    for everything else), deduplicated in first-seen order and capped to
    four: at most four labels, at least one, all of the allow-list, no
    duplicates. *)
Theorem sanitize_record_sectors
    py_str org (r : gmap string value) h s r' :
  sanitize_record py_str org r h s = Some r' →
  ∃ c L,
    r' !! "funding_classification" = Some (VStr c)
    ∧ r' !! "sectors" = Some (VList (VStr <$> L))
    ∧ _as_string_sector_list py_str (dict_get r "sectors")
      = normalized_sectors py_str (dict_get r "sectors")
    ∧ _as_string_sector_list py_str s = normalized_sectors py_str s
    ∧ L = take 4 (first_seen
                    (sector_fallback_chain py_str (dict_get r "sectors")
                       s c))
    ∧ default "Business & Professional Services"
        (assoc DEFAULT_SECTOR_BY_FC c) = default_sector c
    ∧ fromkeys (sector_fallback_chain py_str (dict_get r "sectors") s c)
      = first_seen (sector_fallback_chain py_str (dict_get r "sectors") s c)
    ∧ length L ≤ 4 ∧ L ≠ []
    ∧ Forall (.∈ ALLOWED_SECTORS) L ∧ NoDup L.
Proof.
  intros H.
  destruct (sanitize_record_fields _ _ _ _ _ _ H)
    as (c & _ & _ & Hfc & _ & Hsec & _).
  destruct (reconciled_sectors_props py_str r s c) as (Hne & Hnd & Hlen & Hall).
  exists c, (reconciled_sectors py_str r s c). split_and!; try done.
  - apply as_string_sector_list_normalized.
  - apply as_string_sector_list_normalized.
  - apply default_sector_table.
  - apply fromkeys_first_seen.
Qed.

Lemma sanitize_record_sectors_witness :
  normalized_sectors str_of_scalar (dict_get accelerator_record "sectors")
  = ["Health"; "Health"; "Bogus"; "7"; "Energy"]
  ∧ ∃ L, accelerator_sanitized !! "sectors" = Some (VList (VStr <$> L))
         ∧ L = ["Health"; "Energy"] ∧ length L ≤ 4 ∧ NoDup L.
Proof.
  destruct (sanitize_record_sectors str_of_scalar acme accelerator_record
              "Investment Firms" (VList [VStr "ICT"]) accelerator_sanitized)
    as (c & L & _ & Hsec & _ & _ & HL & _ & _ & Hlen & _ & _ & Hnd).
  - vm_cast_no_check (eq_refl (Some accelerator_sanitized)).
  - split; [vm_compute; reflexivity|].
    exists L. split; [exact Hsec|]. split; [|by split].
    etrans; [exact HL|]. vm_compute. reflexivity.
Defined.

(** C6, as the code has it. The note of the returned record is a string
    of at most 223 characters: a text trimmed and, when the trimmed text
    is longer than 220 characters, cut to its first 220 characters with
    the three-character marker appended. The text is the model's
    [additional_info] when that is a string longer than 10 characters
    after trimming, and otherwise the sentence synthesized from the
    template of the classification, the organization's name, its country
    (or "the region") and the joined sectors. *)
Theorem sanitize_record_note
    py_str org (r : gmap string value) h s r' :
  sanitize_record py_str org r h s = Some r' →
  ∃ c a L,
    r' !! "funding_classification" = Some (VStr c)
    ∧ r' !! "sectors" = Some (VList (VStr <$> L))
    ∧ r' !! "additional_info" = Some (VStr a)
    ∧ String.length a ≤ 223
    ∧ (∀ t, dict_get r "additional_info" = VStr t →
            10 < String.length (strip t) → a = clipped 220 t)
    ∧ ((∀ t, dict_get r "additional_info" = VStr t →
             String.length (strip t) ≤ 10) →
       a = clipped 220
             (note_template (str_or (org_name org) "") (org_country org) c
                (map_sector_label_for_sheet <$> L))
       ∧ synth_additional_info (str_or (org_name org) "") (org_country org)
           (VStr c) (map_sector_label_for_sheet <$> L) = Some (Some a))
    ∧ (∀ t, String.length (strip t) ≤ 220 → clipped 220 t = strip t)
    ∧ (∀ t, 220 < String.length (strip t) →
            clipped 220 t = slice_to 220 (strip t) +:+ "...").
Proof.
  intros H.
  destruct (sanitize_record_fields _ _ _ _ _ _ H)
    as (c & _ & _ & Hfc & _ & Hsec & Hai & _).
  destruct (reconciled_note_props py_str org r s c) as (_ & _ & Hlen).
  exists c, (reconciled_note py_str org r s c),
    (reconciled_sectors py_str r s c).
  split_and!; try done.
  - intros t Ht Hlong. unfold reconciled_note. rewrite Ht.
    cbn [long_text truthy].
    replace (nonempty t) with true.
    + by replace (10 <? String.length (strip t))%nat with true
        by (symmetry; by apply Nat.ltb_lt).
    + symmetry. apply nonempty_length.
      pose proof (length_strip t). lia.
  - intros Hshort.
    assert (long_text (dict_get r "additional_info") = None) as Hnone.
    { destruct (dict_get r "additional_info") as [| | | |t| |] eqn:E;
        try done.
      cbn [long_text].
      replace (10 <? String.length (strip t))%nat with false;
        [by rewrite andb_false_r|].
      symmetry. apply Nat.ltb_ge. by apply Hshort. }
    unfold reconciled_note. rewrite Hnone. split; [done|].
    apply synth_note.
  - intros t Ht. unfold clipped.
    by replace (220 <? String.length (strip t))%nat with false
      by (symmetry; by apply Nat.ltb_ge).
  - intros t Ht. unfold clipped.
    by replace (220 <? String.length (strip t))%nat with true
      by (symmetry; by apply Nat.ltb_lt).
Qed.

Lemma sanitize_record_note_witness :
  ∃ a, accelerator_sanitized !! "additional_info" = Some (VStr a)
       ∧ String.length a ≤ 223.
Proof.
  destruct (sanitize_record_note str_of_scalar acme accelerator_record
              "Investment Firms" (VList [VStr "ICT"]) accelerator_sanitized)
    as (c & a & L & _ & _ & Ha & Hlen & _).
  - vm_cast_no_check (eq_refl (Some accelerator_sanitized)).
  - exists a. by split.
Defined.

(** C6, as the claim states it, fails: a model note of 221 characters
    comes back as its first 220 characters and the marker, 223
    characters in all, which is more than 220. *)
Lemma sanitize_record_note_exceeds_220 :
  (sanitize_record str_of_scalar acme long_note_record "Investment Firms"
     (VList []) ≫= (.!! "additional_info"))
  = Some (VStr long_note_clipped)
  ∧ String.length long_note = 221
  ∧ String.length long_note_clipped = 223
  ∧ ¬ String.length long_note_clipped ≤ 220.
Proof.
  split_and!; [by vm_compute..|].
  assert (String.length long_note_clipped = 223) as -> by by vm_compute.
  lia.
Qed.

(** C10. [sanitize_record] assigns only [funding_classification],
    [angel_type], [sectors], [additional_info], [stages], the three
    ticket fields and [sources]: every other field of the record, among
    them [name], [country], [website], [confidence] and [notes], is in
    the returned record as it was in the input, present with the same
    value or absent. *)
Theorem sanitize_record_frame
    py_str org (r : gmap string value) h s r' :
  sanitize_record py_str org r h s = Some r' →
  (∀ k, k ∉ sanitized_keys → r' !! k = r !! k)
  ∧ r' !! "name" = r !! "name"
  ∧ r' !! "country" = r !! "country"
  ∧ r' !! "website" = r !! "website"
  ∧ r' !! "confidence" = r !! "confidence"
  ∧ r' !! "notes" = r !! "notes".
Proof.
  intros H.
  destruct (sanitize_record_fields _ _ _ _ _ _ H)
    as (c & _ & _ & _ & _ & _ & _ & _ & _ & Hfr).
  split_and!; [done|..]; apply Hfr; unfold sanitized_keys;
    rewrite !not_elem_of_cons; split_and!; (done || apply not_elem_of_nil).
Qed.

Lemma sanitize_record_frame_witness :
  accelerator_sanitized !! "notes" = Some (VStr "kept as it is")
  ∧ accelerator_sanitized !! "confidence"
    = Some (VFloat (S754_finite false 1 (-1))).
Proof.
  destruct (sanitize_record_frame str_of_scalar acme accelerator_record
              "Investment Firms" (VList [VStr "ICT"]) accelerator_sanitized)
    as (_ & _ & _ & _ & Hconf & Hnotes).
  - vm_cast_no_check (eq_refl (Some accelerator_sanitized)).
  - rewrite Hnotes, Hconf. split; vm_compute; reflexivity.
Defined.

End SanitizeClaims.

(* ===================================================================== *)
(** * The heuristic classifier: the claims *)
(* ===================================================================== *)

Module ClassifyClaims.

Import Classify.

Lemma num_le_finite p q : num_le (Finite p) (Finite q) = true ↔ (p <= q)%Q.
Proof. apply Qle_bool_iff. Qed.

Lemma num_lt_finite p q : num_lt (Finite p) (Finite q) = true ↔ (p < q)%Q.
Proof.
  simpl. rewrite negb_true_iff, <-not_true_iff_false, Qle_bool_iff.
  split; [apply Qnot_le_lt | apply Qlt_not_le].
Qed.

Ltac decide_tiers :=
  repeat match goal with
         | |- context [num_le (Finite ?p) (Finite ?q)] =>
             let E := fresh "E" in
             destruct (num_le (Finite p) (Finite q)) eqn:E;
             [ apply num_le_finite in E
             | apply not_true_iff_false in E; rewrite num_le_finite in E ];
             unfold inject_Z in E; try (exfalso; lra)
         | |- context [num_lt (Finite ?p) (Finite ?q)] =>
             let E := fresh "E" in
             destruct (num_lt (Finite p) (Finite q)) eqn:E;
             [ apply num_lt_finite in E
             | apply not_true_iff_false in E; rewrite num_lt_finite in E ];
             unfold inject_Z in E; try (exfalso; lra)
         end;
  reflexivity.

(** C4. [infer_stage_from_ticket] on every amount: null for a null
    amount and for any amount below 100000; "Pre-seed" on
    [100000, 500000], both ends included; "Seed" on (500000, 2000000],
    so that 2000000 is Seed; "Series A" on (2000000, 10000000];
    "Series B" on (10000000, 30000000], 30000000 included; "Series C"
    above 30000000, 30000001 included. *)
Theorem infer_stage_from_ticket_tiers (n : number) (q : Q)
    (Hq : exact_of n = Finite q) :
  infer_stage_from_ticket None = None
  ∧ ((q < 100000)%Q → infer_stage_from_ticket (Some n) = None)
  ∧ ((100000 <= q)%Q ∧ (q <= 500000)%Q →
     infer_stage_from_ticket (Some n) = Some "Pre-seed")
  ∧ ((500000 < q)%Q ∧ (q <= 2000000)%Q →
     infer_stage_from_ticket (Some n) = Some "Seed")
  ∧ ((2000000 < q)%Q ∧ (q <= 10000000)%Q →
     infer_stage_from_ticket (Some n) = Some "Series A")
  ∧ ((10000000 < q)%Q ∧ (q <= 30000000)%Q →
     infer_stage_from_ticket (Some n) = Some "Series B")
  ∧ ((30000000 < q)%Q →
     infer_stage_from_ticket (Some n) = Some "Series C")
  ∧ infer_stage_from_ticket (Some (NInt 50000)) = None
  ∧ infer_stage_from_ticket (Some (NInt 100000)) = Some "Pre-seed"
  ∧ infer_stage_from_ticket (Some (NInt 500000)) = Some "Pre-seed"
  ∧ infer_stage_from_ticket (Some (NInt 2000000)) = Some "Seed"
  ∧ infer_stage_from_ticket (Some (NInt 30000000)) = Some "Series B"
  ∧ infer_stage_from_ticket (Some (NInt 30000001)) = Some "Series C".
Proof.
  split_and!.
  8-13: by vm_compute.
  1: reflexivity.
  all: unfold infer_stage_from_ticket, int_lit; rewrite Hq; cbv zeta;
    intros; destruct_and?; decide_tiers.
Qed.

Lemma infer_stage_from_ticket_tiers_witness :
  infer_stage_from_ticket (Some (NFloat (S754_finite false 1 21)))
  = Some "Series A".
Proof.
  apply (infer_stage_from_ticket_tiers
           (NFloat (S754_finite false 1 21)) (2097152 # 1)).
  - vm_compute. reflexivity.
  - split; vm_compute; (reflexivity || discriminate).
Defined.

End ClassifyClaims.

(* ===================================================================== *)
(** * Website resolution: the claims *)
(* ===================================================================== *)

Module WebClaims.

Import PyStr PyStrFacts Web Examples.

(** A link that starts with [http://] or [https://] comes back as it is,
    whatever it wraps. *)
Lemma normalize_ddg_href_http urlparse parse_qs raw :
  starts_http (strip raw) = true →
  _normalize_ddg_href urlparse parse_qs (Some raw) = Some (strip raw).
Proof.
  intros H. unfold _normalize_ddg_href. rewrite H.
  destruct (strip raw); [done|]. done.
Qed.

(** C3, on the code. The redirect link of the example starts with
    [https://], so [_normalize_ddg_href] returns it as it is: the [uddg]
    parameter is not looked at and the result is not
    "https://example.org/". *)
Theorem normalize_ddg_href_keeps_redirect urlparse parse_qs :
  _normalize_ddg_href urlparse parse_qs (Some ddg_redirect_href)
  = Some ddg_redirect_href
  ∧ _normalize_ddg_href urlparse parse_qs (Some ddg_redirect_href)
    ≠ Some "https://example.org/".
Proof.
  assert (_normalize_ddg_href urlparse parse_qs (Some ddg_redirect_href)
          = Some ddg_redirect_href) as -> by reflexivity.
  split; [done|]. by vm_compute.
Qed.

(** [_is_social] is a test on substrings of the whole lowered text. *)
Lemma is_social_substring url :
  _is_social url = true
  ↔ ∃ w, w ∈ ["linkedin.com"; "facebook.com"; "twitter.com"; "x.com";
              "instagram.com"; "t.co"]
         ∧ contains (lower url) w = true.
Proof.
  unfold _is_social, any_in. rewrite existsb_exists.
  split; intros (w & Hw & Hc); exists w; split; try done;
    by apply list_elem_of_In.
Qed.

(** C9, on the code. [_is_social] rejects every text that contains one of
    the six social-media strings, and so the site of a company that is not
    a social network too: "microsoft.com" contains "t.co". The favorite
    cell is rejected and website resolution falls through to the search
    hits, and finds nothing when there are none. *)
Theorem is_social_rejects_other_host urlparse parse_qs hits :
  (∀ url, _is_social url = true
          ↔ ∃ w, w ∈ ["linkedin.com"; "facebook.com"; "twitter.com";
                      "x.com"; "instagram.com"; "t.co"]
                 ∧ contains (lower url) w = true)
  ∧ contains (lower microsoft_cell) "t.co" = true
  ∧ _is_social microsoft_cell = true
  ∧ _extract_url_from_freeform microsoft_cell = Some microsoft_cell
  ∧ choose_website urlparse parse_qs (Some microsoft_cell) hits
    = first_usable_hit urlparse parse_qs hits
  ∧ choose_website urlparse parse_qs (Some microsoft_cell) [] = None.
Proof.
  split; [apply is_social_substring|].
  split_and!; reflexivity.
Qed.

End WebClaims.

(* ===================================================================== *)
(** * JSON recovery: the claims *)
(* ===================================================================== *)

Module ExtractClaims.

Import PyStr PyStrFacts Main Extract Spec HelperFacts Examples.

(** [from_open_brace] cuts the text at its first opening brace. *)
Lemma from_open_brace_spec s t :
  from_open_brace s = Some t →
  ∃ pre t', s = pre +:+ t ∧ t = String "{" t' ∧ has_char "{" pre = false.
Proof.
  revert t; induction s as [|c s IH]; intros t; simpl; [done|].
  destruct (Ascii.eqb_spec c "{") as [->|Hc].
  - intros [= <-]. by exists "", s.
  - intros H. destruct (IH _ H) as (pre & t' & -> & -> & Hpre).
    exists (String c pre), t'. split_and!; try done.
    simpl. rewrite Hpre. by destruct (Ascii.eqb_spec c "{").
Qed.

(** [upto_last_close] cuts the text after its last closing brace. *)
Lemma upto_last_close_spec s r :
  upto_last_close s = Some r →
  ∃ r' post, s = r +:+ post ∧ r = r' +:+ "}" ∧ has_char "}" post = false.
Proof.
  revert r; induction s as [|c s IH]; intros r; simpl; [done|].
  destruct (upto_last_close s) as [r0|] eqn:E.
  - intros [= <-]. destruct (IH _ eq_refl) as (r' & post & -> & -> & Hpost).
    by exists (String c r'), post.
  - destruct (Ascii.eqb_spec c "}") as [->|Hc]; [|done].
    intros [= <-]. exists "", s. split_and!; try done.
    clear IH. induction s as [|d s IH]; [done|]. simpl in *.
    destruct (upto_last_close s); [done|].
    destruct (Ascii.eqb_spec d "}"); [done|]. by apply IH.
Qed.

(** The block found is the text from the first opening brace to the last
    closing brace. *)
Lemma brace_block_spec out m :
  brace_block out = Some m →
  ∃ pre body post,
    out = pre +:+ m +:+ post ∧ m = "{" +:+ body +:+ "}"
    ∧ has_char "{" pre = false ∧ has_char "}" post = false.
Proof.
  unfold brace_block.
  destruct (from_open_brace out) as [t|] eqn:E; [|done].
  destruct (from_open_brace_spec _ _ E) as (pre & t' & -> & -> & Hpre).
  destruct (upto_last_close t') as [r|] eqn:E'; [|done].
  intros [= <-].
  destruct (upto_last_close_spec _ _ E') as (r' & post & -> & -> & Hpost).
  exists pre, r', post. by split_and!.
Qed.

Lemma upto_last_close_ends r' :
  upto_last_close (r' +:+ "}") = Some (r' +:+ "}").
Proof.
  induction r' as [|c r' IH]; [done|].
  rewrite app_String. simpl. by rewrite IH.
Qed.

Lemma from_open_brace_none s :
  has_char "{" s = false → from_open_brace s = None.
Proof.
  induction s as [|c s IH]; simpl; [done|].
  destruct (Ascii.eqb c "{"); [done|]. apply IH.
Qed.

Lemma upto_last_close_none s :
  has_char "}" s = false → upto_last_close s = None.
Proof.
  induction s as [|c s IH]; simpl; [done|].
  destruct (Ascii.eqb c "}"); [done|]. simpl. intros H. by rewrite IH.
Qed.

Lemma from_open_brace_suffix s t :
  from_open_brace s = Some t → ∃ pre, s = pre +:+ t.
Proof.
  revert t; induction s as [|c s IH]; intros t; simpl; [done|].
  destruct (Ascii.eqb c "{").
  - intros [= <-]. by exists "".
  - intros H. destruct (IH _ H) as [pre ->]. by exists (String c pre).
Qed.

Lemma has_char_app c s t :
  has_char c (s +:+ t) = has_char c s || has_char c t.
Proof.
  induction s as [|d s IH]; [done|]. rewrite app_String. simpl.
  by rewrite IH, orb_assoc.
Qed.

(** A block between the first opening brace and the last closing brace
    is found, whatever is between the two. *)
Lemma from_open_brace_found pre rest :
  has_char "{" pre = false →
  from_open_brace (pre +:+ String "{" rest) = Some (String "{" rest).
Proof.
  induction pre as [|c pre IH]; [done|]. rewrite app_String.
  cbn [has_char from_open_brace]. intros H.
  apply orb_false_elim in H as [Hc Hpre]. rewrite Hc. by apply IH.
Qed.

Lemma upto_last_close_found body post :
  has_char "}" post = false →
  upto_last_close (body +:+ "}" +:+ post) = Some (body +:+ "}").
Proof.
  intros Hpost. induction body as [|c body IH].
  - change ("" +:+ "}" +:+ post) with (String "}" post).
    cbn [upto_last_close]. by rewrite upto_last_close_none.
  - rewrite (app_String c body ("}" +:+ post)), (app_String c body "}").
    cbn [upto_last_close]. by rewrite IH.
Qed.

Lemma brace_block_found pre body post :
  has_char "{" pre = false → has_char "}" post = false →
  brace_block (pre +:+ "{" +:+ body +:+ "}" +:+ post)
  = Some ("{" +:+ body +:+ "}").
Proof.
  intros Hpre Hpost. unfold brace_block.
  change (pre +:+ "{" +:+ body +:+ "}" +:+ post)
    with (pre +:+ String "{" (body +:+ "}" +:+ post)).
  rewrite from_open_brace_found by done.
  by rewrite upto_last_close_found.
Qed.

(** The snippet of the fallback note is the raw text trimmed and cut
    after 400 characters, the marker following the cut. *)
Lemma raw_snippet_clipped out : raw_snippet out = clipped 400 out.
Proof. reflexivity. Qed.

(** C7, as the code has it. Once the provider has returned the raw text,
    [extract_record] returns: the strict JSON parse of the text when that
    succeeds; else the parse of the block from the first opening brace to
    the last closing brace, whatever lies between the two (line feeds
    included), when there is one and it parses, so that the wrapped
    output of the example gives the object it embeds; else the fallback
    record with the organization's name, country and website, its
    classification fields null or empty, and the note
    "Model returned non-JSON. Raw snippet: " followed by the trimmed raw
    text, cut to its first 400 characters with the three-character
    marker appended when it is longer: at most 403 characters. *)
Theorem extract_record_recovers
    json_loads call_ollama call_openai provider model instructions org texts
    max_tokens temperature out :
  (provider = "ollama"
   ∧ call_ollama model (build_prompt instructions org texts) max_tokens
       temperature = Some out)
  ∨ (provider = "openai"
     ∧ call_openai model (build_prompt instructions org texts) max_tokens
         temperature = Some out) →
  extract_record json_loads call_ollama call_openai provider model
    instructions org texts max_tokens temperature
  = Some (parse_output json_loads org out)
  ∧ (∀ v, json_loads out = Some v → parse_output json_loads org out = v)
  ∧ (∀ m v, json_loads out = None → brace_block out = Some m →
            json_loads m = Some v → parse_output json_loads org out = v)
  ∧ (∀ m, brace_block out = Some m →
          ∃ pre body post,
            out = pre +:+ m +:+ post ∧ m = "{" +:+ body +:+ "}"
            ∧ has_char "{" pre = false ∧ has_char "}" post = false)
  ∧ (∀ pre body post,
       out = pre +:+ "{" +:+ body +:+ "}" +:+ post →
       has_char "{" pre = false → has_char "}" post = false →
       brace_block out = Some ("{" +:+ body +:+ "}"))
  ∧ (has_char "{" out = false ∨ has_char "}" out = false →
     brace_block out = None)
  ∧ (json_loads out = None →
     (∀ m, brace_block out = Some m → json_loads m = None) →
     parse_output json_loads org out = VDict (fallback_record org out))
  ∧ fallback_record org out !! "name" = Some (of_opt_str (org_name org))
  ∧ fallback_record org out !! "country" = Some (of_opt_str (org_country org))
  ∧ fallback_record org out !! "website" = Some (of_opt_str (org_website org))
  ∧ fallback_record org out !! "classification" = Some VNone
  ∧ fallback_record org out !! "funding_classification" = None
  ∧ fallback_record org out !! "sectors" = Some (VList [])
  ∧ fallback_record org out !! "angel_type" = Some VNone
  ∧ fallback_record org out !! "stages" = Some (VList [])
  ∧ fallback_record org out !! "ticket_size_usd_min" = Some VNone
  ∧ fallback_record org out !! "ticket_size_usd_max" = Some VNone
  ∧ fallback_record org out !! "ticket_size_currency" = Some VNone
  ∧ fallback_record org out !! "notes"
    = Some (VStr ("Model returned non-JSON. Raw snippet: "
                  +:+ clipped 400 out))
  ∧ (String.length (strip out) ≤ 400 → clipped 400 out = strip out)
  ∧ (400 < String.length (strip out) →
     clipped 400 out = slice_to 400 (strip out) +:+ "...")
  ∧ String.length (clipped 400 out) ≤ 403
  ∧ brace_block wrapped_output = Some embedded_text
  ∧ (json_loads wrapped_output = None →
     json_loads embedded_text = Some (VDict embedded_object) →
     parse_output json_loads org wrapped_output = VDict embedded_object).
Proof.
  intros Hcall.
  assert (Hlook : ∀ k v,
    (k, v) ∈ [ ("name", of_opt_str (org_name org));
               ("country", of_opt_str (org_country org));
               ("website", of_opt_str (org_website org));
               ("classification", VNone); ("sectors", VList []);
               ("angel_type", VNone); ("stages", VList []);
               ("ticket_size_usd_min", VNone); ("ticket_size_usd_max", VNone);
               ("ticket_size_currency", VNone);
               ("notes", VStr ("Model returned non-JSON. Raw snippet: "
                               +:+ clipped 400 out)) ] →
    fallback_record org out !! k = Some v).
  { intros k v Hk. rewrite !elem_of_cons, elem_of_nil in Hk.
    unfold fallback_record. cbn [list_to_map foldr uncurry].
    rewrite raw_snippet_clipped.
    repeat (destruct Hk as [[= -> ->]|Hk];
            [rewrite ?lookup_insert_ne by done; by rewrite lookup_insert_eq|]).
    done. }
  split_and!;
    try (apply Hlook;
         repeat first [apply list_elem_of_here | apply list_elem_of_further]).
  - unfold extract_record.
    destruct Hcall as [[-> ->]|[-> ->]]; done.
  - intros v Hv. unfold parse_output. by rewrite Hv.
  - intros m v Hnone Hm Hv. unfold parse_output. by rewrite Hnone, Hm, Hv.
  - apply brace_block_spec.
  - intros pre body post -> Hpre Hpost. by apply brace_block_found.
  - intros [H|H]; unfold brace_block.
    + by rewrite from_open_brace_none.
    + destruct (from_open_brace out) as [[|c rest]|] eqn:E; try done.
      destruct (from_open_brace_suffix _ _ E) as [pre ->].
      rewrite has_char_app in H. apply orb_false_elim in H as [_ H].
      simpl in H. apply orb_false_elim in H as [_ H].
      by rewrite upto_last_close_none.
  - intros Hnone Hblock. unfold parse_output. rewrite Hnone.
    destruct (brace_block out) as [m|] eqn:E; [|done].
    by rewrite (Hblock m eq_refl).
  - unfold fallback_record. cbn [list_to_map foldr uncurry].
    by rewrite !lookup_insert_ne, lookup_empty by done.
  - intros Hlen. unfold clipped.
    by replace (400 <? String.length (strip out))%nat with false
      by (symmetry; by apply Nat.ltb_ge).
  - intros Hlen. unfold clipped.
    by replace (400 <? String.length (strip out))%nat with true
      by (symmetry; by apply Nat.ltb_lt).
  - apply (clipped_length 400 out).
  - by vm_compute.
  - intros Hnone Hv. unfold parse_output. rewrite Hnone.
    assert (brace_block wrapped_output = Some embedded_text) as ->
        by by vm_compute.
    by rewrite Hv.
Qed.

Lemma extract_record_recovers_witness :
  extract_record loads_embedded answers_wrapped provider_down "ollama"
    "llama3" "Return JSON." acme [] 800 (S754_finite false 1 (-3))
  = Some (VDict embedded_object).
Proof.
  destruct (extract_record_recovers loads_embedded answers_wrapped
              provider_down "ollama" "llama3" "Return JSON." acme [] 800
              (S754_finite false 1 (-3)) wrapped_output)
    as (Hret & _ & Hrec & _).
  - left. split; reflexivity.
  - rewrite Hret. apply (f_equal Some).
    apply (Hrec embedded_text); vm_compute; reflexivity.
Defined.

(** C7, as the claim states it, fails: for a raw output of 401
    characters that is not JSON, [extract_record] returns the fallback
    record, and the snippet in its note is the first 400 characters and
    the marker, 403 characters in all, which is more than 400. *)
Lemma fallback_snippet_exceeds_400 :
  extract_record loads_embedded answers_long provider_down "ollama"
    "llama3" "Return JSON." acme [] 800 (S754_finite false 1 (-3))
  = Some (VDict (fallback_record acme long_output))
  ∧ fallback_record acme long_output !! "notes"
    = Some (VStr ("Model returned non-JSON. Raw snippet: "
                  +:+ long_output_snippet))
  ∧ String.length long_output = 401
  ∧ String.length long_output_snippet = 403
  ∧ ¬ String.length long_output_snippet ≤ 400.
Proof.
  split_and!.
  - unfold extract_record, answers_long. cbn [String.eqb Ascii.eqb Bool.eqb].
    cbn [mbind option_bind]. unfold parse_output.
    assert (loads_embedded long_output = None) as -> by by vm_compute.
    by assert (brace_block long_output = None) as -> by by vm_compute.
  - unfold fallback_record. cbn [list_to_map foldr uncurry].
    rewrite !lookup_insert_ne by done. rewrite lookup_insert_eq.
    by vm_compute.
  - by vm_compute.
  - by vm_compute.
  - assert (String.length long_output_snippet = 403) as -> by by vm_compute.
    lia.
Qed.

End ExtractClaims.

(* ===================================================================== *)
(** * The row loop: the claims *)
(* ===================================================================== *)

Module RowClaims.

Import PyStr PyStrFacts Main Spec HelperFacts SanitizeFacts Row Examples.

(** The heuristic classification is one of the labels of the table: not
    blank, and without white space at its ends. *)
Lemma heuristic_label name text :
  let h := Classify.heuristic_funding_classification name text in
  strip h = h ∧ nonempty h = true.
Proof.
  unfold Classify.heuristic_funding_classification, Classify.CLS_HINTS.
  cbn [Classify.first_hint].
  repeat match goal with
         | |- context [any_in ?kws ?s] => destruct (any_in kws s)
         end;
    try (by vm_compute).
  by destruct (contains _ "bank"); vm_compute.
Qed.

Section Collaborators.

Variable py_str : value -> string.
Variable json_loads : string -> option value.
Variable urlparse : string -> option Web.parsed_url.
Variable parse_qs : string -> option (gmap string (list string)).
Variable dict_keys : gmap string value -> list string.
Variable urljoin : string -> string -> option string.
Variable safe_search : string -> Z -> option (list Web.hit).
Variable trafilatura_extract : string -> string.
Variable fetch_and_parse : string -> string.
Variable call_ollama : string -> string -> Z -> spec_float -> option string.
Variable call_openai : string -> string -> Z -> spec_float -> option string.

(** When every page fetch fails, the scrape loop adds nothing. *)
Lemma scrape_from_nothing i urls max_pages texts :
  (∀ u, trafilatura_extract u = "") →
  (∀ u, fetch_and_parse u = "") →
  scrape_from trafilatura_extract fetch_and_parse i urls max_pages texts
  = texts.
Proof.
  intros Ht Hf. revert i texts.
  induction urls as [|u urls IH]; intros i texts; simpl; [done|].
  case_match; [done|]. rewrite Ht, Hf. simpl. apply IH.
Qed.

(** The candidate URLs are built exactly when [urljoin] returns on the
    eleven paths. *)
Lemma expand_candidate_urls_some base_url :
  is_Some (expand_candidate_urls urljoin base_url)
  ↔ ∀ p, p ∈ COMMON_PATHS → is_Some (urljoin base_url p).
Proof.
  unfold expand_candidate_urls. rewrite <-Forall_forall.
  rewrite <-(mapM_is_Some (urljoin base_url) COMMON_PATHS).
  destruct (mapM (urljoin base_url) COMMON_PATHS); cbn [mbind option_bind];
    split; intros [? ?]; by eexists.
Qed.

Lemma iter_strings_labels L :
  iter_strings dict_keys (VList (VStr <$> L)) = Some L.
Proof.
  simpl. induction L as [|x L IH]; [done|].
  rewrite fmap_cons. cbn [mapM]. rewrite IH. done.
Qed.

Lemma default_sector_label c :
  map_sector_label_for_sheet (default_sector c) = default_sector c.
Proof. unfold default_sector. by case_match. Qed.

Ltac in_list :=
  repeat first [apply list_elem_of_here | apply list_elem_of_further].

(** C8, as the code has it. A row whose search, page fetches and model
    call all fail, and for whose website the candidate page URLs can be
    built ([urljoin] returns on them), is reconciled from the
    heuristic-only record (the heuristic classification, every
    model-only field empty, confidence 0.0), and the row written has the
    heuristic classification, which is not empty, and the note
    synthesized for it: the sentence of that classification filled with
    the name, the country (or "the region") and the default sector,
    clipped to 220 characters and the marker, which is not empty. *)
Theorem failed_row_is_written INSTRUCTIONS cfg name country website :
  nonempty name = true →
  (∀ q k, safe_search q k = None) →
  (∀ u, trafilatura_extract u = "") →
  (∀ u, fetch_and_parse u = "") →
  (∀ m p t T, call_ollama m p t T = None) →
  (∀ m p t T, call_openai m p t T = None) →
  (∀ w p, Web.choose_website urlparse parse_qs website [] = Some w →
          p ∈ COMMON_PATHS → is_Some (urljoin w p)) →
  col_funding_classification (excel_out_cols cfg)
    ∉ [ col_sector (excel_out_cols cfg);
        col_ticket_size_vc (excel_out_cols cfg);
        col_angel_type (excel_out_cols cfg);
        col_note (excel_out_cols cfg) ] →
  let h := Classify.heuristic_funding_classification name "" in
  let org := {| org_name := Some name; org_country := country;
                org_website :=
                  Web.choose_website urlparse parse_qs website [] |} in
  ∃ out note,
    process_row py_str json_loads urlparse parse_qs dict_keys urljoin
      safe_search trafilatura_extract fetch_and_parse call_ollama
      call_openai INSTRUCTIONS cfg name country website = Some out
    ∧ process_row py_str json_loads urlparse parse_qs dict_keys urljoin
        safe_search trafilatura_extract fetch_and_parse call_ollama
        call_openai INSTRUCTIONS cfg name country website
      = sanitize_record py_str org (heuristic_record org h) h (VList [])
          ≫= (fun r =>
                normalize_to_columns dict_keys r (excel_out_cols cfg))
    ∧ heuristic_record org h !! "funding_classification" = Some (VStr h)
    ∧ heuristic_record org h !! "sectors" = Some (VList [])
    ∧ heuristic_record org h !! "angel_type" = Some VNone
    ∧ heuristic_record org h !! "stages" = Some (VList [])
    ∧ heuristic_record org h !! "ticket_size_usd_min" = Some VNone
    ∧ heuristic_record org h !! "ticket_size_usd_max" = Some VNone
    ∧ heuristic_record org h !! "ticket_size_currency" = Some VNone
    ∧ heuristic_record org h !! "additional_info" = Some VNone
    ∧ heuristic_record org h !! "sources" = Some (VList [])
    ∧ heuristic_record org h !! "confidence" = Some (VFloat float_zero)
    ∧ out !! col_funding_classification (excel_out_cols cfg) = Some (VStr h)
    ∧ nonempty h = true
    ∧ out !! col_note (excel_out_cols cfg) = Some (VStr note)
    ∧ nonempty note = true
    ∧ note = clipped 220
               (note_sentence h name (str_or country "the region")
                  (default_sector h))
    ∧ 10 < String.length note ≤ 223
    ∧ synth_additional_info name country (VStr h) [default_sector h]
      = Some (Some note).
Proof.
  intros Hname Hsearch Htraf Hfetch Hollama Hopenai Hjoin Hcols h org.
  destruct (heuristic_label name "") as [Hstrip Hne]. fold h in Hstrip, Hne.
  assert (Htexts :
    (if nonempty (str_or (Web.choose_website urlparse parse_qs website []) "")
     then scrape_site urljoin trafilatura_extract fetch_and_parse
            (str_or (Web.choose_website urlparse parse_qs website []) "")
            (max_pages_per_site cfg)
     else Some []) = Some []).
  { destruct (Web.choose_website urlparse parse_qs website []) as [w|] eqn:Ew;
      [|done].
    cbn [str_or]. destruct (nonempty w) eqn:Hw; [|done]. rewrite Hw.
    unfold scrape_site.
    destruct (proj2 (expand_candidate_urls_some w)) as [urls ->].
    { intros p Hp. by apply Hjoin. }
    cbn [mbind option_bind]. by rewrite scrape_from_nothing. }
  assert (Hrow :
    process_row py_str json_loads urlparse parse_qs dict_keys urljoin
      safe_search trafilatura_extract fetch_and_parse call_ollama
      call_openai INSTRUCTIONS cfg name country website
    = sanitize_record py_str org (heuristic_record org h) h (VList [])
        ≫= (fun r =>
              normalize_to_columns dict_keys r (excel_out_cols cfg))).
  { unfold process_row. rewrite Hname. cbn [negb].
    rewrite Hsearch. cbn [default from_option id].
    assert ((if nonempty (str_or website "") then [] else [])
            = @nil Web.hit) as ->
        by by destruct (nonempty (str_or website "")).
    rewrite Htexts. cbn [mbind option_bind]. fold org.
    cbn [_joined_text]. rewrite slice_to_empty. fold h.
    unfold Extract.extract_record. rewrite Hollama, Hopenai.
    assert ((if (llm_provider cfg =? "ollama")%string then None
             else if (llm_provider cfg =? "openai")%string then None
                  else None) = @None string) as -> by by repeat case_match.
    cbn [mbind option_bind].
    by assert (Classify.infer_sectors_multi (Some "") = []) as ->
        by by vm_compute. }
  clearbody h.
  assert (Hlk : ∀ k v,
    (k, v) ∈ [ ("funding_classification", VStr h); ("sectors", VList []);
               ("angel_type", VNone); ("stages", VList []);
               ("ticket_size_usd_min", VNone); ("ticket_size_usd_max", VNone);
               ("ticket_size_currency", VNone); ("additional_info", VNone);
               ("sources", VList []); ("confidence", VFloat float_zero) ] →
    heuristic_record org h !! k = Some v).
  { intros k v Hk. rewrite !elem_of_cons, elem_of_nil in Hk.
    unfold heuristic_record. cbn [list_to_map foldr uncurry].
    repeat (destruct Hk as [[= -> ->]|Hk];
            [rewrite ?lookup_insert_ne by done; by rewrite lookup_insert_eq|]).
    done. }
  assert (Hget : ∀ k v,
    heuristic_record org h !! k = Some v →
    dict_get (heuristic_record org h) k = v).
  { intros k v Hk. unfold dict_get. by rewrite Hk. }
  assert (Hres : resolved_classification (heuristic_record org h) h = Some h).
  { unfold resolved_classification.
    rewrite (Hget "funding_classification" (VStr h)) by (apply Hlk; in_list).
    by rewrite Hstrip, Hne. }
  destruct (sanitize_record_defined py_str org _ h (VList []) h Hres)
    as [r' Hr'].
  destruct (sanitize_record_fields _ _ _ _ _ _ Hr')
    as (c & Hres' & _ & Hfc & Hat & Hsec & Hai & Hvc & _).
  assert (c = h) as -> by congruence.
  assert (HL : reconciled_sectors py_str (heuristic_record org h) (VList []) h
               = [default_sector h]).
  { unfold reconciled_sectors, sector_fallback_chain.
    by rewrite (Hget "sectors" (VList [])) by (apply Hlk; in_list). }
  rewrite HL in Hsec.
  set (note := clipped 220
                 (note_sentence h name (str_or country "the region")
                    (default_sector h))).
  assert (Htemplate :
    note_template name country h [default_sector h]
    = note_sentence h name (str_or country "the region") (default_sector h)).
  { unfold note_template. cbn [join String.concat]. done. }
  assert (Hnote : reconciled_note py_str org (heuristic_record org h)
                    (VList []) h = note).
  { unfold reconciled_note.
    rewrite (Hget "additional_info" VNone) by (apply Hlk; in_list).
    cbn [long_text]. rewrite HL. cbn [fmap list_fmap].
    rewrite default_sector_label. subst org. cbn [org_name org_country].
    unfold str_or at 1. by rewrite Hname, Htemplate. }
  destruct (reconciled_note_props py_str org (heuristic_record org h)
              (VList []) h) as (Hlong & _ & Hlen).
  rewrite Hnote in Hai, Hlong, Hlen.
  assert (Hstages : dict_get r' "stages" = VList []).
  { unfold dict_get. rewrite (Hvc "stages") by in_list.
    destruct (h =? "Venture Capital Funds")%string; [|done].
    by rewrite (Hlk "stages" (VList [])) by in_list. }
  assert (Hnorm : ∃ out,
    normalize_to_columns dict_keys r' (excel_out_cols cfg) = Some out
    ∧ out !! col_funding_classification (excel_out_cols cfg) = Some (VStr h)
    ∧ out !! col_note (excel_out_cols cfg) = Some (VStr note)).
  { unfold normalize_to_columns.
    rewrite !not_elem_of_cons in Hcols. destruct_and!.
    assert (dict_get r' "funding_classification" = VStr h) as ->
        by (unfold dict_get; by rewrite Hfc).
    assert (dict_get r' "sectors" = VList (VStr <$> [default_sector h])) as ->
        by (unfold dict_get; by rewrite Hsec).
    assert (dict_get r' "additional_info" = VStr note) as ->
        by (unfold dict_get; by rewrite Hai).
    rewrite Hstages.
    assert (py_or (VList (VStr <$> [default_sector h])) (VList [])
            = VList (VStr <$> [default_sector h])) as -> by done.
    rewrite iter_strings_labels. cbn [mbind option_bind py_or truthy].
    rewrite andb_false_r. cbn [mbind option_bind].
    eexists. split; [done|]. split.
    - rewrite !lookup_insert_ne by done. by rewrite lookup_insert_eq.
    - by rewrite lookup_insert_eq. }
  destruct Hnorm as (out & Hout & Hofc & Honote).
  assert (Hlong' : 10 < String.length note).
  { cbn [long_text] in Hlong.
    destruct (truthy (VStr note) && (10 <? String.length (strip note)))
      eqn:E; [|done].
    apply andb_prop in E as [_ E]. apply Nat.ltb_lt in E.
    pose proof (length_strip note). lia. }
  exists out, note. split_and!; try done; try (apply Hlk; in_list).
  - rewrite Hrow, Hr'. done.
  - apply nonempty_length. lia.
  - rewrite synth_note. by rewrite Htemplate.
Qed.

End Collaborators.

Lemma failed_row_is_written_witness :
  ∃ out,
    process_row str_of_scalar loads_embedded urlparse_raises parse_qs_raises
      keys_listed urljoin_paths search_down page_down page_down
      provider_down provider_down "Return JSON." sheet_config
      "Acme Angel Network" (Some "Lebanon")
      (Some "https://acme.example.org") = Some out
    ∧ out !! "Funding Classification" = Some (VStr "Angel Investors")
    ∧ out !! "Additional Info"
      = Some (VStr "An angel network backing early-stage startups in Business & Professional Services. Acme Angel Network supports founders in Lebanon with capital and guidance.").
Proof.
  destruct (failed_row_is_written str_of_scalar loads_embedded
              urlparse_raises parse_qs_raises keys_listed urljoin_paths
              search_down page_down page_down provider_down provider_down
              "Return JSON." sheet_config "Acme Angel Network"
              (Some "Lebanon") (Some "https://acme.example.org"))
    as (out & note & Hrow & _ & _ & _ & _ & _ & _ & _ & _ & _ & _ & _
        & Hfc & _ & Hnote & _ & Htext & _).
  - reflexivity.
  - intros; reflexivity.
  - intros; reflexivity.
  - intros; reflexivity.
  - intros; reflexivity.
  - intros; reflexivity.
  - intros w p Hw _.
    assert (w = "https://acme.example.org") as ->
        by (vm_compute in Hw; by injection Hw).
    by eexists.
  - rewrite !not_elem_of_cons. split_and!; try discriminate.
    apply not_elem_of_nil.
  - exists out. split; [exact Hrow|]. split; [exact Hfc|].
    etrans; [exact Hnote|]. rewrite Htext. reflexivity.
Defined.

(** C8, as the claim states it, fails: for the website cell
    "[https://acme.org]" the chosen website is "https://acme.org]", on
    which [urljoin] raises; the search, the page fetches and the model
    call all fail as well, and the row is skipped, not written. *)
Lemma bracket_row_is_skipped :
  nonempty "Acme Angel Network" = true
  ∧ (∀ q k, search_down q k = None)
  ∧ (∀ u, page_down u = "")
  ∧ (∀ m p t T, provider_down m p t T = None)
  ∧ Web.choose_website urlparse_raises parse_qs_raises (Some bracket_cell) []
    = Some "https://acme.org]"
  ∧ urljoin_paths "https://acme.org]" "/about" = None
  ∧ process_row str_of_scalar loads_embedded urlparse_raises parse_qs_raises
      keys_listed urljoin_paths search_down page_down page_down
      provider_down provider_down "Return JSON." sheet_config
      "Acme Angel Network" (Some "Lebanon") (Some bracket_cell) = None.
Proof. split_and!; try done; by vm_compute. Qed.

End RowClaims.

(* ===================================================================== *)
(** * The reconciler: further properties *)
(* ===================================================================== *)

Module SanitizeMore.

Import PyStr PyStrFacts Main Spec HelperFacts SanitizeFacts Examples
  MoreExamples.

Example sanitize_angel :
  sanitize_record str_of_scalar acme angel_record "Investment Firms"
    (VList (VStr <$> Classify.infer_sectors_multi (Some evidence_text)))
  = Some angel_sanitized.
Proof. vm_cast_no_check (eq_refl (Some angel_sanitized)). Qed.

Example sanitize_vc :
  sanitize_record str_of_scalar acme vc_record "Investment Firms" (VList [])
  = Some vc_sanitized.
Proof. vm_cast_no_check (eq_refl (Some vc_sanitized)). Qed.

(** X1. The classification [sanitize_record] returns is the model's own
    string, as it is (neither trimmed nor checked against the taxonomy),
    whenever that string is not blank; when the model's classification is
    missing, null or blank it is the heuristic classification, and
    "Investment Firms" when that is empty. *)
Theorem sanitize_record_classification
    py_str org (r : gmap string value) h s r' :
  sanitize_record py_str org r h s = Some r' →
  (∀ c, r !! "funding_classification" = Some (VStr c) →
        strip c ≠ "" → r' !! "funding_classification" = Some (VStr c))
  ∧ (r !! "funding_classification" = None
     ∨ r !! "funding_classification" = Some VNone
     ∨ (∃ c, r !! "funding_classification" = Some (VStr c) ∧ strip c = "") →
     r' !! "funding_classification"
     = Some (VStr (if nonempty h then h else "Investment Firms"))).
Proof.
  intros H.
  destruct (sanitize_record_fields _ _ _ _ _ _ H) as (c & Hres & _ & Hfc & _).
  rewrite Hfc. unfold resolved_classification, dict_get in Hres.
  split.
  - intros c0 Hc0 Hne. rewrite Hc0 in Hres. simpl in Hres.
    destruct (strip c0) eqn:E; [done|]. simpl in Hres. congruence.
  - intros [Hn|[Hn|(c0 & Hn & Hb)]]; rewrite Hn in Hres; simpl in Hres.
    + by injection Hres as <-.
    + by injection Hres as <-.
    + rewrite Hb in Hres. simpl in Hres. by injection Hres as <-.
Qed.

Lemma sanitize_record_classification_witness :
  angel_sanitized !! "funding_classification" = Some (VStr "Angel Investors").
Proof.
  destruct (sanitize_record_classification str_of_scalar acme angel_record
              "Investment Firms"
              (VList (VStr <$> Classify.infer_sectors_multi (Some evidence_text)))
              angel_sanitized) as [Hkeep _].
  - vm_cast_no_check (eq_refl (Some angel_sanitized)).
  - apply Hkeep; vm_compute; [reflexivity | discriminate].
Defined.

(** X2. For a record returned with the classification "Angel Investors":
    an [angel_type] of the model that is truthy is kept as it is, whatever
    it is; otherwise the sub-type is "network" when the lowered name of
    the organization contains "network", "group" or "syndicate", and
    "individual" when it does not. *)
Theorem sanitize_record_angel_type
    py_str org (r : gmap string value) h s r' :
  sanitize_record py_str org r h s = Some r' →
  r' !! "funding_classification" = Some (VStr "Angel Investors") →
  (truthy (dict_get r "angel_type") = true →
     r' !! "angel_type" = r !! "angel_type")
  ∧ (truthy (dict_get r "angel_type") = false →
     r' !! "angel_type"
     = Some (VStr
         (if contains (lower (str_or (org_name org) "")) "network"
             || contains (lower (str_or (org_name org) "")) "group"
             || contains (lower (str_or (org_name org) "")) "syndicate"
          then "network" else "individual"))).
Proof.
  intros H Hangel.
  destruct (sanitize_record_fields _ _ _ _ _ _ H)
    as (c & _ & _ & Hfc & Hat & _).
  assert (c = "Angel Investors") as -> by congruence.
  rewrite Hat. unfold reconciled_angel_type. simpl String.eqb. cbv iota.
  split; intros Ht; rewrite Ht; [|done].
  symmetry. by apply truthy_lookup.
Qed.

Lemma sanitize_record_angel_type_witness :
  angel_sanitized !! "angel_type" = Some (VStr "network").
Proof.
  destruct (sanitize_record_angel_type str_of_scalar acme angel_record
              "Investment Firms"
              (VList (VStr <$> Classify.infer_sectors_multi (Some evidence_text)))
              angel_sanitized) as [_ Hderive].
  - vm_cast_no_check (eq_refl (Some angel_sanitized)).
  - vm_compute. reflexivity.
  - rewrite Hderive; vm_compute; reflexivity.
Defined.

(** X3. The [sources] of the returned record are always a list of at most
    five entries: the first five of the model's list, in order, and the
    empty list when the model's [sources] are missing, null or not a
    list. *)
Theorem sanitize_record_sources
    py_str org (r : gmap string value) h s r' :
  sanitize_record py_str org r h s = Some r' →
  ∃ l, r' !! "sources" = Some (VList l)
       ∧ length l ≤ 5
       ∧ (∀ l0, r !! "sources" = Some (VList l0) → l = take 5 l0)
       ∧ ((∀ l0, r !! "sources" ≠ Some (VList l0)) → l = []).
Proof.
  intros H.
  destruct (sanitize_record_fields _ _ _ _ _ _ H)
    as (c & _ & _ & _ & _ & _ & _ & _ & Hsrc & _).
  exists (reconciled_sources r). unfold reconciled_sources, dict_get.
  split_and!; try done.
  - destruct (r !! "sources") as [[]|]; simpl; try lia.
    rewrite length_take. lia.
  - intros l0 Hl0. by rewrite Hl0.
  - intros Hno. destruct (r !! "sources") as [[| | | | |l0|]|]; simpl; try done.
    by destruct (Hno l0).
Qed.

Lemma sanitize_record_sources_witness :
  angel_sanitized !! "sources"
  = Some (VList [VStr "a"; VStr "b"; VStr "c"; VStr "d"; VStr "e"]).
Proof.
  destruct (sanitize_record_sources str_of_scalar acme angel_record
              "Investment Firms"
              (VList (VStr <$> Classify.infer_sectors_multi (Some evidence_text)))
              angel_sanitized) as (l & Hl & _ & Htake & _).
  - vm_cast_no_check (eq_refl (Some angel_sanitized)).
  - rewrite Hl. do 2 f_equal.
    apply (Htake [VStr "a"; VStr "b"; VStr "c"; VStr "d"; VStr "e"; VStr "f"]).
    vm_compute. reflexivity.
Defined.

(** X4. A record returned with the classification "Venture Capital Funds"
    has [stages] and the three ticket fields exactly as the model gave
    them, present with the same value or absent: the reconciler neither
    checks nor derives them. *)
Theorem sanitize_record_keeps_vc_fields
    py_str org (r : gmap string value) h s r' :
  sanitize_record py_str org r h s = Some r' →
  r' !! "funding_classification" = Some (VStr "Venture Capital Funds") →
  r' !! "stages" = r !! "stages"
  ∧ r' !! "ticket_size_usd_min" = r !! "ticket_size_usd_min"
  ∧ r' !! "ticket_size_usd_max" = r !! "ticket_size_usd_max"
  ∧ r' !! "ticket_size_currency" = r !! "ticket_size_currency".
Proof.
  intros H Hvc.
  destruct (sanitize_record_fields _ _ _ _ _ _ H)
    as (c & _ & _ & Hfc & _ & _ & _ & Hk & _).
  assert (c = "Venture Capital Funds") as -> by congruence.
  split_and!; rewrite Hk; try done;
    repeat first [apply list_elem_of_here | apply list_elem_of_further].
Qed.

Lemma sanitize_record_keeps_vc_fields_witness :
  vc_sanitized !! "stages" = Some (VList [VStr "Seed"; VStr "Series A"])
  ∧ vc_sanitized !! "ticket_size_usd_max" = None.
Proof.
  destruct (sanitize_record_keeps_vc_fields str_of_scalar acme vc_record
              "Investment Firms" (VList []) vc_sanitized)
    as (Hst & _ & Hmax & _).
  - vm_cast_no_check (eq_refl (Some vc_sanitized)).
  - vm_compute. reflexivity.
  - rewrite Hst, Hmax. split; vm_compute; reflexivity.
Defined.

(** X5. The fallback record of [extract_record] goes through the
    reconciler like any other record: [sanitize_record] returns on it, the
    classification is the heuristic one ("Investment Firms" when that is
    empty) since the fallback has no [funding_classification], and its
    [notes] with the raw snippet and its null [classification] are
    kept. *)
Theorem sanitize_record_on_fallback py_str org out h s :
  ∃ r',
    sanitize_record py_str org (Extract.fallback_record org out) h s = Some r'
    ∧ r' !! "funding_classification"
      = Some (VStr (if nonempty h then h else "Investment Firms"))
    ∧ r' !! "notes"
      = Some (VStr ("Model returned non-JSON. Raw snippet: "
                    +:+ Extract.raw_snippet out))
    ∧ r' !! "classification" = Some VNone
    ∧ r' !! "name" = Some (of_opt_str (org_name org)).
Proof.
  set (r := Extract.fallback_record org out).
  assert (Hfc : r !! "funding_classification" = None).
  { subst r. unfold Extract.fallback_record. cbn [list_to_map foldr uncurry].
    by rewrite !lookup_insert_ne, lookup_empty by done. }
  assert (Hres : resolved_classification r h = Some (fallback_classification h)).
  { unfold resolved_classification, dict_get. by rewrite Hfc. }
  destruct (sanitize_record_defined py_str org r h s _ Hres) as [r' Hr'].
  destruct (sanitize_record_fields _ _ _ _ _ _ Hr')
    as (c & Hres' & _ & Hfc' & _ & _ & _ & _ & _ & Hfr).
  assert (c = fallback_classification h) as -> by congruence.
  assert (Hkeep : ∀ k, k ∈ ["notes"; "classification"; "name"] →
                       r' !! k = r !! k).
  { intros k Hk. apply Hfr. unfold sanitized_keys.
    rewrite !elem_of_cons, elem_of_nil in Hk.
    rewrite !not_elem_of_cons.
    destruct Hk as [->|[->|[->|[]]]];
      split_and!; (discriminate || apply not_elem_of_nil). }
  assert (Hlook : ∀ k v,
            (k, v) ∈ [ ("notes", VStr ("Model returned non-JSON. Raw snippet: "
                                       +:+ Extract.raw_snippet out));
                       ("classification", VNone);
                       ("name", of_opt_str (org_name org)) ] →
            r !! k = Some v).
  { intros k v Hk. rewrite !elem_of_cons, elem_of_nil in Hk.
    subst r. unfold Extract.fallback_record. cbn [list_to_map foldr uncurry].
    destruct Hk as [[= -> ->]|[[= -> ->]|[[= -> ->]|[]]]];
      rewrite ?lookup_insert_ne by discriminate; apply lookup_insert_eq. }
  exists r'. split; [exact Hr'|]. split; [exact Hfc'|].
  split_and!; (rewrite Hkeep; [apply Hlook|]);
    repeat first [apply list_elem_of_here | apply list_elem_of_further].
Qed.

Lemma sector_item_stripped py_str item :
  Forall (fun x => strip x = x ∧ nonempty x = true) (sector_item py_str item).
Proof.
  assert (∀ t, Forall (fun x => strip x = x ∧ nonempty x = true)
                 (if nonempty (strip t) then [strip t] else [])) as Hone.
  { intros t. destruct (nonempty (strip t)) eqn:E; [|constructor].
    repeat constructor; [apply strip_idem | done]. }
  destruct item as [|b|z|f|t|l|d]; cbn [sector_item]; try apply Hone.
  generalize ["name"; "label"; "value"; "sector"].
  intros keys.
  assert (∀ v, dict_label d keys = Some v →
               strip v = v ∧ nonempty v = true) as Hlabel.
  { induction keys as [|k keys IH]; intros v; simpl; [done|].
    destruct (dict_get d k) as [| | | |t| |]; try apply IH.
    destruct (nonempty (strip t)) eqn:E; [|apply IH].
    intros [= <-]. split; [apply strip_idem | done]. }
  destruct (dict_label d keys) as [v|]; [|constructor].
  repeat constructor; by apply Hlabel.
Qed.

(** X6. Whatever shape the sectors come in, and whatever [str()] gives
    for the values that are not strings, every entry of the list
    [_as_string_sector_list] returns is trimmed and not blank; [None]
    gives the empty list, and a list gives at most one entry per item. *)
Theorem as_string_sector_list_entries py_str raw :
  Forall (fun x => strip x = x ∧ x ≠ "")
    (_as_string_sector_list py_str raw)
  ∧ _as_string_sector_list py_str VNone = []
  ∧ (∀ l, length (_as_string_sector_list py_str (VList l)) ≤ length l).
Proof.
  assert (∀ raw, Forall (fun x => strip x = x ∧ nonempty x = true)
                   (_as_string_sector_list py_str raw)) as Hall.
  { assert (∀ t, Forall (fun x => strip x = x ∧ nonempty x = true)
                   (if nonempty (strip t) then [strip t] else [])) as Hone.
    { intros t. destruct (nonempty (strip t)) eqn:E; [|constructor].
      repeat constructor; [apply strip_idem | done]. }
    intros [|b|z|f|t|l|d]; cbn [_as_string_sector_list];
      try apply Hone; try constructor.
    induction l as [|item l IH]; [constructor|].
    rewrite fmap_cons. cbn [concat]. apply Forall_app. split; [|done].
    apply sector_item_stripped. }
  split_and!; [|done|].
  - eapply Forall_impl; [apply Hall|]. intros x [Hs Hn]. split; [done|].
    by intros ->.
  - intros l. cbn [_as_string_sector_list].
    induction l as [|item l IH]; [done|].
    rewrite fmap_cons. cbn [concat]. rewrite length_app. simpl.
    assert (length (sector_item py_str item) ≤ 1); [|lia].
    destruct item as [|b|z|f|t|l0|d]; cbn [sector_item];
      repeat case_match; simpl; lia.
Qed.

(** X7. [clip] on a text that is not empty, for a limit [n] that is not
    negative: the result is trimmed, has at most [n + 3] characters, is
    the trimmed text itself when that has at most [n] characters and
    else its first [n] characters and the marker, and clipping it again
    changes nothing as long as it is not empty (it is empty for a text of
    white space only). For a negative [n] the trimmed text always counts
    as too long: the result is the trimmed text without its last [-n]
    characters, and the marker. The empty text gives [None]. *)
Theorem clip_trims_and_bounds s (n : Z) :
  s ≠ "" →
  ∃ c, clip s n = Some c
       ∧ ((0 ≤ n)%Z →
          strip c = c
          ∧ (Z.of_nat (String.length c) ≤ n + 3)%Z
          ∧ ((Z.of_nat (String.length (strip s)) ≤ n)%Z → c = strip s)
          ∧ ((n < Z.of_nat (String.length (strip s)))%Z →
             c = slice_to (Z.to_nat n) (strip s) +:+ "...")
          ∧ (c ≠ "" → clip c n = Some c)
          ∧ (c = "" ↔ strip s = ""))
       ∧ ((n < 0)%Z →
          c = slice_to (String.length (strip s) - Z.to_nat (- n)) (strip s)
              +:+ "..."
          ∧ String.length c
            = String.length (strip s) - Z.to_nat (- n) + 3)
       ∧ clip "" n = None.
Proof.
  intros Hs.
  assert (nonempty s = true) as Hne by by destruct s.
  destruct (Z.le_gt_cases 0 n) as [Hn|Hn].
  - destruct (Z_of_nat_complete n Hn) as [m ->]. clear Hn.
    exists (clipped m s). split; [by apply clip_clipped|].
    split; [|split; [lia | done]]. intros _. split_and!.
    + apply strip_clipped.
    + pose proof (clipped_length m s). lia.
    + intros Hle. unfold clipped.
      by replace (m <? String.length (strip s))%nat with false
        by (symmetry; apply Nat.ltb_ge; lia).
    + intros Hlt. rewrite Nat2Z.id. unfold clipped.
      by replace (m <? String.length (strip s))%nat with true
        by (symmetry; apply Nat.ltb_lt; lia).
    + intros Hc. rewrite clip_clipped by by destruct (clipped m s).
      by rewrite clipped_idem.
    + unfold clipped. destruct (m <? String.length (strip s))%nat eqn:E.
      * apply Nat.ltb_lt in E. split.
        -- intros Hc. apply (f_equal String.length) in Hc.
           rewrite str_length_app in Hc. simpl in Hc. lia.
        -- intros Hc. rewrite Hc in E. simpl in E. lia.
      * done.
  - exists (slice_to (String.length (strip s) - Z.to_nat (- n)) (strip s)
            +:+ "...").
    split; [|split; [lia | split; [|done]]].
    + unfold clip. rewrite Hne. cbn [negb].
      replace (n <? Z.of_nat (String.length (strip s)))%Z with true
        by (symmetry; apply Z.ltb_lt; lia).
      unfold slice_to_int.
      replace (n <? 0)%Z with true by (symmetry; apply Z.ltb_lt; lia).
      do 3 f_equal. lia.
    + intros _. split; [done|].
      rewrite str_length_app, length_slice_to.
      change (String.length "...") with 3. lia.
Qed.

Lemma clip_trims_and_bounds_witness :
  clip "  Acme backs founders.  " 220 = Some "Acme backs founders.".
Proof.
  destruct (clip_trims_and_bounds "  Acme backs founders.  " 220)
    as (c & Hc & Hpos & _).
  - discriminate.
  - destruct Hpos as (_ & _ & Hshort & _); [lia|].
    rewrite Hc. f_equal. rewrite Hshort; [reflexivity|].
    vm_compute. discriminate.
Defined.

End SanitizeMore.

(* ===================================================================== *)
(** * The column normalizer after the reconciler *)
(* ===================================================================== *)

Module NormalizeMore.

Import PyStr PyStrFacts Main Spec HelperFacts SanitizeFacts Examples
  MoreExamples.

Lemma iter_strings_of_labels dict_keys L :
  iter_strings dict_keys (VList (VStr <$> L)) = Some L.
Proof. cbn [iter_strings]. by apply mapM_fmap_Some. Qed.

(** [normalize_to_columns] on a record whose classification is a string
    and whose sectors are a list of labels that is not empty. *)
Lemma normalize_columns dict_keys (r : gmap string value) cols c L t :
  dict_get r "funding_classification" = VStr c →
  dict_get r "sectors" = VList (VStr <$> L) →
  L ≠ [] →
  (if eq_str (VStr c) "Venture Capital Funds"
      && truthy (py_or (dict_get r "stages") (VList []))
   then st ← iter_strings dict_keys (py_or (dict_get r "stages") (VList []));
        Some (VStr (join ", " st))
   else Some VNone) = Some t →
  normalize_to_columns dict_keys r cols
  = Some (<[col_note cols := dict_get r "additional_info"]>
            (<[col_angel_type cols :=
                 if eq_str (VStr c) "Angel Investors"
                 then dict_get r "angel_type" else VNone]>
               (<[col_ticket_size_vc cols := t]>
                  (<[col_sector cols :=
                       VStr (join ", " (map_sector_label_for_sheet <$> L))]>
                     (<[col_funding_classification cols := VStr c]> ∅))))).
Proof.
  intros Hfc Hsec HL Ht. unfold normalize_to_columns.
  rewrite Hfc, Hsec.
  assert (py_or (VList (VStr <$> L)) (VList []) = VList (VStr <$> L)) as ->.
  { by destruct L. }
  rewrite iter_strings_of_labels. cbn [mbind option_bind].
  rewrite Ht. cbn [mbind option_bind].
  by destruct L.
Qed.

(** X8. A record the reconciler returned with a classification other
    than "Venture Capital Funds" always goes through
    [normalize_to_columns] (the output columns having distinct names):
    the classification column has the classification, the sector column
    the labels joined with ", " (the long ICT label written "ICT"; never
    null), the ticket column null, the angel column the sub-type for
    "Angel Investors" and null otherwise, the note column the note. *)
Theorem normalize_after_sanitize
    dict_keys py_str org (r : gmap string value) h s r' cols :
  sanitize_record py_str org r h s = Some r' →
  NoDup [ col_funding_classification cols; col_sector cols;
          col_ticket_size_vc cols; col_angel_type cols; col_note cols ] →
  r' !! "funding_classification" ≠ Some (VStr "Venture Capital Funds") →
  ∃ out c L,
    normalize_to_columns dict_keys r' cols = Some out
    ∧ r' !! "funding_classification" = Some (VStr c)
    ∧ r' !! "sectors" = Some (VList (VStr <$> L))
    ∧ out !! col_funding_classification cols = Some (VStr c)
    ∧ out !! col_sector cols
      = Some (VStr (join ", " (map_sector_label_for_sheet <$> L)))
    ∧ Forall (fun x => x ≠ "Information & Communication Technology (ICT)")
        (map_sector_label_for_sheet <$> L)
    ∧ out !! col_ticket_size_vc cols = Some VNone
    ∧ out !! col_angel_type cols
      = (if String.eqb c "Angel Investors" then r' !! "angel_type"
         else Some VNone)
    ∧ out !! col_note cols = r' !! "additional_info".
Proof.
  intros H Hcols Hvc.
  destruct (sanitize_record_fields _ _ _ _ _ _ H)
    as (c & _ & _ & Hfc & Hat & Hsec & Hai & _).
  destruct (reconciled_sectors_props py_str r s c) as (Hne & _).
  set (L := reconciled_sectors py_str r s c) in *.
  assert (Hnvc : eq_str (VStr c) "Venture Capital Funds" = false).
  { simpl. destruct (String.eqb_spec c "Venture Capital Funds") as [->|];
      [by rewrite Hfc in Hvc | done]. }
  eexists _, c, L. split_and!; try done.
  - apply (normalize_columns dict_keys r' cols c L VNone); try done.
    + unfold dict_get. by rewrite Hfc.
    + unfold dict_get. by rewrite Hsec.
    + by rewrite Hnvc.
  - apply NoDup_cons in Hcols as [Hin _].
    rewrite !not_elem_of_cons in Hin. destruct_and!.
    rewrite !lookup_insert_ne by done. by rewrite lookup_insert_eq.
  - apply NoDup_cons in Hcols as [_ Hcols].
    apply NoDup_cons in Hcols as [Hin _].
    rewrite !not_elem_of_cons in Hin. destruct_and!.
    rewrite !lookup_insert_ne by done. by rewrite lookup_insert_eq.
  - apply Forall_fmap, Forall_forall. intros x _. simpl.
    unfold map_sector_label_for_sheet, SECTOR_ALIAS_WRITE.
    cbn [table_get assoc].
    repeat match goal with
           | |- context [String.eqb ?a x] => destruct (String.eqb_spec a x)
           end; done.
  - do 2 (apply NoDup_cons in Hcols as [_ Hcols]).
    apply NoDup_cons in Hcols as [Hin _].
    rewrite !not_elem_of_cons in Hin. destruct_and!.
    rewrite !lookup_insert_ne by done. by rewrite lookup_insert_eq.
  - do 3 (apply NoDup_cons in Hcols as [_ Hcols]).
    apply NoDup_cons in Hcols as [Hin _].
    rewrite !not_elem_of_cons in Hin. destruct_and!.
    rewrite !lookup_insert_ne by done. rewrite lookup_insert_eq.
    simpl. destruct (String.eqb c "Angel Investors"); [|done].
    unfold dict_get. by rewrite Hat.
  - rewrite lookup_insert_eq. unfold dict_get. by rewrite Hai.
Qed.

Lemma normalize_after_sanitize_witness :
  ∃ out,
    normalize_to_columns keys_listed angel_sanitized (Row.excel_out_cols sheet_config)
    = Some out
    ∧ out !! "Sector" = Some (VStr "ICT, Health")
    ∧ out !! "Ticket Size (VC)" = Some VNone.
Proof.
  destruct (normalize_after_sanitize keys_listed str_of_scalar acme angel_record
              "Investment Firms"
              (VList (VStr <$> Classify.infer_sectors_multi (Some evidence_text)))
              angel_sanitized (Row.excel_out_cols sheet_config))
    as (out & c & L & Hout & _ & HL & _ & Hsec & _ & Hticket & _).
  - vm_cast_no_check (eq_refl (Some angel_sanitized)).
  - apply (bool_decide_unpack _). vm_compute. exact I.
  - vm_compute. discriminate.
  - exists out. split_and!; try done.
    etrans; [exact Hsec|]. do 2 f_equal.
    assert (L = ["ICT"; "Health"]) as ->; [|reflexivity].
    assert (angel_sanitized !! "sectors"
            = Some (VList (VStr <$> ["ICT"; "Health"]))) as E
        by (vm_compute; reflexivity).
    rewrite E in HL. injection HL as HL.
    destruct L as [|a [|b [|x L]]]; simpl in HL; try discriminate HL.
    by injection HL as <- <-.
Defined.

(** X9. The reconciler does not check the stages of a VC record, and the
    normalizer joins them as strings: a record returned with the
    classification "Venture Capital Funds" whose [stages] are a list with
    an entry that is not a string makes [normalize_to_columns] raise,
    while a list of stage names that is not empty gives them joined with
    ", " in the ticket column. *)
Theorem normalize_vc_stages
    dict_keys py_str org (r : gmap string value) h s r' cols :
  sanitize_record py_str org r h s = Some r' →
  r' !! "funding_classification" = Some (VStr "Venture Capital Funds") →
  (∀ l, r !! "stages" = Some (VList l) →
        Exists (fun x => ∀ t, x ≠ VStr t) l →
        normalize_to_columns dict_keys r' cols = None)
  ∧ (∀ st, r !! "stages" = Some (VList (VStr <$> st)) → st ≠ [] →
           ∃ out, normalize_to_columns dict_keys r' cols = Some out
                  ∧ out !! col_note cols = r' !! "additional_info"
                  ∧ (col_ticket_size_vc cols ≠ col_angel_type cols →
                     col_ticket_size_vc cols ≠ col_note cols →
                     out !! col_ticket_size_vc cols
                     = Some (VStr (join ", " st)))).
Proof.
  intros H Hvc.
  destruct (sanitize_record_fields _ _ _ _ _ _ H)
    as (c & _ & _ & Hfc & _ & Hsec & Hai & Hk & _).
  assert (c = "Venture Capital Funds") as -> by congruence.
  destruct (reconciled_sectors_props py_str r s "Venture Capital Funds")
    as (Hne & _).
  set (L := reconciled_sectors py_str r s "Venture Capital Funds") in *.
  assert (Hst : r' !! "stages" = r !! "stages").
  { rewrite Hk; [done|]. apply list_elem_of_here. }
  split.
  - intros l Hl Hex. unfold normalize_to_columns.
    assert (dict_get r' "sectors" = VList (VStr <$> L)) as ->
        by (unfold dict_get; by rewrite Hsec).
    assert (py_or (VList (VStr <$> L)) (VList []) = VList (VStr <$> L)) as ->
        by by destruct L.
    rewrite iter_strings_of_labels. cbn [mbind option_bind].
    assert (dict_get r' "funding_classification"
            = VStr "Venture Capital Funds") as ->
        by (unfold dict_get; by rewrite Hfc).
    assert (dict_get r' "stages" = VList l) as ->
        by (unfold dict_get; by rewrite Hst, Hl).
    assert (l ≠ []) as Hl0 by (intros ->; by apply Exists_nil in Hex).
    assert (py_or (VList l) (VList []) = VList l) as -> by by destruct l.
    assert (truthy (VList l) = true) as -> by by destruct l.
    assert (iter_strings dict_keys (VList l) = None) as ->; [|done].
    cbn [iter_strings]. apply mapM_None.
    eapply Exists_impl; [apply Hex|]. intros x Hx.
    destruct x; try done. by destruct (Hx s0).
  - intros st Hstages Hst0.
    eexists. split; [|split].
    + apply (normalize_columns dict_keys r' cols "Venture Capital Funds" L
               (VStr (join ", " st))); try done.
      * unfold dict_get. by rewrite Hfc.
      * unfold dict_get. by rewrite Hsec.
      * assert (dict_get r' "stages" = VList (VStr <$> st)) as ->
            by (unfold dict_get; by rewrite Hst, Hstages).
        assert (py_or (VList (VStr <$> st)) (VList [])
                = VList (VStr <$> st)) as -> by by destruct st.
        rewrite iter_strings_of_labels.
        by destruct st.
    + rewrite lookup_insert_eq. unfold dict_get. by rewrite Hai.
    + intros Hn1 Hn2.
      rewrite !lookup_insert_ne by done. by rewrite lookup_insert_eq.
Qed.

Lemma normalize_vc_stages_witness :
  ∃ out,
    normalize_to_columns keys_listed vc_sanitized (Row.excel_out_cols sheet_config)
    = Some out
    ∧ out !! "Ticket Size (VC)" = Some (VStr "Seed, Series A").
Proof.
  destruct (normalize_vc_stages keys_listed str_of_scalar acme vc_record
              "Investment Firms" (VList []) vc_sanitized
              (Row.excel_out_cols sheet_config)) as [_ Hjoin].
  - vm_cast_no_check (eq_refl (Some vc_sanitized)).
  - vm_compute. reflexivity.
  - destruct (Hjoin ["Seed"; "Series A"]) as (out & Hout & _ & Hticket).
    + vm_compute. reflexivity.
    + discriminate.
    + exists out. split; [done|]. apply Hticket; vm_compute; discriminate.
Defined.

(** X23. The normalizer joins whatever iterating the stages of a VC
    record yields: for stages that are one string that is not empty, its
    characters; for an object that is not empty, its keys; and it raises
    for stages that are truthy and neither a list, a string nor an
    object (a number, [True]). *)
Theorem normalize_vc_stages_iterated
    dict_keys py_str org (r : gmap string value) h s r' cols :
  sanitize_record py_str org r h s = Some r' →
  r' !! "funding_classification" = Some (VStr "Venture Capital Funds") →
  col_ticket_size_vc cols ≠ col_angel_type cols →
  col_ticket_size_vc cols ≠ col_note cols →
  (∀ t, r !! "stages" = Some (VStr t) → t ≠ "" →
        ∃ out, normalize_to_columns dict_keys r' cols = Some out
               ∧ out !! col_ticket_size_vc cols
                 = Some (VStr (join ", " (chars t))))
  ∧ (∀ d, r !! "stages" = Some (VDict d) → d ≠ ∅ →
          ∃ out, normalize_to_columns dict_keys r' cols = Some out
                 ∧ out !! col_ticket_size_vc cols
                   = Some (VStr (join ", " (dict_keys d))))
  ∧ (∀ v, r !! "stages" = Some v → truthy v = true →
          (∀ l, v ≠ VList l) → (∀ t, v ≠ VStr t) → (∀ d, v ≠ VDict d) →
          normalize_to_columns dict_keys r' cols = None).
Proof.
  intros H Hvc Hn1 Hn2.
  destruct (sanitize_record_fields _ _ _ _ _ _ H)
    as (c & _ & _ & Hfc & _ & Hsec & Hai & Hk & _).
  assert (c = "Venture Capital Funds") as -> by congruence.
  destruct (reconciled_sectors_props py_str r s "Venture Capital Funds")
    as (Hne & _).
  set (L := reconciled_sectors py_str r s "Venture Capital Funds") in *.
  assert (Hst : r' !! "stages" = r !! "stages").
  { rewrite Hk; [done|]. apply list_elem_of_here. }
  assert (Hfc' : dict_get r' "funding_classification"
                 = VStr "Venture Capital Funds")
      by (unfold dict_get; by rewrite Hfc).
  assert (Hsec' : dict_get r' "sectors" = VList (VStr <$> L))
      by (unfold dict_get; by rewrite Hsec).
  assert (Hjoin : ∀ v st,
    r !! "stages" = Some v → truthy v = true →
    iter_strings dict_keys v = Some st →
    ∃ out, normalize_to_columns dict_keys r' cols = Some out
           ∧ out !! col_ticket_size_vc cols = Some (VStr (join ", " st))).
  { intros v st Hv Ht Hit. eexists. split.
    - apply (normalize_columns dict_keys r' cols "Venture Capital Funds" L
               (VStr (join ", " st))); try done.
      assert (dict_get r' "stages" = v) as ->
          by (unfold dict_get; by rewrite Hst, Hv).
      unfold py_or. rewrite Ht. cbn [eq_str String.eqb Ascii.eqb Bool.eqb andb].
      rewrite Ht, Hit. done.
    - rewrite !lookup_insert_ne by done. by rewrite lookup_insert_eq. }
  split_and!.
  - intros t Ht Hne'. apply (Hjoin (VStr t)); [done| by destruct t |done].
  - intros d Hd Hne'. apply (Hjoin (VDict d)); [done| |done].
    cbn [truthy]. apply negb_true_iff, Nat.eqb_neq.
    by intros ?%map_size_empty_iff.
  - intros v Hv Ht Hl Hs Hd. unfold normalize_to_columns.
    rewrite Hsec'.
    assert (py_or (VList (VStr <$> L)) (VList []) = VList (VStr <$> L)) as ->
        by by destruct L.
    rewrite iter_strings_of_labels. cbn [mbind option_bind].
    rewrite Hfc'.
    assert (dict_get r' "stages" = v) as ->
        by (unfold dict_get; by rewrite Hst, Hv).
    unfold py_or. rewrite Ht. cbn [eq_str String.eqb Ascii.eqb Bool.eqb andb].
    rewrite Ht.
    assert (iter_strings dict_keys v = None) as ->; [|done].
    destruct v as [|b|z|f|t|l|d]; try done;
      [by destruct (Hs t) | by destruct (Hl l) | by destruct (Hd d)].
Qed.

Lemma normalize_vc_stages_iterated_witness :
  ∃ out,
    normalize_to_columns keys_listed vc_text_sanitized
      (Row.excel_out_cols sheet_config) = Some out
    ∧ out !! "Ticket Size (VC)" = Some (VStr "S, e, e, d").
Proof.
  destruct (normalize_vc_stages_iterated keys_listed str_of_scalar acme
              vc_text_record "Investment Firms" (VList [])
              vc_text_sanitized (Row.excel_out_cols sheet_config))
    as [Htext _].
  - vm_cast_no_check (eq_refl (Some vc_text_sanitized)).
  - vm_compute. reflexivity.
  - vm_compute. discriminate.
  - vm_compute. discriminate.
  - destruct (Htext "Seed") as (out & Hout & Hticket).
    + vm_compute. reflexivity.
    + discriminate.
    + exists out. split; [exact Hout|]. exact Hticket.
Defined.

End NormalizeMore.

(* ===================================================================== *)
(** * The heuristic classifier: further properties *)
(* ===================================================================== *)

Module ClassifyMore.

Import PyStr PyStrFacts Main Spec HelperFacts SanitizeFacts Classify
  Examples MoreExamples.

Lemma lower_char_idem c : lower_char (lower_char c) = lower_char c.
Proof. by destruct c as [[] [] [] [] [] [] [] []]. Qed.

Lemma lower_idem s : lower (lower s) = lower s.
Proof.
  induction s as [|c s IH]; [done|]. simpl. by rewrite lower_char_idem, IH.
Qed.

Lemma lower_app s t : lower (s +:+ t) = lower s +:+ lower t.
Proof.
  induction s as [|c s IH]; [done|]. rewrite app_String. simpl.
  by rewrite IH.
Qed.

(** The labels a table yields are labels of the table, in its order. *)
Lemma omap_hits_sublist (table : list (string * list string)) s :
  omap (fun '(sector, kws) => if any_in kws s then Some sector else None)
       table
  `sublist_of` table.*1.
Proof.
  induction table as [|[k kws] table IH]; simpl; [constructor|].
  destruct (any_in kws s); simpl; by constructor.
Qed.

Lemma infer_sectors_multi_props text :
  let I := infer_sectors_multi text in
  length I ≤ 4 ∧ NoDup I ∧ I `sublist_of` NEW_SECTOR_KEYWORDS.*1
  ∧ Forall (.∈ ALLOWED_SECTORS) I.
Proof.
  unfold infer_sectors_multi.
  set (hits := omap _ NEW_SECTOR_KEYWORDS).
  assert (take 4 hits `sublist_of` NEW_SECTOR_KEYWORDS.*1) as Hsub.
  { etrans; [apply sublist_take | apply omap_hits_sublist]. }
  split_and!.
  - rewrite length_take. lia.
  - eapply sublist_NoDup; [|exact Hsub].
    apply (bool_decide_unpack _). by vm_compute.
  - done.
  - eapply Forall_forall. intros x Hx.
    assert (x ∈ NEW_SECTOR_KEYWORDS.*1) as Hin
        by (eapply elem_of_sublist; [exact Hx | exact Hsub]).
    apply allowed_elem. clear Hx. revert x Hin. apply Forall_forall.
    apply (bool_decide_unpack _). by vm_compute.
Qed.

(** X10. [infer_sectors_multi] returns at most four sector labels,
    without duplicates, in the order of its keyword table; each one is a
    label of the reconciler's allow-list and has a keyword that occurs in
    the lowered text. The match does not depend on case, and a missing or
    empty text gives no sector. *)
Theorem infer_sectors_multi_labels text :
  let I := infer_sectors_multi text in
  length I ≤ 4
  ∧ NoDup I
  ∧ I `sublist_of` NEW_SECTOR_KEYWORDS.*1
  ∧ Forall (.∈ ALLOWED_SECTORS) I
  ∧ (∀ x, x ∈ I →
          ∃ kws, (x, kws) ∈ NEW_SECTOR_KEYWORDS
                 ∧ any_in kws (lower (default "" text)) = true)
  ∧ infer_sectors_multi (lower <$> text) = I
  ∧ infer_sectors_multi None = []
  ∧ infer_sectors_multi (Some "") = [].
Proof.
  destruct (infer_sectors_multi_props text) as (Hlen & Hnd & Hsub & Hall).
  split_and!; try done.
  - intros x Hx. unfold infer_sectors_multi in Hx.
    eapply elem_of_sublist in Hx; [|apply sublist_take].
    apply list_elem_of_omap in Hx as ([k kws] & Hin & Hk).
    destruct (any_in kws _) eqn:E; [|done].
    injection Hk as <-. by exists kws.
  - destruct text as [t|]; [|reflexivity].
    change (lower <$> Some t) with (Some (lower t)).
    unfold infer_sectors_multi. cbn [default from_option id].
    rewrite lower_idem. reflexivity.
Qed.

(** X11. When the model gives no sector of the allow-list and the
    inferred sectors come from [infer_sectors_multi] and are not empty,
    the sectors of the reconciled record are exactly the inferred ones:
    none is filtered out, cut off or reordered. *)
Theorem sanitize_record_takes_inferred
    py_str org (r : gmap string value) h text r' :
  sanitize_record py_str org r h
    (VList (VStr <$> infer_sectors_multi text)) = Some r' →
  allowed_only (_as_string_sector_list py_str (dict_get r "sectors")) = [] →
  infer_sectors_multi text ≠ [] →
  r' !! "sectors" = Some (VList (VStr <$> infer_sectors_multi text)).
Proof.
  intros H Hmodel Hne.
  destruct (sanitize_record_fields _ _ _ _ _ _ H)
    as (c & _ & _ & _ & _ & Hsec & _).
  destruct (infer_sectors_multi_props text) as (Hlen & Hnd & _ & Hall).
  rewrite Hsec. do 3 f_equal.
  unfold reconciled_sectors, sector_fallback_chain.
  rewrite <-!as_string_sector_list_normalized, <-!allowed_only_allow_listed.
  rewrite Hmodel.
  rewrite sector_list_of_labels, allowed_only_fixed by done.
  destruct (infer_sectors_multi text) as [|x I] eqn:E; [done|].
  rewrite first_seen_NoDup by done. by apply take_ge.
Qed.

Lemma sanitize_record_takes_inferred_witness :
  angel_sanitized !! "sectors" = Some (VList [VStr "ICT"; VStr "Health"]).
Proof.
  rewrite (sanitize_record_takes_inferred str_of_scalar acme angel_record
             "Investment Firms" (Some evidence_text) angel_sanitized).
  - vm_compute. reflexivity.
  - vm_cast_no_check (eq_refl (Some angel_sanitized)).
  - vm_compute. reflexivity.
  - vm_compute. discriminate.
Defined.

Lemma first_hint_label hints s label :
  first_hint hints s = Some label → label ∈ hints.*1.
Proof.
  induction hints as [|[l kws] hints IH]; simpl; [done|].
  destruct (any_in kws s).
  - intros [= ->]. apply list_elem_of_here.
  - intros Hl. apply list_elem_of_further. by apply IH.
Qed.

Lemma first_hint_none hints s :
  Forall (fun e => any_in e.2 s = false) hints → first_hint hints s = None.
Proof.
  induction 1 as [|[l kws] hints He _ IH]; simpl; [done|].
  simpl in He. by rewrite He.
Qed.

(** X12. [heuristic_funding_classification] always returns one of the ten
    labels of its table, never null or empty; it does not depend on the
    case of the name and the text; and when no keyword of the table
    occurs it returns "Investment Firms", whether the text mentions a bank
    or not. *)
Theorem heuristic_funding_classification_label name text :
  heuristic_funding_classification name text ∈ CLS_HINTS.*1
  ∧ heuristic_funding_classification (lower name) (lower text)
    = heuristic_funding_classification name text
  ∧ (Forall (fun e => any_in e.2 (lower (name +:+ " " +:+ text)) = false)
       CLS_HINTS →
     heuristic_funding_classification name text = "Investment Firms").
Proof.
  split_and!.
  - unfold heuristic_funding_classification. cbv zeta.
    destruct (first_hint CLS_HINTS _) as [label|] eqn:E.
    + by eapply first_hint_label.
    + assert ("Investment Firms" ∈ CLS_HINTS.*1) as Hin.
      { apply (bool_decide_unpack _). by vm_compute. }
      by destruct (contains _ "bank").
  - unfold heuristic_funding_classification.
    by rewrite !lower_app, !lower_idem.
  - intros Hnone. unfold heuristic_funding_classification. cbv zeta.
    rewrite first_hint_none by done. by destruct (contains _ "bank").
Qed.

Lemma heuristic_funding_classification_label_witness :
  heuristic_funding_classification "First National Bank" "Retail banking."
  = "Investment Firms".
Proof.
  apply heuristic_funding_classification_label.
  apply (bool_decide_unpack _). vm_compute. exact I.
Defined.

End ClassifyMore.

(* ===================================================================== *)
(** * The single-sector inference of the old taxonomy *)
(* ===================================================================== *)

Module LegacyMore.

Import PyStr PyStrFacts ClassifyLegacy.

Lemma priority_cases (P : string → Prop) :
  (∀ k, k ∈ priority → P k)
  ↔ P "WASH" ∧ P "RE (renewable energy)" ∧ P "Agritech"
    ∧ P "entrepreneurship".
Proof.
  unfold priority. split.
  - intros HP. split_and!; apply HP;
      repeat first [apply list_elem_of_here | apply list_elem_of_further].
  - intros (? & ? & ? & ?) k Hk.
    rewrite !elem_of_cons, elem_of_nil in Hk.
    by destruct Hk as [->|[->|[->|[->|[]]]]].
Qed.

Lemma pair_lt_spec (a b : nat * Z) :
  pair_lt a b = true
  ↔ (a.1 < b.1)%nat ∨ (a.1 = b.1 ∧ (a.2 < b.2)%Z).
Proof.
  unfold pair_lt.
  rewrite orb_true_iff, andb_true_iff, Nat.ltb_lt, Nat.eqb_eq, Z.ltb_lt.
  done.
Qed.

(** [max] with a key: the result is one of the items and no item has a
    greater key. *)
Lemma max_by_greatest f best items :
  max_by f best items ∈ best :: items
  ∧ ∀ x, x ∈ best :: items → pair_lt (f (max_by f best items)) (f x) = false.
Proof.
  revert best. induction items as [|y items IH]; intros best; simpl.
  - split; [apply list_elem_of_here|].
    intros x Hx. apply list_elem_of_singleton in Hx as ->.
    apply not_true_iff_false. rewrite pair_lt_spec. lia.
  - destruct (IH (if pair_lt (f best) (f y) then y else best)) as [Hin Hmax].
    set (r := max_by f _ items) in *. split.
    + rewrite !elem_of_cons in *. destruct Hin as [->|Hin]; [|tauto].
      destruct (pair_lt (f best) (f y)); tauto.
    + intros x Hx.
      assert (Hb : pair_lt (f r) (f (if pair_lt (f best) (f y) then y else best))
                   = false) by (apply Hmax, list_elem_of_here).
      rewrite !elem_of_cons in Hx. destruct Hx as [->|[->|Hx]].
      * destruct (pair_lt (f best) (f y)) eqn:E; [|done].
        apply not_true_iff_false. apply not_true_iff_false in Hb.
        rewrite pair_lt_spec in *. lia.
      * destruct (pair_lt (f best) (f y)) eqn:E; [done|].
        apply not_true_iff_false. apply not_true_iff_false in Hb, E.
        rewrite pair_lt_spec in *. lia.
      * apply Hmax. by apply list_elem_of_further.
Qed.

(** X13. [infer_sector_from_text] returns null for a missing or empty
    text and when no keyword of any sector occurs in the lowered text;
    otherwise it returns the sector with the most keywords occurring, and
    among sectors with as many the first in the order WASH, RE (renewable
    energy), Agritech, entrepreneurship. *)
Theorem infer_sector_from_text_best t :
  let score k := score_of (sector_scores (lower t)) k in
  infer_sector_from_text None = None
  ∧ infer_sector_from_text (Some "") = None
  ∧ (infer_sector_from_text (Some t) = None
     ↔ t = "" ∨ ∀ k, k ∈ priority → score k = 0)
  ∧ (∀ label, infer_sector_from_text (Some t) = Some label →
       label ∈ priority
       ∧ 0 < score label
       ∧ (∀ k, k ∈ priority → score k ≤ score label)
       ∧ (∀ k, k ∈ priority → score k = score label →
               index_of priority label ≤ index_of priority k)).
Proof.
  intros score. split; [done|]. split; [done|].
  unfold infer_sector_from_text.
  destruct t as [|ch t'].
  { cbn [nonempty negb]. split; [split; [by left | done] | discriminate]. }
  cbn [nonempty negb]. set (s := lower (String ch t')) in *.
  assert (Hzero : forallb (fun e => (e.2 =? 0)%nat) (sector_scores s) = true
                  ↔ ∀ k, k ∈ priority → score k = 0).
  { rewrite priority_cases. subst score.
    unfold sector_scores, SECTOR_KEYWORDS. cbn [fmap list_fmap forallb snd].
    rewrite !andb_true_iff, !Nat.eqb_eq.
    unfold score_of. cbn [Main.assoc String.eqb Ascii.eqb Bool.eqb
                          default from_option id].
    tauto. }
  destruct (max_by_greatest (rank (sector_scores s)) "WASH"
              ["RE (renewable energy)"; "Agritech"; "entrepreneurship"])
    as [Hin Hmax].
  fold priority in Hin, Hmax.
  set (best := max_by (rank (sector_scores s)) "WASH"
                 ["RE (renewable energy)"; "Agritech"; "entrepreneurship"])
    in *.
  assert (Hle : ∀ k, k ∈ priority →
            score k ≤ score best
            ∧ (score k = score best →
               index_of priority best ≤ index_of priority k)).
  { intros k Hk. specialize (Hmax k Hk).
    apply not_true_iff_false in Hmax. rewrite pair_lt_spec in Hmax.
    unfold rank in Hmax. cbn [fst snd] in Hmax. subst score. cbv beta.
    lia. }
  unfold priority at 1 3. fold best.
  destruct (forallb _ (sector_scores s)) eqn:E.
  - split; [split; [intros _; right; by apply Hzero | done]|done].
  - split.
    + split; [done|]. intros [?|Hz]; [done|].
      apply Hzero in Hz. congruence.
    + intros label [= <-]. split_and!; try done.
      * destruct (Nat.eq_dec (score best) 0) as [Hz|]; [|lia].
        assert (false = true); [|discriminate].
        apply Hzero. intros k Hk. destruct (Hle k Hk) as [Hk' _]. lia.
      * intros k Hk. by apply Hle.
      * intros k Hk. by apply Hle.
Qed.

Lemma infer_sector_from_text_best_witness :
  0 < score_of (sector_scores (lower "Solar farm with crop irrigation"))
        "Agritech".
Proof.
  destruct (infer_sector_from_text_best "Solar farm with crop irrigation")
    as (_ & _ & _ & Hbest).
  destruct (Hbest "Agritech") as (_ & Hpos & _).
  - vm_compute. reflexivity.
  - exact Hpos.
Defined.

End LegacyMore.

(* ===================================================================== *)
(** * Website resolution: further properties *)
(* ===================================================================== *)

Module WebMore.

Import PyStr PyStrFacts Web Examples.

Lemma starts_http_nonempty u : starts_http u = true → u ≠ "".
Proof. intros H ->. by vm_compute in H. Qed.

Lemma ddg_redirect_target_http urlparse parse_qs raw u :
  ddg_redirect_target urlparse parse_qs raw = Some u →
  starts_http u = true
  ∧ ∃ p qs rest,
      urlparse raw = Some p
      ∧ contains (netloc p) "duckduckgo.com" = true
      ∧ startswith (path p) "/l/" = true
      ∧ parse_qs (query p) = Some qs
      ∧ qs !! "uddg" = Some (u :: rest).
Proof.
  unfold ddg_redirect_target.
  destruct (urlparse raw) as [p|] eqn:E0; [|done].
  destruct (contains (netloc p) "duckduckgo.com") eqn:E1; [|done].
  destruct (startswith (path p) "/l/") eqn:E2; [|done]. cbn [andb].
  destruct (parse_qs (query p)) as [qs|] eqn:E5; [|done].
  destruct (qs !! "uddg") as [[|v rest]|] eqn:E3; try done.
  destruct (starts_http v) eqn:E4; [|done].
  intros [= <-]. split; [done|]. by exists p, qs, rest.
Qed.

Lemma normalize_ddg_href_some urlparse parse_qs raw u :
  _normalize_ddg_href urlparse parse_qs raw = Some u →
  starts_http u = true.
Proof.
  unfold _normalize_ddg_href. destruct raw as [raw|]; [|done].
  destruct (nonempty (strip raw)); [|done]. cbn [negb].
  destruct (starts_http (strip raw)) eqn:E.
  - by intros [= <-].
  - intros H. by apply ddg_redirect_target_http in H as [? _].
Qed.

(** X14. Whatever [urlparse] and [parse_qs] do, a link
    [_normalize_ddg_href] returns is not empty and starts with [http://]
    or [https://] in lower case. A value that is not a string and a
    blank string give null. A link without such a start is unwrapped only
    when its parsed host contains "duckduckgo.com" and its path starts
    with "/l/", and the result is then the first [uddg] value of its
    query. *)
Theorem normalize_ddg_href_result urlparse parse_qs :
  _normalize_ddg_href urlparse parse_qs None = None
  ∧ (∀ raw, strip raw = "" →
            _normalize_ddg_href urlparse parse_qs (Some raw) = None)
  ∧ (∀ raw u, _normalize_ddg_href urlparse parse_qs raw = Some u →
              starts_http u = true ∧ u ≠ "")
  ∧ (∀ raw u, _normalize_ddg_href urlparse parse_qs (Some raw) = Some u →
              starts_http (strip raw) = false →
              ∃ p qs rest,
                urlparse (strip raw) = Some p
                ∧ contains (netloc p) "duckduckgo.com" = true
                ∧ startswith (path p) "/l/" = true
                ∧ parse_qs (query p) = Some qs
                ∧ qs !! "uddg" = Some (u :: rest)).
Proof.
  split_and!.
  - done.
  - intros raw Hb. unfold _normalize_ddg_href. by rewrite Hb.
  - intros raw u H. pose proof (normalize_ddg_href_some _ _ _ _ H) as Hs.
    split; [done|]. by apply starts_http_nonempty.
  - intros raw u H Hn. unfold _normalize_ddg_href in H.
    destruct (nonempty (strip raw)); [|done]. cbn [negb] in H.
    rewrite Hn in H. by apply ddg_redirect_target_http in H as [_ ?].
Qed.

Lemma first_usable_hit_some urlparse parse_qs hits u :
  first_usable_hit urlparse parse_qs hits = Some u →
  usable (Some u) = true
  ∧ ∃ r, r ∈ hits ∧ hit_candidate urlparse parse_qs r = Some u.
Proof.
  induction hits as [|r hits IH]; simpl; [done|].
  destruct (usable (hit_candidate urlparse parse_qs r)) eqn:E.
  - intros Hu. rewrite Hu in E. split; [done|].
    exists r. split; [apply list_elem_of_here | done].
  - intros Hu. destruct (IH Hu) as (Hus & r' & Hin & Hr').
    split; [done|]. exists r'. split; [by apply list_elem_of_further | done].
Qed.

(** X15. [choose_website] never returns an empty URL nor one that
    [_is_social] flags, whatever the favorite cell and the search hits
    are. What it returns comes from the favorite cell or, only when that
    gives no usable URL, from the first usable search hit, and then it
    starts with [http://] or [https://]; with no favorite and no hit it
    returns null. *)
Theorem choose_website_result urlparse parse_qs favorite hits u :
  choose_website urlparse parse_qs favorite hits = Some u →
  _is_social u = false
  ∧ u ≠ ""
  ∧ ((∃ f, favorite = Some f ∧ _extract_url_from_freeform f = Some u)
     ∨ ((∀ f, favorite = Some f →
              usable (_extract_url_from_freeform f) = false
              ∨ strip f = "")
        ∧ starts_http u = true
        ∧ ∃ r, r ∈ hits ∧ hit_candidate urlparse parse_qs r = Some u))
  ∧ choose_website urlparse parse_qs None [] = None.
Proof.
  intros H.
  assert (Hus : usable (Some u) = true →
                _is_social u = false ∧ u ≠ "").
  { simpl. intros Hu. apply andb_prop in Hu as [Hn Hs].
    apply negb_true_iff in Hs. split; [done|]. by intros ->. }
  unfold choose_website in H.
  destruct favorite as [f|].
  - destruct (nonempty (strip f)) eqn:Ef.
    + destruct (usable (_extract_url_from_freeform f)) eqn:Eu.
      * destruct (_extract_url_from_freeform f) as [v|] eqn:Ev; [|done].
        injection H as <-. destruct (Hus Eu) as [? ?].
        split_and!; try done. left. by exists f.
      * destruct (first_usable_hit_some _ _ _ _ H) as (Hu & r & Hin & Hr).
        destruct (Hus Hu) as [? ?]. split_and!; try done.
        right. split_and!.
        -- intros f' [= <-]. by left.
        -- unfold hit_candidate in Hr.
           destruct (or_str (href r) (link r)) as [c|]; [|done].
           destruct (nonempty c); [|done].
           by eapply normalize_ddg_href_some.
        -- by exists r.
    + destruct (first_usable_hit_some _ _ _ _ H) as (Hu & r & Hin & Hr).
      destruct (Hus Hu) as [? ?]. split_and!; try done.
      right. split_and!.
      * intros f' [= <-]. right. by apply nonempty_false.
      * unfold hit_candidate in Hr.
        destruct (or_str (href r) (link r)) as [c|]; [|done].
        destruct (nonempty c); [|done].
        by eapply normalize_ddg_href_some.
      * by exists r.
  - destruct (first_usable_hit_some _ _ _ _ H) as (Hu & r & Hin & Hr).
    destruct (Hus Hu) as [? ?]. split_and!; try done.
    right. split_and!; [done| |by exists r].
    unfold hit_candidate in Hr.
    destruct (or_str (href r) (link r)) as [c|]; [|done].
    destruct (nonempty c); [|done].
    by eapply normalize_ddg_href_some.
Qed.

Lemma choose_website_result_witness :
  _is_social "https://acme-fund.org" = false.
Proof.
  apply (choose_website_result urlparse_raises parse_qs_raises
           (Some "See our page (acme-fund.org)") [] "https://acme-fund.org").
  vm_compute. reflexivity.
Defined.

(** X16. [_normalize_scheme] gives null exactly for a blank text;
    otherwise the trimmed text, with [https://] put in front unless it
    already starts with [http://] or [https://]. Its result always starts
    with one of the two, and normalizing it again changes nothing. *)
Theorem normalize_scheme_result url :
  (_normalize_scheme url = None ↔ strip url = "")
  ∧ (∀ u, _normalize_scheme url = Some u →
          starts_http u = true
          ∧ _normalize_scheme u = Some u
          ∧ (starts_http (strip url) = true → u = strip url)
          ∧ (starts_http (strip url) = false →
             u = "https://" +:+ strip url)).
Proof.
  unfold _normalize_scheme. cbv zeta.
  destruct (strip url) as [|c rest] eqn:E.
  { split; [done|]. intros u. discriminate. }
  cbn [nonempty negb].
  assert (Hfix : strip (String c rest) = String c rest)
    by (rewrite <-E; apply strip_idem).
  destruct (starts_http (String c rest)) eqn:Es.
  - split; [done|]. intros u [= <-]. rewrite Hfix. cbn [nonempty negb].
    by rewrite Es.
  - split; [done|]. intros u [= <-].
    assert (Hfix' : strip ("https://" +:+ String c rest)
                    = "https://" +:+ String c rest).
    { apply strip_fixed; try done.
      rewrite <-E. unfold strip. apply rstrip_idem. }
    rewrite Hfix'. split_and!; done.
Qed.

Lemma normalize_scheme_result_witness :
  _normalize_scheme " acme-fund.org " = Some "https://acme-fund.org".
Proof.
  destruct (_normalize_scheme " acme-fund.org ") as [u|] eqn:E.
  - destruct (normalize_scheme_result " acme-fund.org ") as [_ Hu].
    destruct (Hu u E) as (_ & _ & _ & Hadd).
    rewrite Hadd; vm_compute; reflexivity.
  - exfalso. revert E. vm_compute. discriminate.
Defined.

End WebMore.

(* ===================================================================== *)
(** * JSON recovery and the row loop: further properties *)
(* ===================================================================== *)

Module RowMore.

Import PyStr PyStrFacts Main Extract Row Spec SanitizeFacts ExtractClaims
  Examples MoreExamples.

(** X17. The block [extract_record] recovers from a text that is not
    JSON starts with an opening brace and ends with a closing brace, and
    recovering from the block again gives the block itself; a text that
    is such a block is recovered whole. A text without an opening brace,
    or without a closing brace, has no block. *)
Theorem brace_block_stable out :
  (∀ m, brace_block out = Some m →
        (∃ body, m = "{" +:+ body +:+ "}") ∧ brace_block m = Some m)
  ∧ (∀ body, brace_block ("{" +:+ body +:+ "}")
             = Some ("{" +:+ body +:+ "}"))
  ∧ (has_char "{" out = false → brace_block out = None)
  ∧ (has_char "}" out = false → brace_block out = None).
Proof.
  assert (Hwhole : ∀ body, brace_block ("{" +:+ body +:+ "}")
                           = Some ("{" +:+ body +:+ "}")).
  { intros body.
    change ("{" +:+ body +:+ "}") with (String "{" (body +:+ "}")).
    unfold brace_block. cbn [from_open_brace Ascii.eqb Bool.eqb].
    by rewrite upto_last_close_ends. }
  split_and!; [|done|..].
  - intros m Hm.
    assert (∃ body, m = "{" +:+ body +:+ "}") as [body ->].
    { unfold brace_block in Hm.
      destruct (from_open_brace out) as [[|c rest]|] eqn:E; try done.
      destruct (upto_last_close rest) as [r|] eqn:E'; [|done].
      injection Hm as <-.
      assert (c = "{"%char) as ->.
      { clear E'. induction out as [|d out IH]; simpl in E; [done|].
        destruct (Ascii.eqb_spec d "{") as [->|]; [by injection E as -> _|].
        by apply IH. }
      assert (∃ r', r = r' +:+ "}") as [r' ->]; [|by exists r'].
      clear E. revert r E'. induction rest as [|d rest IH]; intros r; simpl;
        [done|].
      destruct (upto_last_close rest) as [r0|].
      - intros [= <-]. destruct (IH r0 eq_refl) as [r' ->].
        by exists (String d r').
      - destruct (Ascii.eqb_spec d "}") as [->|]; [|done].
        intros [= <-]. by exists "". }
    split; [by exists body | apply Hwhole].
  - intros H. unfold brace_block. by rewrite from_open_brace_none.
  - intros H. unfold brace_block.
    destruct (from_open_brace out) as [[|c rest]|] eqn:E; try done.
    destruct (from_open_brace_suffix _ _ E) as [pre ->].
    rewrite has_char_app in H. apply orb_false_elim in H as [_ H].
    simpl in H. apply orb_false_elim in H as [_ H].
    by rewrite upto_last_close_none.
Qed.

Lemma dict_set_length texts k v :
  length (dict_set texts k v) ≤ S (length texts).
Proof.
  induction texts as [|[k' v'] texts IH]; simpl; [lia|].
  destruct (String.eqb k' k); simpl; lia.
Qed.

Lemma dict_set_entries (P : string * string → Prop) texts k v :
  Forall P texts → P (k, v) → Forall P (dict_set texts k v).
Proof.
  intros Hall Hkv. induction Hall as [|[k' v'] texts Hx Hall IH]; simpl.
  - by repeat constructor.
  - destruct (String.eqb k' k); by constructor.
Qed.

Lemma dict_set_keys texts k v :
  NoDup texts.*1 → NoDup (dict_set texts k v).*1
  ∧ ∀ x, x ∈ (dict_set texts k v).*1 ↔ x = k ∨ x ∈ texts.*1.
Proof.
  induction texts as [|[k' v'] texts IH]; simpl; intros Hnd.
  - split; [repeat constructor; apply not_elem_of_nil|].
    intros x. rewrite elem_of_cons, elem_of_nil. tauto.
  - apply NoDup_cons in Hnd as [Hk' Hnd].
    destruct (String.eqb_spec k' k) as [->|Hne]; simpl.
    + split; [by constructor|]. intros x. rewrite !elem_of_cons. tauto.
    + destruct (IH Hnd) as [IH1 IH2]. split.
      * constructor; [|done]. rewrite IH2. intros [?|?]; [congruence | done].
      * intros x. rewrite !elem_of_cons, IH2. tauto.
Qed.

Section Pages.

Variable urljoin : string -> string -> option string.
Variable trafilatura_extract : string -> string.
Variable fetch_and_parse : string -> string.

Lemma scrape_from_invariant all i urls max_pages texts :
  urls ⊆ all →
  NoDup texts.*1 →
  Forall (fun e => e.1 ∈ all ∧ e.2 ≠ "" ∧ String.length e.2 ≤ 6000) texts →
  let out := scrape_from trafilatura_extract fetch_and_parse i urls
               max_pages texts in
  NoDup out.*1
  ∧ Forall (fun e => e.1 ∈ all ∧ e.2 ≠ "" ∧ String.length e.2 ≤ 6000) out
  ∧ length out ≤ length texts + length urls
  ∧ (Z.of_nat (length out)
     ≤ Z.of_nat (length texts) + Z.max 0 (max_pages - Z.of_nat i))%Z.
Proof.
  revert i texts. induction urls as [|u urls IH]; intros i texts Hsub Hnd Hall;
    cbn [scrape_from length]; cbv zeta.
  { split_and!; try done; lia. }
  destruct (Z.of_nat i >=? max_pages)%Z eqn:E.
  { split_and!; try done; lia. }
  rewrite Z.geb_leb in E. apply Z.leb_gt in E.
  set (text := if nonempty (trafilatura_extract u)
               then trafilatura_extract u else fetch_and_parse u).
  set (texts' := if nonempty text
                 then dict_set texts u (slice_to 6000 text) else texts).
  assert (Hnd' : NoDup texts'.*1).
  { subst texts'. destruct (nonempty text); [|done].
    by apply dict_set_keys. }
  assert (Hall' : Forall (fun e => e.1 ∈ all ∧ e.2 ≠ ""
                                   ∧ String.length e.2 ≤ 6000) texts').
  { subst texts'. destruct (nonempty text) eqn:En; [|done].
    apply dict_set_entries; [done|]. cbn [fst snd]. split_and!.
    - apply Hsub, list_elem_of_here.
    - apply nonempty_length in En. intros Hempty.
      apply (f_equal String.length) in Hempty.
      rewrite length_slice_to in Hempty. cbn [String.length] in Hempty.
      assert (0 < 6000) by (apply Nat.ltb_lt; by vm_compute). lia.
    - rewrite length_slice_to. lia. }
  assert (Hlen' : length texts' ≤ S (length texts)).
  { subst texts'. destruct (nonempty text); [apply dict_set_length | lia]. }
  assert (Hsub' : urls ⊆ all).
  { intros x Hx. apply Hsub. by apply list_elem_of_further. }
  destruct (IH (S i) texts' Hsub' Hnd' Hall') as (H1 & H2 & H3 & H4).
  split_and!; try done; lia.
Qed.

(** X18. [scrape_site] raises exactly when [urljoin] raises on one of
    the eleven common paths, before any page is tried and whatever
    [max_pages] is. When it returns, it returns at most as many pages as
    [max_pages] and never more than the twelve candidate URLs (none when
    [max_pages] is zero or negative); every page is keyed by a candidate
    URL that occurs once, and its text is not empty and has at most 6000
    characters. *)
Theorem scrape_site_bounds base_url max_pages :
  (scrape_site urljoin trafilatura_extract fetch_and_parse base_url
     max_pages = None
   ↔ ∃ p, p ∈ COMMON_PATHS ∧ urljoin base_url p = None)
  ∧ ∀ texts,
      scrape_site urljoin trafilatura_extract fetch_and_parse base_url
        max_pages = Some texts →
      ∃ urls,
        expand_candidate_urls urljoin base_url = Some urls
        ∧ length urls = 12
        ∧ head urls = Some base_url
        ∧ Forall2 (fun p u => urljoin base_url p = Some u)
            COMMON_PATHS (tail urls)
        ∧ length texts ≤ 12
        ∧ (Z.of_nat (length texts) ≤ Z.max 0 max_pages)%Z
        ∧ NoDup texts.*1
        ∧ Forall (fun e => e.1 ∈ urls ∧ e.2 ≠ ""
                           ∧ String.length e.2 ≤ 6000) texts
        ∧ ((max_pages ≤ 0)%Z → texts = []).
Proof.
  unfold scrape_site, expand_candidate_urls. split.
  - rewrite <-Exists_exists, <-mapM_None.
    by destruct (mapM (urljoin base_url) COMMON_PATHS).
  - intros texts.
    destruct (mapM (urljoin base_url) COMMON_PATHS) as [joined|] eqn:E;
      [|done].
    cbn [mbind option_bind]. intros Heq.
    pose proof (mapM_Some_1 _ _ _ E) as Hjoined.
    apply length_mapM in E.
    assert (length (base_url :: joined) = 12) as Hlen
      by (cbn [length]; by rewrite <-E).
    pose proof (scrape_from_invariant (base_url :: joined) 0
                  (base_url :: joined) max_pages []) as Hinv.
    rewrite Hlen in Hinv. cbv zeta in Hinv.
    generalize dependent (scrape_from trafilatura_extract fetch_and_parse 0
                            (base_url :: joined) max_pages []).
    intros out [= ->] Hinv.
    destruct Hinv as (H1 & H2 & H3 & H4);
      [by intros x Hx | constructor | constructor |].
    change (length (@nil (string * string))) with 0 in H3, H4.
    rewrite Z.sub_0_r in H4.
    exists (base_url :: joined).
    split_and!;
      [reflexivity | exact Hlen | reflexivity | exact Hjoined | lia | lia
      | exact H1 | exact H2 |].
    intros Hmp. destruct texts as [|e l]; [reflexivity|].
    cbn [length] in H4. lia.
Qed.

End Pages.

Lemma scrape_site_bounds_witness :
  ∃ texts,
    scrape_site urljoin_paths long_page long_page
      "https://acme.example.org" 3 = Some texts
    ∧ length texts ≤ 12 ∧ (Z.of_nat (length texts) ≤ 3)%Z.
Proof.
  assert (∃ texts, scrape_site urljoin_paths long_page long_page
                     "https://acme.example.org" 3 = Some texts)
    as [texts Htexts].
  { eexists. vm_compute. reflexivity. }
  destruct (scrape_site_bounds urljoin_paths long_page long_page
              "https://acme.example.org" 3) as [_ Hbounds].
  destruct (Hbounds texts Htexts)
    as (urls & _ & _ & _ & _ & H12 & Hmax & _).
  exists texts. split; [exact Htexts|]. split; [exact H12 | exact Hmax].
Defined.

(** What [normalize_to_columns] returns on a record the reconciler
    returned. *)
Lemma normalize_of_sanitized dict_keys py_str org (r : gmap string value)
    h s r' cols out :
  sanitize_record py_str org r h s = Some r' →
  normalize_to_columns dict_keys r' cols = Some out →
  ∃ c t,
    resolved_classification r h = Some c
    ∧ (nonempty (strip c) = true ∨ c = fallback_classification h)
    ∧ (c ≠ "Venture Capital Funds" → t = VNone)
    ∧ (t = VNone ∨ ∃ x, t = VStr x)
    ∧ out
      = <[col_note cols := VStr (reconciled_note py_str org r s c)]>
          (<[col_angel_type cols :=
               if String.eqb c "Angel Investors"
               then reconciled_angel_type org r c else VNone]>
             (<[col_ticket_size_vc cols := t]>
                (<[col_sector cols :=
                     VStr (join ", "
                             (map_sector_label_for_sheet
                                <$> reconciled_sectors py_str r s c))]>
                   (<[col_funding_classification cols := VStr c]> ∅)))).
Proof.
  intros Hs Hn.
  destruct (sanitize_record_fields _ _ _ _ _ _ Hs)
    as (c & Hres & Hc & Hfc & Hat & Hsec & Hai & _).
  destruct (reconciled_sectors_props py_str r s c) as (Hne & _).
  set (L := reconciled_sectors py_str r s c) in *.
  unfold normalize_to_columns in Hn.
  assert (dict_get r' "funding_classification" = VStr c) as Hfc'
      by (unfold dict_get; by rewrite Hfc).
  assert (dict_get r' "sectors" = VList (VStr <$> L)) as Hsec'
      by (unfold dict_get; by rewrite Hsec).
  assert (dict_get r' "additional_info"
          = VStr (reconciled_note py_str org r s c)) as Hai'
      by (unfold dict_get; by rewrite Hai).
  assert (dict_get r' "angel_type" = reconciled_angel_type org r c) as Hat'
      by (unfold dict_get; by rewrite Hat).
  rewrite Hfc', Hsec', Hai', Hat' in Hn.
  assert (py_or (VList (VStr <$> L)) (VList []) = VList (VStr <$> L)) as Hor
      by by destruct L.
  rewrite Hor in Hn.
  assert (iter_strings dict_keys (VList (VStr <$> L)) = Some L) as Hit
      by (cbn [iter_strings]; by apply mapM_fmap_Some).
  rewrite Hit in Hn. cbn [mbind option_bind] in Hn.
  rewrite !eq_str_VStr in Hn.
  destruct (if (c =? "Venture Capital Funds")%string
               && truthy (py_or (dict_get r' "stages") (VList []))
            then _ else _) as [t|] eqn:Et; [|done].
  cbn [mbind option_bind] in Hn. injection Hn as <-.
  exists c, t. split_and!; try done.
  - intros Hvc. destruct (String.eqb_spec c "Venture Capital Funds"); [done|].
    cbn [andb] in Et. by injection Et as <-.
  - destruct ((c =? "Venture Capital Funds")%string
              && truthy (py_or (dict_get r' "stages") (VList [])));
      [|left; by injection Et as <-].
    destruct (iter_strings dict_keys _) as [st|]; [|done].
    cbn [mbind option_bind] in Et. injection Et as <-. right. by eexists.
  - subst L. by destruct (reconciled_sectors py_str r s c).
Qed.

(** The write alias of the code is the sheet label. *)
Lemma map_sector_label_sheet x : map_sector_label_for_sheet x = sheet_label x.
Proof.
  unfold map_sector_label_for_sheet, sheet_label, SECTOR_ALIAS_WRITE.
  cbn [table_get assoc].
  destruct (String.eqb_spec x "Information & Communication Technology (ICT)")
    as [->|Hn]; [done|].
  replace (String.eqb "Information & Communication Technology (ICT)" x)
    with false by (symmetry; rewrite String.eqb_sym; by apply String.eqb_neq).
  by destruct (String.eqb_spec "ICT" x) as [<-|].
Qed.

Section Contract.

Variable py_str : value -> string.
Variable json_loads : string -> option value.
Variable urlparse : string -> option Web.parsed_url.
Variable parse_qs : string -> option (gmap string (list string)).
Variable dict_keys : gmap string value -> list string.
Variable urljoin : string -> string -> option string.
Variable safe_search : string -> Z -> option (list Web.hit).
Variable trafilatura_extract : string -> string.
Variable fetch_and_parse : string -> string.
Variable call_ollama : string -> string -> Z -> spec_float -> option string.
Variable call_openai : string -> string -> Z -> spec_float -> option string.
Variable INSTRUCTIONS : string.

(** X19. Whatever the search, the pages and the model return, a row that
    is written (the output columns having distinct names) has exactly the
    five output columns: a classification that is not blank; a sector
    cell that joins with ", " the sheet labels of one to four distinct
    sectors of the allow-list, in their order (the long form of ICT is
    written "ICT", so that two of them can be written alike); a note of
    more than 10 and at most 223 characters; an angel sub-type that is
    filled in exactly for "Angel Investors"; and a ticket cell that is
    null or a string, and null unless the classification is "Venture
    Capital Funds". *)
Theorem process_row_columns cfg name country website out :
  process_row py_str json_loads urlparse parse_qs dict_keys urljoin
    safe_search trafilatura_extract fetch_and_parse call_ollama call_openai
    INSTRUCTIONS cfg name country website = Some out →
  NoDup [ col_funding_classification (excel_out_cols cfg);
          col_sector (excel_out_cols cfg);
          col_ticket_size_vc (excel_out_cols cfg);
          col_angel_type (excel_out_cols cfg);
          col_note (excel_out_cols cfg) ] →
  ∃ c L note a t,
    nonempty name = true
    ∧ nonempty (strip c) = true
    ∧ L ≠ [] ∧ NoDup L ∧ length L ≤ 4 ∧ Forall (.∈ ALLOWED_SECTORS) L
    ∧ 10 < String.length note ≤ 223
    ∧ out !! col_funding_classification (excel_out_cols cfg)
      = Some (VStr c)
    ∧ out !! col_sector (excel_out_cols cfg)
      = Some (VStr (join ", " (sheet_label <$> L)))
    ∧ out !! col_note (excel_out_cols cfg) = Some (VStr note)
    ∧ out !! col_angel_type (excel_out_cols cfg) = Some a
    ∧ (truthy a = true ↔ c = "Angel Investors")
    ∧ out !! col_ticket_size_vc (excel_out_cols cfg) = Some t
    ∧ (t = VNone ∨ ∃ x, t = VStr x)
    ∧ (c ≠ "Venture Capital Funds" → t = VNone)
    ∧ (∀ k, is_Some (out !! k) ↔
            k ∈ [ col_funding_classification (excel_out_cols cfg);
                  col_sector (excel_out_cols cfg);
                  col_ticket_size_vc (excel_out_cols cfg);
                  col_angel_type (excel_out_cols cfg);
                  col_note (excel_out_cols cfg) ]).
Proof.
  intros Hrow Hcols. unfold process_row in Hrow.
  destruct (nonempty name) eqn:Hname; [|done]. cbn [negb] in Hrow.
  cbv zeta in Hrow.
  match type of Hrow with
  | (?x ≫= _) = _ => destruct x as [texts|]; [|done]
  end.
  cbn [mbind option_bind] in Hrow.
  match type of Hrow with
  | context [Classify.heuristic_funding_classification name ?j] =>
      destruct (RowClaims.heuristic_label name j) as [Hstrip Hne];
      set (h := Classify.heuristic_funding_classification name j) in *
  end.
  clearbody h.
  match type of Hrow with
  | match ?rec with _ => _ end = _ => destruct rec as [| | | | | |r]; try done
  end.
  match type of Hrow with
  | sanitize_record _ ?o _ _ ?s ≫= _ = _ =>
      set (org := o) in *; set (inferred := s) in *
  end.
  clearbody org inferred.
  destruct (sanitize_record py_str org r h inferred) as [r'|] eqn:Hs; [|done].
  cbn [mbind option_bind] in Hrow.
  destruct (normalize_of_sanitized _ _ _ _ _ _ _ _ _ Hs Hrow)
    as (c & t & _ & Hc & Ht & Hshape & ->).
  destruct (reconciled_sectors_props py_str r inferred c)
    as (HL1 & HL2 & HL3 & HL4).
  destruct (reconciled_note_props py_str org r inferred c)
    as (Hlong & _ & Hlen).
  set (L := reconciled_sectors py_str r inferred c) in *.
  set (note := reconciled_note py_str org r inferred c) in *.
  clearbody L note.
  set (cols := excel_out_cols cfg) in *. clearbody cols.
  assert (Hd : col_funding_classification cols ≠ col_sector cols
               ∧ col_funding_classification cols ≠ col_ticket_size_vc cols
               ∧ col_funding_classification cols ≠ col_angel_type cols
               ∧ col_funding_classification cols ≠ col_note cols
               ∧ col_sector cols ≠ col_ticket_size_vc cols
               ∧ col_sector cols ≠ col_angel_type cols
               ∧ col_sector cols ≠ col_note cols
               ∧ col_ticket_size_vc cols ≠ col_angel_type cols
               ∧ col_ticket_size_vc cols ≠ col_note cols
               ∧ col_angel_type cols ≠ col_note cols).
  { repeat (apply NoDup_cons in Hcols as [? Hcols]).
    repeat match goal with
           | H : _ ∉ _ :: _ |- _ => rewrite !not_elem_of_cons in H
           end.
    destruct_and!. split_and!; done. }
  destruct Hd as (D1 & D2 & D3 & D4 & D5 & D6 & D7 & D8 & D9 & D10).
  exists c, L, note,
    (if String.eqb c "Angel Investors"
     then reconciled_angel_type org r c else VNone), t.
  split_and!; try done.
  - destruct Hc as [Hc| ->]; [done|].
    unfold fallback_classification. by rewrite Hne, Hstrip.
  - cbn [long_text] in Hlong.
    destruct (truthy (VStr note) && (10 <? String.length (strip note)))
      eqn:E; [|done].
    apply andb_prop in E as [_ E]. apply Nat.ltb_lt in E.
    pose proof (length_strip note). lia.
  - rewrite !lookup_insert_ne by done. by rewrite lookup_insert_eq.
  - rewrite !lookup_insert_ne by done. rewrite lookup_insert_eq.
    do 3 f_equal. apply list_fmap_ext. intros i x _.
    apply map_sector_label_sheet.
  - by rewrite lookup_insert_eq.
  - rewrite !lookup_insert_ne by done. by rewrite lookup_insert_eq.
  - unfold reconciled_angel_type.
    destruct (String.eqb_spec c "Angel Investors") as [->|Hn].
    + split; [done|]. intros _.
      destruct (truthy (dict_get r "angel_type")) eqn:Et; [done|].
      apply truthy_angel_type_of_name.
    + split; [done|]. intros ->. done.
  - rewrite !lookup_insert_ne by done. by rewrite lookup_insert_eq.
  - intros k. rewrite !elem_of_cons, elem_of_nil.
    rewrite !lookup_insert_is_Some, lookup_empty.
    split.
    + intros H. repeat (destruct H as [<-|[_ H]]; [tauto|]).
      by apply is_Some_None in H.
    + intros H. destruct (decide (col_note cols = k)); [tauto|].
      right; split; [done|].
      destruct (decide (col_angel_type cols = k)); [tauto|].
      right; split; [done|].
      destruct (decide (col_ticket_size_vc cols = k)); [tauto|].
      right; split; [done|].
      destruct (decide (col_sector cols = k)); [tauto|].
      right; split; [done|].
      destruct (decide (col_funding_classification cols = k)); [tauto|].
      destruct H as [->|[->|[->|[->|[->|[]]]]]]; done.
Qed.

(** X20. A model answer that is valid JSON but not an object (a list, a
    string, a number, null) is returned by [extract_record] as it is; the
    reconciler cannot read it, and the row is skipped, without the
    heuristic record being tried. *)
Theorem process_row_skips_non_object cfg name country website answer v :
  (llm_provider cfg = "ollama" ∧
   ∀ m p t T, call_ollama m p t T = Some answer)
  ∨ (llm_provider cfg = "openai" ∧
     ∀ m p t T, call_openai m p t T = Some answer) →
  json_loads answer = Some v →
  (∀ d, v ≠ VDict d) →
  (∀ org texts,
     Extract.extract_record json_loads call_ollama call_openai
       (llm_provider cfg) (llm_model cfg) INSTRUCTIONS org texts
       (llm_max_tokens cfg) (llm_temperature cfg) = Some v)
  ∧ process_row py_str json_loads urlparse parse_qs dict_keys urljoin
      safe_search trafilatura_extract fetch_and_parse call_ollama
      call_openai INSTRUCTIONS cfg name country website = None.
Proof.
  intros Hp Hj Hv.
  assert (Hex : ∀ org texts,
     Extract.extract_record json_loads call_ollama call_openai
       (llm_provider cfg) (llm_model cfg) INSTRUCTIONS org texts
       (llm_max_tokens cfg) (llm_temperature cfg) = Some v).
  { intros org texts. unfold Extract.extract_record.
    destruct Hp as [[-> Hc]|[-> Hc]]; cbn [String.eqb Ascii.eqb Bool.eqb];
      rewrite Hc; cbn [mbind option_bind]; unfold Extract.parse_output;
      by rewrite Hj. }
  split; [exact Hex|].
  unfold process_row. destruct (nonempty name); [|done]. cbn [negb].
  cbv zeta.
  match goal with
  | |- (?x ≫= _) = _ => destruct x as [texts|]; [|done]
  end.
  cbn [mbind option_bind]. rewrite Hex.
  destruct v as [| | | | | |d]; try done. by destruct (Hv d).
Qed.

End Contract.

Lemma process_row_columns_witness :
  ∃ out,
    process_row str_of_scalar loads_embedded urlparse_raises parse_qs_raises
      keys_listed urljoin_paths search_down page_down page_down
      answers_wrapped provider_down "Return JSON." sheet_config
      "Acme Angel Network" (Some "Lebanon") None = Some out
    ∧ out !! "Funding Classification" = Some (VStr "Accelerators")
    ∧ (∃ a, out !! "Angel Type" = Some a ∧ truthy a = false)
    ∧ out !! "Ticket Size (VC)" = Some VNone.
Proof.
  assert (∃ out,
    process_row str_of_scalar loads_embedded urlparse_raises parse_qs_raises
      keys_listed urljoin_paths search_down page_down page_down
      answers_wrapped provider_down "Return JSON." sheet_config
      "Acme Angel Network" (Some "Lebanon") None = Some out
    ∧ out !! "Funding Classification" = Some (VStr "Accelerators"))
    as (out & Hout & Hfc).
  { eexists. split; vm_compute; reflexivity. }
  destruct (process_row_columns str_of_scalar loads_embedded urlparse_raises
              parse_qs_raises keys_listed urljoin_paths search_down page_down
              page_down answers_wrapped provider_down "Return JSON."
              sheet_config "Acme Angel Network" (Some "Lebanon") None out
              Hout)
    as (c & L & note & a & t & _ & _ & _ & _ & _ & _ & _ & Hc & _ & _ & Ha
        & Hat & Ht & _ & Hvc & _).
  { apply (bool_decide_unpack _). vm_compute. exact I. }
  assert (Some (VStr c) = Some (VStr "Accelerators")) as [= ->]
      by (rewrite <- Hfc; symmetry; exact Hc).
  exists out. split; [exact Hout|]. split; [exact Hfc|]. split.
  - exists a. split; [exact Ha|].
    destruct (truthy a); [|reflexivity].
    destruct Hat as [Hat _]. discriminate (Hat eq_refl).
  - etrans; [exact Ht|]. f_equal. apply Hvc. discriminate.
Defined.

Lemma process_row_skips_non_object_witness :
  process_row str_of_scalar loads_list urlparse_raises parse_qs_raises
    keys_listed urljoin_paths search_down page_down page_down answers_list
    provider_down "Return JSON." sheet_config "Acme Angel Network"
    (Some "Lebanon") None = None.
Proof.
  apply (process_row_skips_non_object str_of_scalar loads_list
           urlparse_raises parse_qs_raises keys_listed urljoin_paths
           search_down
           page_down page_down answers_list provider_down "Return JSON."
           sheet_config "Acme Angel Network" (Some "Lebanon") None
           "[]" (VList [])).
  - left. split; [reflexivity | intros; reflexivity].
  - reflexivity.
  - discriminate.
Defined.

End RowMore.

(* ===================================================================== *)
(** * src/utils.py: slugs and cleaned text *)
(* ===================================================================== *)

Module UtilsMore.

Import PyStr PyStrFacts Utils Shapes.

Section Runs.

(** A class [keep] of characters, a separator outside it, and a set [q]
    of characters to strip that has the separator and nothing of
    [keep]. *)
Variable keep : ascii -> bool.
Variable sep : ascii.
Variable q : ascii -> bool.
Hypothesis keep_sep : keep sep = false.
Hypothesis q_sep : q sep = true.
Hypothesis q_keep : ∀ c, keep c = true → q c = false.

Lemma rstrip_of_keep c s :
  keep c = true → rstrip_of q (String c s) = String c (rstrip_of q s).
Proof.
  intros Hc. cbn [rstrip_of]. rewrite (q_keep c Hc).
  by destruct (rstrip_of q s).
Qed.

Lemma lstrip_sub_runs b s :
  lstrip_of q (sub_runs keep sep b s) = sub_runs keep sep true s.
Proof.
  revert b; induction s as [|c s IH]; intros b; [done|].
  cbn [sub_runs]. destruct (keep c) eqn:Hc.
  - cbn [lstrip_of]. by rewrite (q_keep c Hc).
  - destruct b; [apply IH|]. cbn [lstrip_of]. rewrite q_sep. apply IH.
Qed.

Lemma rstrip_sub_runs s :
  words_tail keep sep (rstrip_of q (sub_runs keep sep false s)) = true
  ∧ words_form keep sep (rstrip_of q (sub_runs keep sep true s)) = true.
Proof.
  induction s as [|c s [IH1 IH2]]; [done|].
  cbn [sub_runs]. destruct (keep c) eqn:Hc.
  - rewrite rstrip_of_keep by done. cbn [words_tail words_form].
    by rewrite Hc, IH1.
  - split; [|done]. cbn [rstrip_of].
    destruct (rstrip_of q (sub_runs keep sep true s)) as [|d r] eqn:Er.
    + by rewrite q_sep.
    + cbn [words_form] in IH2. apply andb_prop in IH2 as [Hd Hr].
      cbn [words_tail]. by rewrite keep_sep, Ascii.eqb_refl, Hd, Hr.
Qed.

Lemma strip_sub_runs_form s :
  words_form keep sep (strip_of q (sub_runs keep sep false s)) = true.
Proof. unfold strip_of. rewrite lstrip_sub_runs. apply rstrip_sub_runs. Qed.

Lemma words_tail_fixed s :
  words_tail keep sep s = true →
  sub_runs keep sep false s = s ∧ rstrip_of q s = s.
Proof.
  induction s as [|c s IH]; [done|]. cbn [words_tail].
  destruct (keep c) eqn:Hc.
  - intros Hs. destruct (IH Hs) as [IH1 IH2].
    rewrite rstrip_of_keep by done. cbn [sub_runs]. by rewrite Hc, IH1, IH2.
  - intros Hs. apply andb_prop in Hs as [Hsep Hs].
    apply Ascii.eqb_eq in Hsep as ->.
    destruct s as [|d s']; [done|]. apply andb_prop in Hs as [Hd Hs].
    destruct (IH Hs) as [IH1 IH2]. split.
    + cbn [sub_runs] in *. rewrite Hc. rewrite Hd in *. by rewrite IH1.
    + change (rstrip_of q (String sep (String d s')))
        with (match rstrip_of q (String d s') with
              | EmptyString => if q sep then EmptyString
                               else String sep EmptyString
              | r => String sep r
              end).
      by rewrite IH2.
Qed.

Lemma words_form_fixed s :
  words_form keep sep s = true →
  strip_of q (sub_runs keep sep false s) = s.
Proof.
  destruct s as [|c s]; [done|]. cbn [words_form]. intros H.
  apply andb_prop in H as [Hc Hs].
  destruct (words_tail_fixed s Hs) as [H1 H2].
  unfold strip_of. cbn [sub_runs]. rewrite Hc, H1. cbn [lstrip_of].
  rewrite (q_keep c Hc). rewrite rstrip_of_keep by done. by rewrite H2.
Qed.

End Runs.

Lemma slug_char_lower c : slug_char c = true → lower_char c = c.
Proof.
  destruct c as [[] [] [] [] [] [] [] []]; vm_compute; intros H;
    first [discriminate H | reflexivity].
Qed.

Lemma slug_words_lower s :
  words_tail slug_char "-" s = true → lower s = s.
Proof.
  induction s as [|c s IH]; [done|]. cbn [words_tail lower].
  destruct (slug_char c) eqn:Hc.
  - intros Hs. by rewrite slug_char_lower, IH.
  - intros Hs. apply andb_prop in Hs as [Hsep Hs].
    apply Ascii.eqb_eq in Hsep as ->.
    destruct s as [|d s']; [done|]. apply andb_prop in Hs as [_ Hs].
    rewrite IH by done. done.
Qed.

Lemma lstrip_lstrip_of s : lstrip s = lstrip_of isspace s.
Proof.
  induction s as [|c s IH]; [done|]. cbn [lstrip lstrip_of]. by rewrite IH.
Qed.

Lemma rstrip_rstrip_of s : rstrip s = rstrip_of isspace s.
Proof.
  induction s as [|c s IH]; [done|]. cbn [rstrip rstrip_of]. by rewrite IH.
Qed.

Lemma strip_strip_of s : strip s = strip_of isspace s.
Proof. unfold strip, strip_of. by rewrite lstrip_lstrip_of, rstrip_rstrip_of. Qed.

(** X21. A slug is empty or made of words of the characters a-z and 0-9
    joined by single hyphens, with no hyphen at either end; [slugify]
    leaves every text of that form as it is, so that applying it twice
    is applying it once. *)
Theorem slugify_slug text :
  words_form slug_char "-" (slugify text) = true
  ∧ (∀ s, words_form slug_char "-" s = true → slugify s = s)
  ∧ slugify (slugify text) = slugify text.
Proof.
  assert (Hform : ∀ t, words_form slug_char "-" (slugify t) = true).
  { intros t. unfold slugify. apply strip_sub_runs_form; try done.
    intros c Hc. unfold is_hyphen.
    destruct (Ascii.eqb_spec c "-") as [->|]; [by vm_compute in Hc | done]. }
  assert (Hfix : ∀ s, words_form slug_char "-" s = true → slugify s = s).
  { intros s Hs. unfold slugify.
    assert (lower s = s) as ->.
    { destruct s as [|c s]; [done|]. cbn [words_form] in Hs.
      apply andb_prop in Hs as [Hc Hs]. cbn [lower].
      by rewrite slug_char_lower, slug_words_lower. }
    apply words_form_fixed; try done.
    intros c Hc. unfold is_hyphen.
    destruct (Ascii.eqb_spec c "-") as [->|]; [by vm_compute in Hc | done]. }
  split_and!; [apply Hform | exact Hfix | apply Hfix, Hform].
Qed.

(** X22. A cleaned text is empty or made of words without white space
    joined by single spaces, with no space at either end; [clean_text]
    leaves every text of that form as it is, so that applying it twice
    is applying it once. *)
Theorem clean_text_words text :
  words_form (fun c => negb (isspace c)) " " (clean_text text) = true
  ∧ (∀ s, words_form (fun c => negb (isspace c)) " " s = true →
          clean_text s = s)
  ∧ clean_text (clean_text text) = clean_text text.
Proof.
  assert (Hform : ∀ t, words_form (fun c => negb (isspace c)) " "
                         (clean_text t) = true).
  { intros t. unfold clean_text. rewrite strip_strip_of.
    apply strip_sub_runs_form; try done.
    intros c Hc. by apply negb_true_iff in Hc. }
  assert (Hfix : ∀ s, words_form (fun c => negb (isspace c)) " " s = true →
                      clean_text s = s).
  { intros s Hs. unfold clean_text. rewrite strip_strip_of.
    apply words_form_fixed; try done.
    intros c Hc. by apply negb_true_iff in Hc. }
  split_and!; [apply Hform | exact Hfix | apply Hfix, Hform].
Qed.

End UtilsMore.
